(** * quick-search: the employee directory over SQLite

    A shallow embedding of [app/models.py], [app/database.py],
    [app/repository.py], [app/utils.py] and [main.py] (the modes 1 to 4
    and 8 and the dispatch), followed by the properties of the storage
    layer, of the data generator and of the modes.

    Conventions of the embedding.
    - A Python [str] is a [string]: the text as its UTF-8 bytes.  SQLite
      compares TEXT with the BINARY collation, i.e. byte-wise, which is
      [String.compare].  [str.strip] and [str.capitalize] act here on the
      ASCII range, as Python defines them there; bytes above 127 are left
      alone.
    - Python and SQLite integers are [Z].
    - A call that may raise returns a [result]; code that works on the
      database handle lives in the state-and-exception monad [M].
    - What SQLite itself does (statements, constraints, [changes()],
      transactions) is modelled in [Module sqlite] after the engine's
      documentation; everything else is translated from the Python source.
    - The generator of [app/utils.py] draws from a [random.Random]: its
      state is a type [rng] and its primitive [_randbelow] a function, both
      left open; date arithmetic is [Module datetime], after the ordinals
      of the Python library.
    - Standard output is the list of the printed lines.
    - ORDER BY leaves the order of rows with equal keys to the engine;
      [sqlite.order_by] fixes one such order, and no statement below
      depends on which.  Likewise the model leaves the AUTOINCREMENT
      counter alone when an INSERT OR IGNORE writes nothing, where the
      engine may advance it: ids are asserted only for a row written from
      a given counter. *)

From Stdlib Require Import List ZArith Lia Bool Ascii String DecimalString.
From Stdlib Require Import Sorting.Sorted Sorting.Permutation.
Import ListNotations.

#[local] Open Scope string_scope.
#[local] Open Scope list_scope.
#[local] Open Scope Z_scope.

(* ================================================================== *)
(** ** Python values: exceptions, results, iterables, strings          *)
(* ================================================================== *)

Module py.

(** The exception classes the code can meet.  [KeyboardInterrupt] and
    [SystemExit] derive from [BaseException] only, the others from
    [Exception]. *)
Inductive exn_class : Type :=
  | ValueError
  | AttributeError
  | RuntimeError
  | OperationalError
  | IntegrityError
  | ProgrammingError
  | KeyboardInterrupt
  | SystemExit.

Record exn : Type := mk_exn { exn_cls : exn_class; exn_msg : string }.

(** [isinstance(e, Exception)]: what [except Exception] catches. *)
Definition is_Exception (e : exn) : bool :=
  match exn_cls e with
  | KeyboardInterrupt | SystemExit => false
  | _ => true
  end.

Inductive result (A : Type) : Type :=
  | Ok (a : A)
  | Raised (e : exn).
Arguments Ok {A} a.
Arguments Raised {A} e.

(** An iterable as the consumer sees it: the items it yields and then
    either exhaustion ([None]) or an exception raised by [next]. *)
Record iterable (A : Type) : Type :=
  mk_iter { yielded : list A; fault : option exn }.
Arguments mk_iter {A} yielded fault.
Arguments yielded {A} i.
Arguments fault {A} i.

Definition iter_of_list {A} (l : list A) : iterable A := mk_iter l None.

(** [[f(x) for x in l]] where [f] may raise: the first exception wins. *)
Fixpoint list_comprehension {A B} (f : A -> result B) (l : list A)
  : result (list B) :=
  match l with
  | [] => Ok []
  | x :: l' =>
      match f x with
      | Raised e => Raised e
      | Ok y =>
          match list_comprehension f l' with
          | Raised e => Raised e
          | Ok ys => Ok (y :: ys)
          end
      end
  end.

(** Statements run in sequence over a state [S], each of which may raise:
    an exception ends the sequence and keeps the state reached. *)
Definition state (S A : Type) : Type := S -> result A * S.

Definition ret {S A : Type} (a : A) : state S A := fun s => (Ok a, s).

Definition raise {S A : Type} (e : exn) : state S A := fun s => (Raised e, s).

Definition bind {S A B : Type} (m : state S A) (k : A -> state S B)
  : state S B :=
  fun s =>
    match m s with
    | (Ok a, s') => k a s'
    | (Raised e, s') => (Raised e, s')
    end.

(** A value computed without the state, or the exception it raised. *)
Definition of_result {S A : Type} (r : result A) : state S A :=
  fun s => (r, s).

(** [str.isspace] on one ASCII character: TAB, LF, VT, FF, CR, the four
    separators FS, GS, RS, US, and the blank. *)
Definition isspace (c : ascii) : bool :=
  let n := Z.of_nat (nat_of_ascii c) in
  ((9 <=? n) && (n <=? 13)) || ((28 <=? n) && (n <=? 32)).

Fixpoint lstrip (s : string) : string :=
  match s with
  | EmptyString => EmptyString
  | String c s' => if isspace c then lstrip s' else s
  end.

Fixpoint rstrip (s : string) : string :=
  match s with
  | EmptyString => EmptyString
  | String c s' =>
      match rstrip s' with
      | EmptyString => if isspace c then EmptyString else String c EmptyString
      | r => String c r
      end
  end.

(** [str.strip()] *)
Definition strip (s : string) : string := rstrip (lstrip s).

Definition is_upper (c : ascii) : bool :=
  let n := nat_of_ascii c in (65 <=? n)%nat && (n <=? 90)%nat.
Definition is_lower (c : ascii) : bool :=
  let n := nat_of_ascii c in (97 <=? n)%nat && (n <=? 122)%nat.

Definition to_lower (c : ascii) : ascii :=
  if is_upper c then ascii_of_nat (nat_of_ascii c + 32) else c.
Definition to_upper (c : ascii) : ascii :=
  if is_lower c then ascii_of_nat (nat_of_ascii c - 32) else c.

Fixpoint lower (s : string) : string :=
  match s with
  | EmptyString => EmptyString
  | String c s' => String (to_lower c) (lower s')
  end.

(** [str.capitalize()]: first character upper-cased, the rest lower-cased. *)
Definition capitalize (s : string) : string :=
  match s with
  | EmptyString => EmptyString
  | String c s' => String (to_upper c) (lower s')
  end.

(** A string with no whitespace at either end. *)
Definition starts_with_space (s : string) : bool :=
  match s with
  | EmptyString => false
  | String c _ => isspace c
  end.

Fixpoint ends_with_space (s : string) : bool :=
  match s with
  | EmptyString => false
  | String c EmptyString => isspace c
  | String _ s' => ends_with_space s'
  end.

Definition trimmed (s : string) : Prop :=
  starts_with_space s = false /\ ends_with_space s = false.

(** ** [datetime.date] *)

Record date : Type := mk_date { year : Z; month : Z; day : Z }.

Definition is_leap (y : Z) : bool :=
  (y mod 4 =? 0) && (negb (y mod 100 =? 0) || (y mod 400 =? 0)).

Definition days_in_month (y m : Z) : Z :=
  if m =? 2 then (if is_leap y then 29 else 28)
  else if (m =? 4) || (m =? 6) || (m =? 9) || (m =? 11) then 30
  else 31.

(** What the [date] constructor accepts: [MINYEAR = 1], [MAXYEAR = 9999]. *)
Definition valid_date (d : date) : bool :=
  (1 <=? year d) && (year d <=? 9999) &&
  (1 <=? month d) && (month d <=? 12) &&
  (1 <=? day d) && (day d <=? days_in_month (year d) (month d)).

Definition digit_char (n : Z) : ascii :=
  ascii_of_nat (48 + Z.to_nat (n mod 10)).

Definition pad2 (n : Z) : string :=
  String (digit_char (n / 10)) (String (digit_char n) EmptyString).

Definition pad4 (n : Z) : string :=
  String (digit_char (n / 1000)) (String (digit_char (n / 100))
    (String (digit_char (n / 10)) (String (digit_char n) EmptyString))).

(** [date.isoformat()]: [YYYY-MM-DD]. *)
Definition isoformat (d : date) : string :=
  (pad4 (year d) ++ "-" ++ pad2 (month d) ++ "-" ++ pad2 (day d))%string.

Definition digit_val (c : ascii) : option Z :=
  let n := Z.of_nat (nat_of_ascii c) in
  if (48 <=? n) && (n <=? 57) then Some (n - 48) else None.

(** The directive [%Y]: exactly four digits. *)
Definition parse_Y (s : string) : option (Z * string) :=
  match s with
  | String a (String b (String c (String d rest))) =>
      match digit_val a, digit_val b, digit_val c, digit_val d with
      | Some x, Some y, Some z, Some w =>
          Some (1000 * x + 100 * y + 10 * z + w, rest)
      | _, _, _, _ => None
      end
  | _ => None
  end.

(** The directive [%m]: [1[0-2]|0[1-9]|[1-9]], alternatives in that order. *)
Definition parse_m (s : string) : option (Z * string) :=
  match s with
  | String a rest =>
      match digit_val a with
      | None => None
      | Some x =>
          let two :=
            match rest with
            | String b rest' =>
                match digit_val b with
                | Some y =>
                    if ((x =? 1) && (y <=? 2)) || ((x =? 0) && (1 <=? y))
                    then Some (10 * x + y, rest') else None
                | None => None
                end
            | EmptyString => None
            end in
          match two with
          | Some r => Some r
          | None => if 1 <=? x then Some (x, rest) else None
          end
      end
  | EmptyString => None
  end.

(** The directive [%d]: [3[01]|[12]\d|0[1-9]|[1-9]| [1-9]]. *)
Definition parse_d (s : string) : option (Z * string) :=
  match s with
  | String a rest =>
      match digit_val a with
      | Some x =>
          let two :=
            match rest with
            | String b rest' =>
                match digit_val b with
                | Some y =>
                    if ((x =? 3) && (y <=? 1)) || ((1 <=? x) && (x <=? 2))
                       || ((x =? 0) && (1 <=? y))
                    then Some (10 * x + y, rest') else None
                | None => None
                end
            | EmptyString => None
            end in
          match two with
          | Some r => Some r
          | None => if 1 <=? x then Some (x, rest) else None
          end
      | None =>
          if Ascii.eqb a " " then
            match rest with
            | String b rest' =>
                match digit_val b with
                | Some y => if 1 <=? y then Some (y, rest') else None
                | None => None
                end
            | EmptyString => None
            end
          else None
      end
  | EmptyString => None
  end.

Definition expect_dash (s : string) : option string :=
  match s with
  | String c rest => if Ascii.eqb c "-" then Some rest else None
  | EmptyString => None
  end.

(** [datetime.strptime(s, "%Y-%m-%d").date()]: the format must match, no
    text may remain after it, and the fields must make a date. *)
Definition strptime_ymd (s : string) : result date :=
  let bad := Raised (mk_exn ValueError "time data does not match format '%Y-%m-%d'") in
  match parse_Y s with
  | None => bad
  | Some (y, s1) =>
      match expect_dash s1 with
      | None => bad
      | Some s2 =>
          match parse_m s2 with
          | None => bad
          | Some (m, s3) =>
              match expect_dash s3 with
              | None => bad
              | Some s4 =>
                  match parse_d s4 with
                  | None => bad
                  | Some (d, EmptyString) =>
                      let dt := mk_date y m d in
                      if valid_date dt then Ok dt
                      else Raised (mk_exn ValueError "date value out of range")
                  | Some (_, String _ _) =>
                      Raised (mk_exn ValueError "unconverted data remains")
                  end
              end
          end
      end
  end.

End py.

Notation "x <- m ;; k" := (py.bind m (fun x => k))
  (at level 61, m at next level, right associativity).
Notation "m ;; k" := (py.bind m (fun _ => k))
  (at level 61, right associativity).


(* ================================================================== *)
(** ** [app/models.py]                                                 *)
(* ================================================================== *)

Module models.
Import py.

Record Employee : Type :=
  mk_Employee { full_name : string; birth_date : date; gender : string }.

(** [Employee.__post_init__] *)
Definition __post_init__ (self : Employee) : Employee :=
  {| full_name := strip (full_name self);
     birth_date := birth_date self;
     gender := capitalize (strip (gender self)) |}.

(** [Employee(full_name=..., birth_date=..., gender=...)]: the generated
    [__init__] stores the fields and calls [__post_init__]. *)
Definition new_Employee (full_name : string) (birth_date : date)
    (gender : string) : Employee :=
  __post_init__ (mk_Employee full_name birth_date gender).

Definition is_gender (g : string) : bool :=
  String.eqb g "Male" || String.eqb g "Female".

(** [Employee.from_strings] *)
Definition from_strings (full_name birth_date gender : string)
  : result Employee :=
  match strptime_ymd birth_date with
  | Raised e => Raised e
  | Ok parsed =>
      let gender_norm := capitalize (strip gender) in
      if negb (is_gender gender_norm)
      then Raised (mk_exn ValueError "Gender must be 'Male' or 'Female'")
      else Ok (new_Employee full_name parsed gender_norm)
  end.

(** [Employee.to_row] *)
Definition to_row (self : Employee) : string * string * string :=
  (full_name self, isoformat (birth_date self), gender self).

(** The comparison [(m1, d1) < (m2, d2)] of two pairs of integers. *)
Definition pair_ltb (a b : Z * Z) : bool :=
  (fst a <? fst b) || ((fst a =? fst b) && (snd a <? snd b)).

(** [Employee.age].  [date_today] is what [date.today()] returns at the
    call; a [date] is always truthy, so [reference_date or date.today()]
    is the reference date when one is given. *)
Definition age (self : Employee) (reference_date : option date)
    (date_today : date) : Z :=
  let today := match reference_date with Some d => d | None => date_today end in
  let years := year today - year (birth_date self) in
  if pair_ltb (month today, day today)
              (month (birth_date self), day (birth_date self))
  then years - 1
  else years.

(** The loop of [chunked]: the batches yielded while the input lasts, and
    the batch that is still open when the input is exhausted. *)
Fixpoint chunked_loop (items : list Employee) (size : Z)
    (batch : list Employee) : list (list Employee) * list Employee :=
  match items with
  | [] => ([], batch)
  | item :: rest =>
      let batch := batch ++ [item] in
      if Z.of_nat (List.length batch) >=? size
      then let (more, last) := chunked_loop rest size [] in (batch :: more, last)
      else chunked_loop rest size batch
  end.

(** [chunked(iterable, size)].  When the input raises, the batches
    completed before that point have been yielded and the exception goes
    through the generator; otherwise a non-empty open batch is yielded
    last. *)
Definition chunked (it : iterable Employee) (size : Z)
  : iterable (list Employee) :=
  let (full, last) := chunked_loop (yielded it) size [] in
  match fault it with
  | Some e => mk_iter full (Some e)
  | None =>
      match last with
      | [] => mk_iter full None
      | _ :: _ => mk_iter (full ++ [last]) None
      end
  end.

End models.

(* ================================================================== *)
(** ** The SQLite engine, as far as the repository uses it             *)
(* ================================================================== *)

Module sqlite.
Import py.

Definition bytes : Type := list Byte.byte.

(** A row of [employees]: the surrogate [id] and the three TEXT columns. *)
Record employees_row : Type :=
  mk_row { id : Z; full_name : string; birth_date : string; gender : string }.

(** A row of [compressed_employees]. *)
Record compressed_row : Type :=
  mk_crow { c_full_name : string; c_birth_date : string; c_gender : string;
            compressed_payload : bytes }.

(** The content of the database file once [create_schema] and
    [create_compressed_table] have run: the two tables and the
    [sqlite_sequence] entry of [employees] (AUTOINCREMENT).  The secondary
    indexes hold no data of their own and change no result. *)
Record store : Type :=
  mk_store { employees : list employees_row;
             employees_seq : Z;
             compressed_employees : list compressed_row }.

(** An open connection: the committed content of the file, the working
    copy of the open transaction if there is one, and the counter behind
    [changes()]. *)
Record connection : Type :=
  mk_conn { file : store; tx : option store; changes : Z }.

Definition open_file (f : store) : connection := mk_conn f None 0.

(** What a statement of this connection reads. *)
Definition visible (c : connection) : store :=
  match tx c with
  | Some s => s
  | None => file c
  end.

(** An operation on the open handle. *)
Definition op (A : Type) : Type := state connection A.

(** [BEGIN]: fails inside a transaction. *)
Definition exec_begin : op unit := fun c =>
  match tx c with
  | Some _ =>
      (Raised (mk_exn OperationalError
                 "cannot start a transaction within a transaction"), c)
  | None => (Ok tt, mk_conn (file c) (Some (file c)) (changes c))
  end.

(** [Connection.commit()]: nothing to do outside a transaction. *)
Definition commit (c : connection) : connection :=
  match tx c with
  | Some s => mk_conn s None (changes c)
  | None => c
  end.

(** [Connection.rollback()] *)
Definition rollback (c : connection) : connection :=
  mk_conn (file c) None (changes c).

(** An INSERT, UPDATE or DELETE statement: a function from the table
    content to the new content and the number of rows it changed, or to an
    error, in which case the statement leaves no trace.  Run outside a
    transaction, the [sqlite3] module opens one first (the connection is
    created with the default [isolation_level]).  A completed statement
    overwrites the change counter. *)
Definition dml : Type := store -> result (store * Z).

Definition exec_dml (stmt : dml) : op unit := fun c =>
  match stmt (visible c) with
  | Ok (s', n) => (Ok tt, mk_conn (file c) (Some s') n)
  | Raised e => (Raised e, mk_conn (file c) (Some (visible c)) 0)
  end.

(** [Connection.executemany(sql, rows)]: the statement is run to
    completion once for each parameter tuple, in order. *)
Fixpoint executemany {P : Type} (stmt : P -> dml) (rows : list P) : op unit :=
  fun c =>
    match rows with
    | [] => (Ok tt, c)
    | p :: rows' =>
        match exec_dml (stmt p) c with
        | (Ok _, c') => executemany stmt rows' c'
        | (Raised e, c') => (Raised e, c')
        end
    end.

(** A SELECT: reads what the connection sees and changes nothing. *)
Definition exec_select {A : Type} (q : store -> A) : op A := fun c =>
  (Ok (q (visible c)), c).

(** [SELECT changes()]: rows changed by the most recently completed
    INSERT, UPDATE or DELETE statement of the connection. *)
Definition select_changes : op Z := fun c => (Ok (changes c), c).

(** The rowid AUTOINCREMENT gives to a new row: one more than the largest
    rowid the table holds or has ever held. *)
Definition next_id (s : store) : Z :=
  1 + fold_right Z.max (employees_seq s) (map id (employees s)).

(** Case folding of LIKE: ASCII letters only. *)
Definition eq_nocase (a b : ascii) : bool :=
  Ascii.eqb (to_lower a) (to_lower b).

(** The LIKE operator without ESCAPE: [%] matches any run of characters,
    [_] any one character, any other character itself up to ASCII case
    (the default: [PRAGMA case_sensitive_like] is off). *)
Fixpoint like (pattern : string) : string -> bool :=
  match pattern with
  | EmptyString => fun s => match s with EmptyString => true | _ => false end
  | String p pattern' =>
      if Ascii.eqb p "%" then
        fix any_run (s : string) : bool :=
          like pattern' s ||
          match s with
          | EmptyString => false
          | String _ s' => any_run s'
          end
      else if Ascii.eqb p "_" then
        fun s => match s with
                 | EmptyString => false
                 | String _ s' => like pattern' s'
                 end
      else
        fun s => match s with
                 | EmptyString => false
                 | String c s' => eq_nocase p c && like pattern' s'
                 end
  end.

(** [ORDER BY full_name]: ascending in the BINARY collation.  The engine
    leaves the order of rows with equal names open; here they keep the
    order of the scan. *)
Fixpoint insert_sorted {R : Type} (name : R -> string) (r : R) (l : list R)
  : list R :=
  match l with
  | [] => [r]
  | x :: l' =>
      if String.leb (name r) (name x) then r :: l
      else x :: insert_sorted name r l'
  end.

Definition order_by {R : Type} (name : R -> string) (l : list R) : list R :=
  fold_right (insert_sorted name) [] l.

(** [SUM(...)]: NULL over no rows. *)
Definition sql_sum (l : list Z) : option Z :=
  match l with
  | [] => None
  | _ :: _ => Some (fold_right Z.add 0 l)
  end.

(** [IFNULL(x, y)] *)
Definition ifnull (x : option Z) (y : Z) : Z :=
  match x with
  | Some v => v
  | None => y
  end.

(** [MIN(...)] over the rows of a group (a group is never empty). *)
Definition sql_min (l : list Z) : option Z :=
  match l with
  | [] => None
  | x :: l' => Some (fold_right Z.min x l')
  end.

End sqlite.

(* ================================================================== *)
(** ** [app/database.py]                                               *)
(* ================================================================== *)

Module database.
Import py sqlite.

(** A [Database] object together with the file at its [_path]: either no
    connection is open ([_connection is None]) and the file holds its
    committed content, or the connection is open. *)
Inductive Database : Type :=
  | Closed (on_disk : store)
  | Opened (c : connection).

Definition _connection (db : Database) : option connection :=
  match db with
  | Closed _ => None
  | Opened c => Some c
  end.

(** A method of the repository: it works on the [Database] object. *)
Definition M (A : Type) : Type := state Database A.

(** [Database._configure]: foreign_keys=ON, journal_mode=WAL,
    synchronous=NORMAL, temp_store=MEMORY, cache_size=-65536.  None of the
    pragmas changes what a statement of the repository returns. *)
Definition _configure (c : connection) : connection := c.

(** The handle [connect] returns. *)
Definition handle (db : Database) : connection :=
  match db with
  | Closed f => _configure (open_file f)
  | Opened c => c
  end.

(** [Database.connect]: opens the file on the first call only. *)
Definition connect : M unit := fun db =>
  match db with
  | Closed f => (Ok tt, Opened (_configure (open_file f)))
  | Opened c => (Ok tt, db)
  end.

(** A call on the handle [connect] returned. *)
Definition on_handle {A : Type} (o : op A) : M A := fun db =>
  match db with
  | Opened c => let (r, c') := o c in (r, Opened c')
  | Closed _ =>
      (Raised (mk_exn ProgrammingError "Cannot operate on a closed database."),
       db)
  end.

(** The [except Exception: connection.rollback(); raise] clause: an
    exception that is not an [Exception] passes through untouched. *)
Definition except_Exception {A : Type} (e : exn) : op A := fun c =>
  if is_Exception e then (Raised e, rollback c) else (Raised e, c).

(** [Database.transaction], used as [with db.transaction() as connection:
    body].  [BEGIN] is inside the [try]; the [else] clause commits. *)
Definition transaction {A : Type} (body : op A) : M A :=
  connect ;;
  on_handle (fun c =>
    match exec_begin c with
    | (Raised e, c1) => except_Exception e c1
    | (Ok _, c1) =>
        match body c1 with
        | (Raised e, c2) => except_Exception e c2
        | (Ok v, c2) => (Ok v, commit c2)
        end
    end).

(** [Database.close]: an open transaction is lost with the connection. *)
Definition close : M unit := fun db =>
  match db with
  | Opened c => (Ok tt, Closed (file c))
  | Closed _ => (Ok tt, db)
  end.

(** The content of the file as a new connection would find it. *)
Definition committed (db : Database) : store :=
  match db with
  | Closed f => f
  | Opened c => file c
  end.

(** What the next statement through this object reads. *)
Definition seen (db : Database) : store :=
  match db with
  | Closed f => f
  | Opened c => visible c
  end.

Definition in_transaction (db : Database) : bool :=
  match db with
  | Opened c => match tx c with Some _ => true | None => false end
  | Closed _ => false
  end.

End database.

(* ================================================================== *)
(** ** [app/repository.py]                                             *)
(* ================================================================== *)

Module repository.
Import py sqlite database.

(** [CHECK(gender IN ('Male', 'Female'))] *)
Definition check_gender (g : string) : bool :=
  String.eqb g "Male" || String.eqb g "Female".

(** The unique index [ux_employees_fullname_birth]: is the pair taken? *)
Definition key_taken (n b : string) (rows : list employees_row) : bool :=
  existsb (fun r => String.eqb (full_name r) n && String.eqb (birth_date r) b)
          rows.

(** [INSERT OR IGNORE INTO employees (full_name, birth_date, gender)
    VALUES (?, ?, ?)]: a row that breaks the CHECK or the unique index is
    skipped and counts for nothing. *)
Definition insert_or_ignore (p : string * string * string) (s : store)
  : store * Z :=
  let '(n, b, g) := p in
  if negb (check_gender g) || key_taken n b (employees s)
  then (s, 0)
  else (mk_store (employees s ++ [mk_row (next_id s) n b g])
                 (next_id s)
                 (compressed_employees s), 1).

Definition insert_or_ignore_employee (p : string * string * string) : dml :=
  fun s => Ok (insert_or_ignore p s).

(** The schema statements are [CREATE ... IF NOT EXISTS] on a file that
    has the schema: they change no table content. *)
Definition ddl : op unit := ret tt.

(** [EmployeeRepository.create_schema] *)
Definition create_schema : M unit := transaction (ddl ;; ddl).

(** [EmployeeRepository.insert_employee] *)
Definition insert_employee (employee : models.Employee) : M bool :=
  inserted <- transaction
    (exec_dml (insert_or_ignore_employee (models.to_row employee)) ;;
     inserted <- select_changes ;;
     ret inserted) ;;
  ret (inserted >? 0).

(** The [for batch in chunked(...)] loop of [bulk_insert]. *)
Fixpoint for_batches (batches : list (list models.Employee)) (inserted : Z)
  : op Z :=
  match batches with
  | [] => ret inserted
  | batch :: rest =>
      let rows := map models.to_row batch in
      executemany insert_or_ignore_employee rows ;;
      n <- select_changes ;;
      for_batches rest (inserted + n)
  end.

Definition default_batch_size : Z := 10000.

(** [EmployeeRepository.bulk_insert] *)
Definition bulk_insert (employees : iterable models.Employee)
    (batch_size : Z) : M Z :=
  transaction
    (let batches := models.chunked employees batch_size in
     inserted <- for_batches (yielded batches) 0 ;;
     match fault batches with
     | Some e => raise e
     | None => ret inserted
     end).

(** Decoding the rows of a query into records, as both fetch methods do. *)
Definition decode_rows (rows : list (string * string * string))
  : result (list models.Employee) :=
  list_comprehension
    (fun row => let '(n, b, g) := row in models.from_strings n b g) rows.

Definition columns (r : employees_row) : string * string * string :=
  (full_name r, birth_date r, gender r).

Definition key (r : employees_row) : string * string :=
  (full_name r, birth_date r).

Definition key_eq_dec (a b : string * string) : {a = b} + {a <> b}.
Proof. decide equality; apply string_dec. Defined.

Definition has_key (k : string * string) (r : employees_row) : bool :=
  if key_eq_dec (key r) k then true else false.

(** [SELECT MIN(id) AS min_id FROM employees GROUP BY full_name,
    birth_date]: one row per distinct pair. *)
Definition uniq (rows : list employees_row) : list (option Z) :=
  map (fun k => sql_min (map id (filter (has_key k) rows)))
      (nodup key_eq_dec (map key rows)).

(** [FROM employees e JOIN (...) uniq ON e.id = uniq.min_id] *)
Definition join_uniq (rows : list employees_row) : list employees_row :=
  flat_map
    (fun e =>
       flat_map
         (fun u =>
            match u with
            | Some min_id => if id e =? min_id then [e] else []
            | None => []
            end)
         (uniq rows))
    rows.

Definition select_unique_sorted (s : store) : list (string * string * string) :=
  map columns (order_by full_name (join_uniq (employees s))).

(** [EmployeeRepository.fetch_unique_sorted] *)
Definition fetch_unique_sorted : M (list models.Employee) :=
  connect ;;
  rows <- on_handle (exec_select select_unique_sorted) ;;
  of_result (decode_rows rows).

(** [WHERE gender = 'Male' AND full_name LIKE 'F%'] *)
Definition male_surname_f (gender full_name : string) : bool :=
  String.eqb gender "Male" && like "F%" full_name.

Definition select_male_surname_f (s : store) : list (string * string * string) :=
  map columns
      (order_by full_name
         (filter (fun r => male_surname_f (gender r) (full_name r))
                 (employees s))).

(** [EmployeeRepository.fetch_male_surname_f] *)
Definition fetch_male_surname_f : M (list models.Employee) :=
  connect ;;
  rows <- on_handle (exec_select select_male_surname_f) ;;
  of_result (decode_rows rows).

(** [EmployeeRepository.create_gender_surname_index] *)
Definition create_gender_surname_index : M unit := transaction ddl.

(** [EmployeeRepository.create_compressed_table] *)
Definition create_compressed_table : M unit := transaction (ddl ;; ddl).

(** [DELETE FROM compressed_employees] *)
Definition delete_compressed : dml := fun s =>
  Ok (mk_store (employees s) (employees_seq s) [],
      Z.of_nat (List.length (compressed_employees s))).

Definition pk_taken (n b : string) (rows : list compressed_row) : bool :=
  existsb (fun r => String.eqb (c_full_name r) n && String.eqb (c_birth_date r) b)
          rows.

(** [INSERT INTO compressed_employees (full_name, birth_date, gender,
    compressed_payload) VALUES (?, ?, ?, ?)]: a second row with the same
    primary key [(full_name, birth_date)] aborts the statement. *)
Definition insert_compressed (p : string * string * string * bytes) : dml :=
  fun s =>
    let '(n, b, g, payload) := p in
    if pk_taken n b (compressed_employees s)
    then Raised (mk_exn IntegrityError
           "UNIQUE constraint failed: compressed_employees.full_name, compressed_employees.birth_date")
    else Ok (mk_store (employees s) (employees_seq s)
                      (compressed_employees s ++ [mk_crow n b g payload]), 1).

(** [EmployeeRepository.replace_compressed_rows] *)
Definition replace_compressed_rows
    (rows : list (string * string * string * bytes)) : M Z :=
  transaction
    (exec_dml delete_compressed ;;
     executemany insert_compressed rows ;;
     inserted <- select_changes ;;
     ret inserted).

Definition select_compressed_subset (s : store)
  : list (string * string * string * bytes) :=
  map (fun r => (c_full_name r, c_birth_date r, c_gender r, compressed_payload r))
      (order_by c_full_name
         (filter (fun r => male_surname_f (c_gender r) (c_full_name r))
                 (compressed_employees s))).

(** [EmployeeRepository.fetch_compressed_subset] *)
Definition fetch_compressed_subset
  : M (list (string * string * string * bytes)) :=
  connect ;;
  on_handle (exec_select select_compressed_subset).

(** [SELECT COUNT( * ), IFNULL(SUM(LENGTH(compressed_payload)), 0)
    FROM compressed_employees] *)
Definition select_stats (s : store) : Z * Z :=
  (Z.of_nat (List.length (compressed_employees s)),
   ifnull (sql_sum (map (fun r => Z.of_nat (List.length (compressed_payload r)))
                        (compressed_employees s))) 0).

(** [EmployeeRepository.compressed_table_stats] *)
Definition compressed_table_stats : M (Z * Z) :=
  connect ;;
  on_handle (exec_select select_stats).

(** [Employee.persist] of [app/models.py] *)
Definition persist (self : models.Employee) : M bool := insert_employee self.

End repository.

(* ================================================================== *)
(** ** [datetime]: ordinals of dates                                   *)
(* ================================================================== *)

Module datetime.
Import py.

(** [_DAYS_BEFORE_MONTH] (index 0 is a placeholder). *)
Definition _DAYS_BEFORE_MONTH : list Z :=
  [-1; 0; 31; 59; 90; 120; 151; 181; 212; 243; 273; 304; 334].

(** [_DAYS_IN_MONTH] (index 0 is a placeholder). *)
Definition _DAYS_IN_MONTH : list Z :=
  [-1; 31; 28; 31; 30; 31; 30; 31; 31; 30; 31; 30; 31].

Definition _DI400Y : Z := 146097.
Definition _DI100Y : Z := 36524.
Definition _DI4Y : Z := 1461.

Definition _days_before_year (year : Z) : Z :=
  let y := year - 1 in y * 365 + y / 4 - y / 100 + y / 400.

Definition _days_before_month (year month : Z) : Z :=
  nth (Z.to_nat month) _DAYS_BEFORE_MONTH 0
  + (if (2 <? month) && is_leap year then 1 else 0).

(** [date.toordinal()]: 1 January of year 1 is day 1. *)
Definition _ymd2ord (d : date) : Z :=
  _days_before_year (year d) + _days_before_month (year d) (month d) + day d.

(** [date.fromordinal(n)], for an ordinal of a date. *)
Definition _ord2ymd (n : Z) : date :=
  let n := n - 1 in
  let n400 := n / _DI400Y in
  let n := n mod _DI400Y in
  let year := n400 * 400 + 1 in
  let n100 := n / _DI100Y in
  let n := n mod _DI100Y in
  let n4 := n / _DI4Y in
  let n := n mod _DI4Y in
  let n1 := n / 365 in
  let n := n mod 365 in
  let year := year + n100 * 100 + n4 * 4 + n1 in
  if (n1 =? 4) || (n100 =? 4) then mk_date (year - 1) 12 31
  else
    let leapyear := (n1 =? 3) && (negb (n4 =? 24) || (n100 =? 3)) in
    let month := Z.shiftr (n + 50) 5 in
    let preceding :=
      nth (Z.to_nat month) _DAYS_BEFORE_MONTH 0
      + (if (2 <? month) && leapyear then 1 else 0) in
    if n <? preceding then
      let month := month - 1 in
      let preceding :=
        preceding
        - (nth (Z.to_nat month) _DAYS_IN_MONTH 0
           + (if (month =? 2) && leapyear then 1 else 0)) in
      mk_date year month (n - preceding + 1)
    else mk_date year month (n - preceding + 1).

(** [(a - b).days] for two dates. *)
Definition days_between (a b : date) : Z := _ymd2ord a - _ymd2ord b.

(** [d + timedelta(days=n)], as long as the result is a date (Python
    raises OverflowError outside the years 1 to 9999). *)
Definition add_days (d : date) (n : Z) : date := _ord2ymd (_ymd2ord d + n).

End datetime.

(* ================================================================== *)
(** ** [app/utils.py]                                                  *)
(* ================================================================== *)

Module utils.
Import py.

Definition MALE_FIRST_NAMES : list string :=
  [ "Alexander"; "Benjamin"; "Charles"; "Daniel"; "Edward"; "Fig"; "George";
    "Henry"; "Isaac"; "James"; "Kevin"; "Leonard"; "Michael"; "Nicholas";
    "Oliver"; "Patrick"; "Quentin"; "Richard"; "Samuel"; "Thomas"; "Ulysses";
    "Victor"; "William"; "Xavier"; "Yannick"; "Zachary" ].

Definition FEMALE_FIRST_NAMES : list string :=
  [ "Abigail"; "Bianca"; "Charlotte"; "Diana"; "Eleanor"; "Fiona";
    "Gabriella"; "Hannah"; "Isabella"; "Julia"; "Katherine"; "Lillian";
    "Madeline"; "Natalie"; "Olivia"; "Penelope"; "Queenie"; "Rebecca";
    "Sophia"; "Tabitha"; "Uma"; "Victoria"; "Wendy"; "Ximena"; "Yvette";
    "Zoey" ].

Definition MIDDLE_NAMES : list string :=
  [ "Alexandrovich"; "Borisovich"; "Carlson"; "Dmitrievich"; "Evans";
    "Fedorovich"; "Gregory"; "Howard"; "Ivanovich"; "Jackson";
    "Konstantinovich"; "Ludovic"; "Mikhailovich"; "Nathaniel"; "Olivier";
    "Petrovich"; "Quincy"; "Robertson"; "Sergeevich"; "Timothy"; "Ulyanov";
    "Vladimirovich"; "Wilkinson"; "Xavier"; "Yakovlevich"; "Zaharovich" ].

Definition SURNAME_SUFFIXES : list string :=
  [ "anderson"; "bennett"; "clarkson"; "dawson"; "ellington"; "foster";
    "garrison"; "hawkins"; "iverson"; "johnson"; "kellington"; "lancaster";
    "morrison"; "norrington"; "oakwood"; "parkinson"; "quinton"; "robertson";
    "sanderson"; "tremont"; "upton"; "vanderbilt"; "wellington"; "xander";
    "york"; "zellington" ].

(** [list(string.ascii_uppercase)] *)
Definition _letters : list string :=
  [ "A"; "B"; "C"; "D"; "E"; "F"; "G"; "H"; "I"; "J"; "K"; "L"; "M"; "N";
    "O"; "P"; "Q"; "R"; "S"; "T"; "U"; "V"; "W"; "X"; "Y"; "Z" ].

(** [str.upper()] on ASCII text. *)
Fixpoint upper (s : string) : string :=
  match s with
  | EmptyString => EmptyString
  | String c s' => String (to_upper c) (upper s')
  end.

(** [s[1:]] *)
Definition drop_first (s : string) : string :=
  match s with
  | EmptyString => EmptyString
  | String _ s' => s'
  end.

(** [seq[i]] for an index inside the sequence. *)
Definition item (seq : list string) (i : Z) : string :=
  nth (Z.to_nat i) seq EmptyString.

(** [EmployeeDataGenerator._build_surname] *)
Definition _build_surname (initial : string) (suffix_seed : Z) : string :=
  let suffix :=
    item SURNAME_SUFFIXES
         (suffix_seed mod Z.of_nat (List.length SURNAME_SUFFIXES)) in
  (upper initial ++ drop_first suffix)%string.

Section generator.

(** The state of [random.Random] and its primitive [_randbelow(n)], which
    [choice] and [randint] are built on. *)
Variable rng : Type.
Variable _randbelow : Z -> rng -> Z * rng.

(** [Random.choice(seq)], for a sequence that is not empty. *)
Definition choice (seq : list string) (g : rng) : string * rng :=
  let (i, g) := _randbelow (Z.of_nat (List.length seq)) g in (item seq i, g).

(** [Random.randint(a, b)] *)
Definition randint (a b : Z) (g : rng) : Z * rng :=
  let (k, g) := _randbelow (b - a + 1) g in (a + k, g).

(** [EmployeeDataGenerator._random_birth_date] *)
Definition _random_birth_date (g : rng) : date * rng :=
  let start := mk_date 1960 1 1 in
  let end_ := mk_date 2010 12 31 in
  let delta_days := datetime.days_between end_ start in
  let (random_days, g) := randint 0 delta_days g in
  (datetime.add_days start random_days, g).

(** [EmployeeDataGenerator._random_middle] *)
Definition _random_middle (gender : string) (g : rng) : string * rng :=
  let (base, g) := choice MIDDLE_NAMES g in
  (if String.eqb gender "Male" then base else (base ++ "a")%string, g).

(** [EmployeeDataGenerator._first_name] *)
Definition _first_name (gender : string) (g : rng) : string * rng :=
  let names :=
    if String.eqb gender "Male" then MALE_FIRST_NAMES
    else FEMALE_FIRST_NAMES in
  choice names g.

(** [EmployeeDataGenerator.generate] *)
Definition generate (gender initial_letter : string) (index : Z) (g : rng)
  : models.Employee * rng :=
  let (first, g) := _first_name gender g in
  let surname := _build_surname initial_letter index in
  let (middle, g) := _random_middle gender g in
  let full_name := (surname ++ " " ++ first ++ " " ++ middle)%string in
  let (birth_date, g) := _random_birth_date g in
  (models.new_Employee full_name birth_date gender, g).

(** The record [stream] yields at position [idx]. *)
Definition stream_item (idx : Z) (g : rng) : models.Employee * rng :=
  let genders := ["Male"; "Female"] in
  let letter := item _letters (idx mod Z.of_nat (List.length _letters)) in
  let gender :=
    if String.eqb letter "F" then "Male"
    else item genders (idx mod Z.of_nat (List.length genders)) in
  generate gender letter idx g.

(** [for idx in range(start, start + n)]: the records yielded, in order,
    each drawing from the state the one before left. *)
Fixpoint for_range (body : Z -> rng -> models.Employee * rng) (start : Z)
    (n : nat) (g : rng) : list models.Employee * rng :=
  match n with
  | O => ([], g)
  | S n' =>
      let (e, g) := body start g in
      let (rest, g) := for_range body (start + 1) n' g in
      (e :: rest, g)
  end.

(** [EmployeeDataGenerator.stream] *)
Definition stream (total : Z) (g : rng) : list models.Employee * rng :=
  for_range stream_item 0 (Z.to_nat total) g.

(** [EmployeeDataGenerator.male_surname_f] *)
Definition male_surname_f (count : Z) (g : rng)
  : list models.Employee * rng :=
  for_range (fun idx => generate "Male" "F" (idx + 1000000)) 0
            (Z.to_nat count) g.

End generator.

End utils.

(* ================================================================== *)
(** ** [main.py]: the payloads of the compressed table                 *)
(* ================================================================== *)

Module main.
Import py sqlite database repository.

(** The JSON values the mode builds: strings, integers and objects. *)
#[local] Unset Elimination Schemes.
Inductive json : Type :=
  | JString (s : string)
  | JInt (n : Z)
  | JObject (members : list (string * json)).
#[local] Set Elimination Schemes.

(** [str.encode("utf-8")] and [bytes.decode("utf-8")] on text that is
    kept as its UTF-8 bytes. *)
Definition encode_utf8 (s : string) : bytes := list_byte_of_string s.
Definition decode_utf8 (b : bytes) : string := string_of_list_byte b.

Section codecs.

(** The two codecs of the Python library, [json] and [gzip]. *)
Variable json_dumps : json -> string.
Variable json_loads : string -> result json.
Variable gzip_compress : bytes -> bytes.
Variable gzip_decompress : bytes -> result bytes.

(** The dictionary [payload] of the loop; [today] is [date.today()] at
    the call of [employee.age()]. *)
Definition payload (employee : models.Employee) (today : date) : json :=
  JObject [ ("full_name", JString (models.full_name employee));
            ("birth_date", JString (isoformat (models.birth_date employee)));
            ("gender", JString (models.gender employee));
            ("age", JInt (models.age employee None today)) ].

(** The loop over [employees]: [clock i] is the date at iteration [i].
    Returns [compressed_rows] and [plain_bytes]. *)
Fixpoint compress_rows (clock : nat -> date) (i : nat)
    (employees : list models.Employee)
  : list (string * string * string * bytes) * Z :=
  match employees with
  | [] => ([], 0)
  | employee :: rest =>
      let raw := encode_utf8 (json_dumps (payload employee (clock i))) in
      let compressed := gzip_compress raw in
      let (rows, plain) := compress_rows clock (S i) rest in
      ((models.full_name employee, isoformat (models.birth_date employee),
        models.gender employee, compressed) :: rows,
       Z.of_nat (List.length raw) + plain)
  end.

(** [json.loads(gzip.decompress(payload).decode("utf-8"))] *)
Definition restore (compressed : bytes) : result json :=
  match gzip_decompress compressed with
  | Raised e => Raised e
  | Ok raw => json_loads (decode_utf8 raw)
  end.

End codecs.

(* ================================================================== *)
(** ** [main.py]: the modes that print, and the dispatch               *)
(* ================================================================== *)

(** The process as a mode sees it: the [Database] object behind the
    repository, and standard output, one entry per [print]. *)
Record world : Type := mk_world { db : Database; stdout : list string }.

(** A function of [main.py]. *)
Definition W (A : Type) : Type := state world A.

(** A call of a repository method. *)
Definition on_repository {A : Type} (m : M A) : W A := fun w =>
  let (r, d) := m (db w) in (r, mk_world d (stdout w)).

(** [print(line)] *)
Definition print (line : string) : W unit := fun w =>
  (Ok tt, mk_world (db w) (stdout w ++ [line])).

(** [str(n)] for an [int], as an f-string formats it. *)
Definition str (n : Z) : string := NilZero.string_of_int (Z.to_int n).

Section compressed_table.

Variable json_dumps : json -> string.
Variable json_loads : string -> result json.
Variable gzip_compress : bytes -> bytes.
Variable gzip_decompress : bytes -> result bytes.

(** What the mode prints of floating-point numbers and of a dictionary:
    the two durations it measures with [time.perf_counter()], as
    [f"{d:.6f}"] writes them; the compression ratio as [f"{r:.2f}"]
    writes it, a function of [compressed_size] and [plain_bytes]; and
    [str] of a restored dictionary. *)
Variable main_duration : string.
Variable compressed_duration : string.
Variable format_ratio : Z -> Z -> string.
Variable str_dict : json -> string.

(** [mode_compressed_table]; [clock i] is [date.today()] at the call of
    [employee.age()] in iteration [i] of the loop. *)
Definition mode_compressed_table (clock : nat -> date) : W unit :=
  on_repository create_gender_surname_index ;;
  employees <- on_repository fetch_male_surname_f ;;
  match employees with
  | [] =>
      print
        "No employees found matching criteria. Populate data (e.g., mode 4) first."
  | _ :: _ =>
      on_repository create_compressed_table ;;
      let (compressed_rows, plain_bytes) :=
        compress_rows json_dumps gzip_compress clock 0 employees in
      inserted <- on_repository (replace_compressed_rows compressed_rows) ;;
      print ("Compressed table refreshed with " ++ str inserted
             ++ " rows.")%string ;;
      on_repository fetch_male_surname_f ;;
      compressed_subset <- on_repository fetch_compressed_subset ;;
      restored <- of_result
        (list_comprehension
           (fun row => restore json_loads gzip_decompress (snd row))
           compressed_subset) ;;
      stats <- on_repository compressed_table_stats ;;
      let compressed_size := snd stats in
      print ("Main table query time: " ++ main_duration
             ++ " seconds")%string ;;
      print ("Compressed table query time: " ++ compressed_duration
             ++ " seconds")%string ;;
      print ("Compression saved approximately "
             ++ format_ratio compressed_size plain_bytes
             ++ "% space.")%string ;;
      print ("Compressed storage footprint: " ++ str compressed_size
             ++ " bytes")%string ;;
      print ("Restored sample record: "
             ++ match restored with
                | first :: _ => str_dict first
                | [] => "N/A"
                end)%string ;;
      print
        "Speed-up comes from scanning a smaller prefiltered table with indexed prefix lookups; compression reduces I/O footprint when reading the data."
  end.

End compressed_table.

(** [mode_create_table] *)
Definition mode_create_table : W unit :=
  on_repository create_schema ;;
  print "Employees table is ready.".

(** [mode_create_employee] *)
Definition mode_create_employee (params : list string) : W unit :=
  match params with
  | full_name :: birth_date :: gender :: _ =>
      employee <- of_result (models.from_strings full_name birth_date gender) ;;
      inserted <- on_repository (persist employee) ;;
      if inserted : bool
      then print ("Employee '" ++ models.full_name employee
                  ++ "' saved successfully.")%string
      else print ("Employee '" ++ models.full_name employee
                  ++ "' with birth date "
                  ++ isoformat (models.birth_date employee)
                  ++ " already exists.")%string
  | _ =>
      raise (mk_exn ValueError
               "Mode 2 requires parameters: <Full Name> <YYYY-MM-DD> <Gender>")
  end.

(** The loop of [mode_list_employees]: [clock i] is [date.today()] at the
    call of [employee.age()] in iteration [i]. *)
Fixpoint print_employees (clock : nat -> date) (i : nat)
    (employees : list models.Employee) : W unit :=
  match employees with
  | [] => ret tt
  | employee :: rest =>
      let age := models.age employee None (clock i) in
      print (models.full_name employee ++ " | "
             ++ isoformat (models.birth_date employee) ++ " | "
             ++ models.gender employee ++ " | " ++ str age)%string ;;
      print_employees clock (S i) rest
  end.

(** [mode_list_employees] *)
Definition mode_list_employees (clock : nat -> date) : W unit :=
  employees <- on_repository fetch_unique_sorted ;;
  print "Full Name | Birth Date | Gender | Age" ;;
  print_employees clock 0 employees ;;
  print ("Total rows: " ++ str (Z.of_nat (List.length employees)))%string.

Section bulk_fill.

(** The generator object of [main]: the state of its [random.Random]. *)
Variable rng : Type.
Variable _randbelow : Z -> rng -> Z * rng.

(** [mode_bulk_fill]: [bulk_insert] draws the whole of each stream, with
    the default batch size. *)
Definition mode_bulk_fill (generator : rng) : W unit :=
  let total_primary := 1000000 in
  let total_special := 100 in
  print "Generating and inserting 1,000,000 rows..." ;;
  let (primary, generator) :=
    utils.stream rng _randbelow total_primary generator in
  inserted_primary <-
    on_repository (bulk_insert (iter_of_list primary) default_batch_size) ;;
  print ("Inserted " ++ str inserted_primary ++ " primary rows.")%string ;;
  print "Adding 100 special rows (Male, surname starts with 'F')..." ;;
  let (special, generator) :=
    utils.male_surname_f rng _randbelow total_special generator in
  inserted_special <-
    on_repository (bulk_insert (iter_of_list special) default_batch_size) ;;
  print ("Inserted " ++ str inserted_special ++ " special rows.")%string.

(** The handlers of the modes 5 to 8, which also measure time, write
    files or print ratios. *)
Variable mode_filter : W unit.
Variable mode_optimize : W unit.
Variable mode_index_and_compress : list string -> W unit.
Variable mode_compressed_table_handler : W unit.

(** The dictionary [mode_handlers] of [main] and its [get]. *)
Definition mode_handlers (params : list string) (clock : nat -> date)
    (generator : rng) (mode : Z) : option (W unit) :=
  if mode =? 1 then Some mode_create_table
  else if mode =? 2 then Some (mode_create_employee params)
  else if mode =? 3 then Some (mode_list_employees clock)
  else if mode =? 4 then Some (mode_bulk_fill generator)
  else if mode =? 5 then Some mode_filter
  else if mode =? 6 then Some mode_optimize
  else if mode =? 7 then Some (mode_index_and_compress params)
  else if mode =? 8 then Some mode_compressed_table_handler
  else None.

(** [try: body finally: final] *)
Definition try_finally {A : Type} (body : W A) (final : W unit) : W A :=
  fun w =>
    let (r, w1) := body w in
    match final w1 with
    | (Ok _, w2) => (r, w2)
    | (Raised e, w2) => (Raised e, w2)
    end.

(** [main], from the parsed arguments [args.mode] and [args.params] on. *)
Definition main (mode : Z) (params : list string) (clock : nat -> date)
    (generator : rng) : W unit :=
  match mode_handlers params clock generator mode with
  | None => raise (mk_exn ValueError "Mode must be an integer between 1 and 8.")
  | Some handler => try_finally handler (on_repository close)
  end.

End bulk_fill.

End main.


(* ================================================================== *)
(** ** Vocabulary of the properties                                    *)
(* ================================================================== *)

Module props.
Import py sqlite database repository.

(** The identity key of a record, as it is stored. *)
Definition employee_key (e : models.Employee) : string * string :=
  (models.full_name e, isoformat (models.birth_date e)).

(** Ascending in the byte order of the engine. *)
Definition string_le (a b : string) : Prop := String.leb a b = true.

(** Two rows in the order of their names. *)
Definition name_le {R : Type} (name : R -> string) (a b : R) : Prop :=
  string_le (name a) (name b).

(** The connection as [BEGIN] leaves it. *)
Definition begun (c : connection) : connection :=
  mk_conn (file c) (Some (file c)) (changes c).

(** A stored row that is the row encoding of a record: decoding it gives
    a record that encodes to the same three columns. *)
Definition canonical (r : employees_row) : Prop :=
  exists e, models.from_strings (full_name r) (birth_date r) (gender r) = Ok e
            /\ models.to_row e = columns r.

(** A record as the data model has it. *)
Definition well_formed (e : models.Employee) : Prop :=
  strip (models.full_name e) = models.full_name e
  /\ valid_date (models.birth_date e) = true
  /\ models.is_gender (models.gender e) = true.

(** The first character is [F] or [f]. *)
Definition starts_with_F (s : string) : bool :=
  match s with
  | String c _ => Ascii.eqb c "F" || Ascii.eqb c "f"
  | EmptyString => false
  end.

(** The row has the smallest id among the rows of its key. *)
Definition smallest_of_key (rows : list employees_row) (e : employees_row)
  : bool :=
  forallb (fun r => negb (has_key (key e) r) || (id e <=? id r)) rows.

(** The row a parameter tuple of [replace_compressed_rows] becomes. *)
Definition to_crow (p : string * string * string * bytes) : compressed_row :=
  let '(n, b, g, payload) := p in mk_crow n b g payload.

(** A state of the primary table as the repository keeps it: ids and
    keys are unique, and every row is the row encoding of a record. *)
Definition table_ok (s : store) : Prop :=
  NoDup (map id (employees s))
  /\ NoDup (map key (employees s))
  /\ Forall canonical (employees s).

(** The parameter tuple a stored row came from. *)
Definition crow_tuple (r : compressed_row) : string * string * string * bytes :=
  (c_full_name r, c_birth_date r, c_gender r, compressed_payload r).

(** The stored rows a sequence of row tuples leaves behind when each is
    inserted with INSERT OR IGNORE, in order. *)
Definition insert_all (rows : list (string * string * string)) (s : store)
  : store :=
  fold_left (fun s p => fst (insert_or_ignore p s)) rows s.

(** The order of [datetime.date]: by year, then month, then day. *)
Definition date_leb (a b : date) : bool :=
  (year a <? year b)
  || ((year a =? year b)
      && ((month a <? month b)
          || ((month a =? month b) && (day a <=? day b)))).

(** The primary key of a parameter tuple of [replace_compressed_rows]. *)
Definition pk (p : string * string * string * bytes) : string * string :=
  (fst (fst (fst p)), snd (fst (fst p))).

(** The dictionaries the compressed-table mode builds for a list of
    records, the record at position [i] with the date [clock i]. *)
Fixpoint payloads (clock : nat -> date) (i : nat)
    (employees : list models.Employee) : list main.json :=
  match employees with
  | [] => []
  | e :: rest => main.payload e (clock i) :: payloads clock (S i) rest
  end.

(** [p] holds of the [n] integers from [start] on. *)
Fixpoint all_from (p : Z -> bool) (start : Z) (n : nat) : bool :=
  match n with
  | O => true
  | S n' => p start && all_from p (start + 1) n'
  end.

End props.

(* ================================================================== *)
(** ** Concrete inputs                                                 *)
(* ================================================================== *)

Module examples.
Import py sqlite database repository props.

Definition empty_store : store := mk_store [] 0 [].

(** A database object that has not been opened, over a file with the
    schema and no rows. *)
Definition empty_db : Database := Closed empty_store.

Definition may_1990 : date := mk_date 1990 5 15.

Definition smith_male : models.Employee :=
  models.new_Employee "Smith John Carlson" may_1990 "Male".
Definition smith_female : models.Employee :=
  models.new_Employee "Smith John Carlson" may_1990 "Female".
Definition fallon : models.Employee :=
  models.new_Employee "Fallon Mary Ivanovich" (mk_date 1985 2 10) "Female".
Definition foster_lower : models.Employee :=
  models.new_Employee "foster Fig Evans" may_1990 "Male".
Definition fisher : models.Employee :=
  models.new_Employee "Fisher Henry Quincy" (mk_date 1971 12 31) "Male".

(** A table with four rows, written through [to_row]; the second name
    begins with a lower-case letter. *)
Definition directory : store :=
  mk_store [ mk_row 1 "Smith John Carlson" "1990-05-15" "Male";
             mk_row 2 "foster Fig Evans" "1990-05-15" "Male";
             mk_row 3 "Fallon Mary Ivanovich" "1985-02-10" "Female";
             mk_row 4 "Fisher Henry Quincy" "1971-12-31" "Male" ]
           4 [].

Definition directory_db : Database := Closed directory.

(** A table from before the unique index: the key of row 2 is held by
    rows 2, 5 and 6. *)
Definition legacy : store :=
  mk_store [ mk_row 2 "Smith John Carlson" "1990-05-15" "Male";
             mk_row 3 "Fisher Henry Quincy" "1971-12-31" "Male";
             mk_row 5 "Smith John Carlson" "1990-05-15" "Female";
             mk_row 6 "Smith John Carlson" "1990-05-15" "Male" ]
           6 [].

Definition legacy_db : Database := Closed legacy.

Definition keyboard_interrupt : exn := mk_exn KeyboardInterrupt "".
Definition boom : exn := mk_exn RuntimeError "generator failed".

(** A body that writes one row and is then interrupted. *)
Definition interrupted_body : op Z :=
  exec_dml (insert_or_ignore_employee (models.to_row smith_male)) ;;
  raise keyboard_interrupt.

(** A body that writes one row and then fails. *)
Definition failing_body : op Z :=
  exec_dml (insert_or_ignore_employee (models.to_row smith_male)) ;;
  raise boom.

(** A stand-in for the two codecs, enough to run the compressed-table
    mode: the four fields of a payload written one after the other, each
    string behind its length in unary, and a compressor that only adds
    the two magic bytes of a gzip stream. *)
Fixpoint unary (n : nat) : string :=
  match n with
  | O => "0"
  | S n' => String "1" (unary n')
  end.

Fixpoint take_unary (s : string) : option (nat * string) :=
  match s with
  | EmptyString => None
  | String c s' =>
      if Ascii.eqb c "1" then
        match take_unary s' with
        | Some (n, r) => Some (S n, r)
        | None => None
        end
      else if Ascii.eqb c "0" then Some (O, s')
      else None
  end.

Fixpoint take (n : nat) (s : string) : option (string * string) :=
  match n with
  | O => Some (EmptyString, s)
  | S n' =>
      match s with
      | EmptyString => None
      | String c s' =>
          match take n' s' with
          | Some (a, r) => Some (String c a, r)
          | None => None
          end
      end
  end.

Definition put_string (s : string) : string :=
  (unary (String.length s) ++ s)%string.

Definition get_string (s : string) : option (string * string) :=
  match take_unary s with
  | Some (n, r) => take n r
  | None => None
  end.

Definition put_int (n : Z) : string :=
  String (if n <? 0 then "-"%char else "+"%char) (unary (Z.abs_nat n)).

Definition get_int (s : string) : option (Z * string) :=
  match s with
  | EmptyString => None
  | String c s' =>
      match take_unary s' with
      | Some (n, r) =>
          Some (if Ascii.eqb c "-" then - Z.of_nat n else Z.of_nat n, r)
      | None => None
      end
  end.

Definition fields_dumps (v : main.json) : string :=
  match v with
  | main.JObject [(_, main.JString a); (_, main.JString b);
                  (_, main.JString c); (_, main.JInt n)] =>
      (put_string a ++ put_string b ++ put_string c ++ put_int n)%string
  | _ => EmptyString
  end.

Definition fields_loads (s : string) : result main.json :=
  let bad := Raised (mk_exn ValueError "Expecting value") in
  match get_string s with
  | None => bad
  | Some (a, s1) =>
      match get_string s1 with
      | None => bad
      | Some (b, s2) =>
          match get_string s2 with
          | None => bad
          | Some (c, s3) =>
              match get_int s3 with
              | Some (n, EmptyString) =>
                  Ok (main.JObject
                        [("full_name", main.JString a);
                         ("birth_date", main.JString b);
                         ("gender", main.JString c);
                         ("age", main.JInt n)])
              | _ => bad
              end
          end
      end
  end.

Definition magic_compress (b : bytes) : bytes :=
  Byte.x1f :: Byte.x8b :: b.

Definition magic_decompress (b : bytes) : result bytes :=
  match b with
  | Byte.x1f :: Byte.x8b :: rest => Ok rest
  | _ => Raised (mk_exn ValueError "Not a gzipped file")
  end.

(** A clock that stands still on 1 June 2025. *)
Definition june_2025 (i : nat) : date := mk_date 2025 6 1.

(** Stand-ins for what the mode prints of numbers and dictionaries. *)
Definition percent (compressed_size plain_bytes : Z) : string :=
  if plain_bytes =? 0 then "0"
  else main.str ((plain_bytes - compressed_size) * 100 / plain_bytes).

Definition refresh : main.W unit :=
  main.mode_compressed_table fields_dumps fields_loads magic_compress
    magic_decompress "0.000120" "0.000045" percent fields_dumps june_2025.

Definition refreshed_db : Database :=
  Eval vm_compute in main.db (snd (refresh (main.mk_world directory_db []))).

(** The handle as an interrupted body leaves it: a transaction is open
    and holds one uncommitted row. *)
Definition interrupted_db : Database :=
  Eval vm_compute in snd (transaction interrupted_body empty_db).

(** A file whose primary table has no row of the subset any more, while
    the compressed table still holds a row of an earlier refresh. *)
Definition stale : store :=
  mk_store [ mk_row 1 "Smith John Carlson" "1990-05-15" "Male";
             mk_row 3 "Fallon Mary Ivanovich" "1985-02-10" "Female" ]
           4
           [ mk_crow "Fisher Henry Quincy" "1971-12-31" "Male" [] ].

Definition stale_db : Database := Closed stale.

(** A table with one row of the subset, written through [to_row], and a
    row of another origin whose birth date is no date. *)
Definition partly_foreign : store :=
  mk_store [ mk_row 1 "Fisher Henry Quincy" "1971-12-31" "Male";
             mk_row 2 "Smith Ann Lee" "unknown" "Female" ]
           2 [].

Definition partly_foreign_db : Database := Closed partly_foreign.

(** A table written past the application: the first name has a leading
    space. *)
Definition untrimmed : store :=
  mk_store [ mk_row 1 " Zed Al Bo" "1990-05-15" "Male";
             mk_row 2 "Abe Al Bo" "1990-05-15" "Male";
             mk_row 3 "Zed Al Bo" "1990-05-15" "Male" ]
           3 [].

Definition untrimmed_db : Database := Closed untrimmed.

(** A [random.Random] for the examples: a linear congruential generator
    whose state is an integer. *)
Definition lcg (n : Z) (g : Z) : Z * Z :=
  let g' := (g * 1103515245 + 12345) mod 2147483648 in (g' mod n, g').

End examples.

(* ================================================================== *)
(** ** Properties                                                      *)
(* ================================================================== *)

Import py sqlite database repository props.

(** *** Strings *)

Lemma lstrip_no_leading_space (s : string) :
  starts_with_space (lstrip s) = false.
Proof.
  induction s as [|c s IH]; simpl; [reflexivity|].
  destruct (isspace c) eqn:E; simpl; [exact IH | exact E].
Qed.

Lemma rstrip_no_trailing_space (s : string) :
  ends_with_space (rstrip s) = false.
Proof.
  induction s as [|c s IH]; simpl; [reflexivity|].
  destruct (rstrip s) as [|d r] eqn:E.
  - destruct (isspace c) eqn:Ec; simpl; [reflexivity | exact Ec].
  - simpl. exact IH.
Qed.

Lemma rstrip_keeps_head (s : string) :
  starts_with_space s = false -> starts_with_space (rstrip s) = false.
Proof.
  destruct s as [|c s]; simpl; [reflexivity|].
  intros Hc. destruct (rstrip s); [rewrite Hc|]; simpl; auto.
Qed.

Lemma strip_trimmed (s : string) : trimmed (strip s).
Proof.
  unfold trimmed, strip. split.
  - apply rstrip_keeps_head, lstrip_no_leading_space.
  - apply rstrip_no_trailing_space.
Qed.

Lemma lstrip_fixed (s : string) :
  starts_with_space s = false -> lstrip s = s.
Proof. destruct s as [|c s]; simpl; [reflexivity|]. now intros ->. Qed.

Lemma rstrip_fixed (s : string) :
  ends_with_space s = false -> rstrip s = s.
Proof.
  induction s as [|c s IH]; simpl; [reflexivity|].
  destruct s as [|d s'].
  - simpl. now intros ->.
  - intros H. rewrite (IH H). reflexivity.
Qed.

Lemma strip_fixed (s : string) : trimmed s -> strip s = s.
Proof.
  intros [H1 H2]. unfold strip. rewrite (lstrip_fixed _ H1).
  now apply rstrip_fixed.
Qed.

Lemma strip_idempotent (s : string) : strip (strip s) = strip s.
Proof. apply strip_fixed, strip_trimmed. Qed.

Lemma is_gender_cases (g : string) :
  models.is_gender g = true <-> g = "Male" \/ g = "Female".
Proof.
  unfold models.is_gender. rewrite orb_true_iff, !String.eqb_eq. tauto.
Qed.

Lemma is_gender_normal (g : string) :
  models.is_gender g = true -> capitalize (strip g) = g.
Proof. intros H. apply is_gender_cases in H as [-> | ->]; reflexivity. Qed.

(** *** The scoped transaction *)

Lemma transaction_eq {A : Type} (body : op A) (db : Database) :
  transaction body db =
    let (r, c') :=
      match exec_begin (handle db) with
      | (Raised e, c1) => except_Exception e c1
      | (Ok _, c1) =>
          match body c1 with
          | (Raised e, c2) => except_Exception e c2
          | (Ok v, c2) => (Ok v, commit c2)
          end
      end in
    (r, Opened c').
Proof. destruct db; reflexivity. Qed.

Lemma handle_not_in_transaction (db : Database) :
  in_transaction db = false -> tx (handle db) = None.
Proof.
  destruct db as [f|c]; simpl; [reflexivity|].
  destruct (tx c); [discriminate | reflexivity].
Qed.

Lemma handle_file (db : Database) : file (handle db) = committed db.
Proof. destruct db; reflexivity. Qed.

Lemma transaction_run {A : Type} (body : op A) (db : Database) :
  in_transaction db = false ->
  transaction body db =
    match body (begun (handle db)) with
    | (Ok v, c2) => (Ok v, Opened (commit c2))
    | (Raised e, c2) =>
        (Raised e, Opened (if is_Exception e then rollback c2 else c2))
    end.
Proof.
  intros H. rewrite transaction_eq. unfold exec_begin.
  rewrite (handle_not_in_transaction db H). fold (begun (handle db)).
  destruct (body (begun (handle db))) as [[v|e] c2]; [reflexivity|].
  unfold except_Exception. destruct (is_Exception e); reflexivity.
Qed.

(** C6, as the code has it.  On a handle with no transaction open, and
    for a body that does not commit on its own: when the body completes
    with a value the helper returns that value and what the body wrote is
    committed; when the body raises, the helper raises that same exception
    and the committed content is what it was before the call; and when the
    exception derives from [Exception] the transaction is rolled back, so
    that the next statement reads the content from before the call. *)
Theorem transaction_commits_or_rolls_back {A : Type} (body : op A)
    (db : Database) :
  in_transaction db = false ->
  file (snd (body (begun (handle db)))) = committed db ->
  let (r, db') := transaction body db in
  match body (begun (handle db)) with
  | (Ok v, c2) =>
      r = Ok v /\ committed db' = visible c2 /\ seen db' = visible c2
      /\ in_transaction db' = false
  | (Raised e, _) =>
      r = Raised e /\ committed db' = committed db
      /\ (is_Exception e = true ->
          seen db' = committed db /\ in_transaction db' = false)
  end.
Proof.
  intros Htx Hfile. rewrite (transaction_run body db Htx).
  destruct (body (begun (handle db))) as [[v|e] c2]; simpl in *.
  - unfold commit, visible. destruct (tx c2) eqn:E; simpl; rewrite ?E; auto.
  - split; [reflexivity|]. split.
    + destruct (is_Exception e); simpl; exact Hfile.
    + intros ->. simpl. auto.
Qed.

Lemma transaction_commits_or_rolls_back_witness :
  let (r, db') := transaction examples.failing_body examples.empty_db in
  r = Raised examples.boom /\ committed db' = examples.empty_store
  /\ (is_Exception examples.boom = true ->
      seen db' = examples.empty_store /\ in_transaction db' = false).
Proof.
  exact (transaction_commits_or_rolls_back examples.failing_body
           examples.empty_db eq_refl eq_refl).
Defined.

(** C6 as stated fails: a body that wrote a row and is then interrupted
    ([KeyboardInterrupt] is not an [Exception]) is not rolled back; the
    transaction stays open and the row it wrote is read by the next
    statement of the handle. *)
Lemma transaction_keeps_interrupted_writes :
  let (r, db') := transaction examples.interrupted_body examples.empty_db in
  r = Raised examples.keyboard_interrupt
  /\ in_transaction db' = true
  /\ employees (seen db')
     = [mk_row 1 "Smith John Carlson" "1990-05-15" "Male"]
  /\ employees (committed db') = [].
Proof. vm_compute. repeat split. Qed.

(** *** Single inserts *)

#[local] Arguments insert_or_ignore : simpl never.

Lemma insert_employee_run (e : models.Employee) (db : Database) :
  in_transaction db = false ->
  insert_employee e db =
    let (s', n) := insert_or_ignore (models.to_row e) (committed db) in
    (Ok (n >? 0), Opened (mk_conn s' None n)).
Proof.
  intros H. unfold insert_employee, bind at 1.
  rewrite (transaction_run _ db H).
  unfold bind, exec_dml, insert_or_ignore_employee, select_changes, ret, begun,
    visible; simpl.
  rewrite handle_file.
  destruct (insert_or_ignore (models.to_row e) (committed db)) as [s' n].
  reflexivity.
Qed.

Lemma key_taken_filter (n b : string) (rows : list employees_row) :
  key_taken n b rows = false -> filter (has_key (n, b)) rows = [].
Proof.
  induction rows as [|r rows IH]; simpl; [reflexivity|].
  intros H. apply orb_false_iff in H as [Hr Hrows].
  rewrite (IH Hrows). unfold has_key, key.
  destruct (key_eq_dec (full_name r, birth_date r) (n, b)) as [E|_];
    [|reflexivity].
  injection E as E1 E2. rewrite E1, E2, !String.eqb_refl in Hr. discriminate.
Qed.

Lemma key_taken_app (n b : string) (l1 l2 : list employees_row) :
  key_taken n b (l1 ++ l2) = key_taken n b l1 || key_taken n b l2.
Proof. apply existsb_app. Qed.

Lemma has_key_own (r : employees_row) : has_key (key r) r = true.
Proof. unfold has_key. destruct (key_eq_dec (key r) (key r)); congruence. Qed.

Lemma insert_or_ignore_fresh (n b g : string) (s : store) :
  check_gender g = true ->
  key_taken n b (employees s) = false ->
  insert_or_ignore (n, b, g) s
  = (mk_store (employees s ++ [mk_row (next_id s) n b g]) (next_id s)
              (compressed_employees s), 1).
Proof. intros Hg Hk. unfold insert_or_ignore. now rewrite Hg, Hk. Qed.

Lemma insert_or_ignore_taken (n b g : string) (s : store) :
  key_taken n b (employees s) = true ->
  insert_or_ignore (n, b, g) s = (s, 0).
Proof.
  intros Hk. unfold insert_or_ignore. now rewrite Hk, orb_true_r.
Qed.

Lemma insert_or_ignore_bad_gender (n b g : string) (s : store) :
  check_gender g = false ->
  insert_or_ignore (n, b, g) s = (s, 0).
Proof. intros Hg. unfold insert_or_ignore. now rewrite Hg. Qed.

Lemma has_key_row (n b g : string) (i : Z) :
  has_key (n, b) (mk_row i n b g) = true.
Proof. exact (has_key_own (mk_row i n b g)). Qed.

Lemma key_taken_last (n b g : string) (i : Z) (rows : list employees_row) :
  key_taken n b (rows ++ [mk_row i n b g]) = true.
Proof.
  rewrite key_taken_app. cbn [key_taken existsb full_name birth_date].
  rewrite !String.eqb_refl. cbn [andb orb]. apply orb_true_r.
Qed.

(** C7.  On a table that does not hold the key yet, inserting a record
    and then a second record with the same name and birth date, whatever
    its gender: the first call returns true, the second false, and the
    table holds exactly one row with that key, with the gender of the
    first record. *)
Theorem insert_twice_first_wins (a b : models.Employee) (db : Database) :
  in_transaction db = false ->
  check_gender (models.gender a) = true ->
  employee_key b = employee_key a ->
  key_taken (models.full_name a) (isoformat (models.birth_date a))
            (employees (committed db)) = false ->
  let (r1, db1) := insert_employee a db in
  let (r2, db2) := insert_employee b db1 in
  r1 = Ok true /\ r2 = Ok false
  /\ exists i,
       filter (has_key (employee_key a)) (employees (committed db2))
       = [mk_row i (models.full_name a) (isoformat (models.birth_date a))
                 (models.gender a)].
Proof.
  intros Htx Hg Hkey Hfresh.
  rewrite (insert_employee_run a db Htx).
  assert (Hb : models.to_row b
               = (models.full_name a, isoformat (models.birth_date a),
                  models.gender b)).
  { pose proof (f_equal fst Hkey) as Hn. pose proof (f_equal snd Hkey) as Hd.
    unfold employee_key in Hn, Hd. cbn [fst snd] in Hn, Hd.
    unfold models.to_row. now rewrite Hn, Hd. }
  unfold employee_key, models.to_row at 1.
  generalize dependent (isoformat (models.birth_date a)). intros ba Hfresh Hb.
  rewrite (insert_or_ignore_fresh _ _ _ _ Hg Hfresh).
  rewrite insert_employee_run by reflexivity.
  cbn [committed file]. rewrite Hb.
  rewrite insert_or_ignore_taken by apply key_taken_last.
  split; [reflexivity|]. split; [reflexivity|].
  exists (next_id (committed db)). cbn [committed file employees].
  rewrite filter_app, (key_taken_filter _ _ _ Hfresh).
  cbn [filter app]. rewrite has_key_row. reflexivity.
Qed.

Lemma insert_twice_first_wins_witness :
  let (r1, db1) := insert_employee examples.smith_male examples.empty_db in
  let (r2, db2) := insert_employee examples.smith_female db1 in
  r1 = Ok true /\ r2 = Ok false
  /\ exists i,
       filter (has_key (employee_key examples.smith_male))
              (employees (committed db2))
       = [mk_row i "Smith John Carlson" "1990-05-15" "Male"].
Proof.
  exact (insert_twice_first_wins examples.smith_male examples.smith_female
           examples.empty_db eq_refl eq_refl eq_refl eq_refl).
Defined.

(** *** Reads *)

Lemma read_run {A : Type} (q : store -> A) (db : Database) :
  (connect ;; on_handle (exec_select q)) db
  = (Ok (q (seen db)), Opened (handle db)).
Proof. destruct db; reflexivity. Qed.

(** C10.  [compressed_table_stats] returns a pair on every state of the
    compressed table, the number of rows and the sum of the payload
    lengths; on the empty table the pair is [(0, 0)]. *)
Theorem compressed_table_stats_total (db : Database) :
  fst (compressed_table_stats db)
  = Ok (Z.of_nat (List.length (compressed_employees (seen db))),
        fold_right Z.add 0
          (map (fun r => Z.of_nat (List.length (compressed_payload r)))
               (compressed_employees (seen db))))
  /\ (compressed_employees (seen db) = [] ->
      fst (compressed_table_stats db) = Ok (0, 0)).
Proof.
  unfold compressed_table_stats. rewrite read_run. cbn [fst].
  unfold select_stats. split.
  - destruct (compressed_employees (seen db)); reflexivity.
  - intros ->. reflexivity.
Qed.

Lemma compressed_table_stats_total_witness :
  fst (compressed_table_stats examples.empty_db) = Ok (0, 0).
Proof.
  exact (proj2 (compressed_table_stats_total examples.empty_db) eq_refl).
Defined.

(** *** Construction of records *)

Lemma strptime_ymd_valid (s : string) :
  match strptime_ymd s with
  | Ok d => valid_date d = true
  | Raised e => exn_cls e = ValueError
  end.
Proof.
  unfold strptime_ymd.
  destruct (parse_Y s) as [[y s1]|]; [|reflexivity].
  destruct (expect_dash s1) as [s2|]; [|reflexivity].
  destruct (parse_m s2) as [[m s3]|]; [|reflexivity].
  destruct (expect_dash s3) as [s4|]; [|reflexivity].
  destruct (parse_d s4) as [[d [|c rest]]|]; [|reflexivity|reflexivity].
  destruct (valid_date (mk_date y m d)) eqn:E; [exact E | reflexivity].
Qed.

(** Construction from raw strings keeps the record invariant: the name is
    trimmed, the gender is one of the two values, the date is a calendar
    date; every failure is a [ValueError]. *)
Lemma from_strings_invariant (n b g : string) :
  match models.from_strings n b g with
  | Ok e =>
      models.full_name e = strip n /\ trimmed (models.full_name e)
      /\ models.gender e = capitalize (strip g)
      /\ models.is_gender (models.gender e) = true
      /\ valid_date (models.birth_date e) = true
  | Raised e => exn_cls e = ValueError
  end.
Proof.
  unfold models.from_strings.
  pose proof (strptime_ymd_valid b) as Hd.
  destruct (strptime_ymd b) as [d|e]; [|exact Hd].
  destruct (models.is_gender (capitalize (strip g))) eqn:Hg;
    cbn [negb]; [|reflexivity].
  unfold models.new_Employee, models.__post_init__.
  cbn [models.full_name models.gender models.birth_date].
  rewrite (is_gender_normal _ Hg).
  repeat split; try assumption; apply strip_trimmed.
Qed.

(** C5 fails for direct construction: [Employee(full_name="Ann Lee",
    birth_date=date(2000, 1, 1), gender="other")] is built without an
    error and its gender is ["Other"], none of the two values; the same
    strings are refused by [from_strings]. *)
Theorem direct_construction_keeps_unknown_gender :
  let e := models.new_Employee "Ann Lee" (mk_date 2000 1 1) "other" in
  models.gender e = "Other"
  /\ models.is_gender (models.gender e) = false
  /\ models.from_strings "Ann Lee" "2000-01-01" "other"
     = Raised (mk_exn ValueError "Gender must be 'Male' or 'Female'").
Proof. vm_compute. repeat split. Qed.

(** *** Counting the rows written *)

(** C1 fails on the spec's own example: three records of which the second
    has the key of the first.  Two rows are written, and [bulk_insert]
    returns 1: [changes()] after [executemany] is the count of the last
    INSERT alone. *)
Theorem bulk_insert_counts_last_statement :
  let (r, db') :=
    bulk_insert
      (iter_of_list [examples.smith_male; examples.smith_female;
                     examples.fisher])
      default_batch_size examples.empty_db in
  r = Ok 1
  /\ map columns (employees (committed db'))
     = [("Smith John Carlson", "1990-05-15", "Male");
        ("Fisher Henry Quincy", "1971-12-31", "Male")].
Proof. vm_compute. repeat split. Qed.

(** C2 fails on two rows: both are stored, inside one transaction, and
    [replace_compressed_rows] returns 1.  The same defect as in C1. *)
Theorem replace_compressed_rows_counts_last_statement :
  let (r, db') :=
    replace_compressed_rows
      [("Fisher Henry Quincy", "1971-12-31", "Male", []);
       ("Foster Fig Evans", "1990-05-15", "Male", [])]
      examples.empty_db in
  r = Ok 1
  /\ List.length (compressed_employees (committed db')) = 2%nat
  /\ in_transaction db' = false.
Proof. vm_compute. repeat split. Qed.

(** *** Bulk insert *)

Lemma executemany_insert_run (rows : list (string * string * string))
    (f s : store) (n : Z) :
  exists n',
    executemany insert_or_ignore_employee rows (mk_conn f (Some s) n)
    = (Ok tt, mk_conn f (Some (insert_all rows s)) n').
Proof.
  revert s n. induction rows as [|p rows IH]; intros s n.
  - exists n. reflexivity.
  - cbn [executemany]. unfold exec_dml. cbn [visible tx file].
    unfold insert_or_ignore_employee at 1.
    destruct (insert_or_ignore p s) as [s' k] eqn:E. cbv beta iota.
    destruct (IH s' k) as [n' Hn']. exists n'. rewrite Hn'.
    unfold insert_all. cbn [fold_left]. now rewrite E.
Qed.

Lemma insert_all_app (l1 l2 : list (string * string * string)) (s : store) :
  insert_all (l1 ++ l2) s = insert_all l2 (insert_all l1 s).
Proof. apply fold_left_app. Qed.

Lemma for_batches_run (batches : list (list models.Employee)) (acc : Z)
    (f s : store) (n : Z) :
  exists total n',
    for_batches batches acc (mk_conn f (Some s) n)
    = (Ok total,
       mk_conn f (Some (insert_all (map models.to_row (List.concat batches)) s)) n').
Proof.
  revert acc s n. induction batches as [|batch rest IH]; intros acc s n.
  - exists acc, n. reflexivity.
  - cbn [for_batches]. unfold bind at 1.
    destruct (executemany_insert_run (map models.to_row batch) f s n)
      as [n1 H1].
    rewrite H1. unfold bind at 1, select_changes. cbn [changes].
    destruct (IH (acc + n1) (insert_all (map models.to_row batch) s) n1)
      as [total [n' H]].
    exists total, n'. rewrite H. cbn [List.concat].
    now rewrite map_app, insert_all_app.
Qed.

Lemma chunked_loop_concat (items : list models.Employee) (size : Z)
    (batch : list models.Employee) :
  List.concat (fst (models.chunked_loop items size batch))
    ++ snd (models.chunked_loop items size batch)
  = batch ++ items.
Proof.
  revert batch. induction items as [|item rest IH]; intros batch.
  - cbn. now rewrite app_nil_r.
  - cbn [models.chunked_loop].
    destruct (Z.of_nat (List.length (batch ++ [item])) >=? size).
    + specialize (IH []).
      destruct (models.chunked_loop rest size []) as [more last].
      cbn [fst snd List.concat] in *. rewrite <- !app_assoc, IH. reflexivity.
    + rewrite IH, <- app_assoc. reflexivity.
Qed.

(** Without a failure of the input, the batches are the input cut into
    pieces: nothing is lost, repeated or reordered. *)
Lemma chunked_concat (it : iterable models.Employee) (size : Z) :
  fault it = None ->
  List.concat (yielded (models.chunked it size)) = yielded it
  /\ fault (models.chunked it size) = None.
Proof.
  intros Hf. unfold models.chunked.
  pose proof (chunked_loop_concat (yielded it) size []) as H.
  destruct (models.chunked_loop (yielded it) size []) as [full last].
  rewrite Hf. cbn [fst snd app] in H.
  destruct last as [|x last].
  - cbn [yielded fault]. now rewrite app_nil_r in H.
  - cbn [yielded fault]. rewrite concat_app. cbn [List.concat].
    now rewrite app_nil_r.
Qed.

Lemma chunked_fault (it : iterable models.Employee) (size : Z) (e : exn) :
  fault it = Some e -> fault (models.chunked it size) = Some e.
Proof.
  intros Hf. unfold models.chunked.
  destruct (models.chunked_loop (yielded it) size []) as [full last].
  now rewrite Hf.
Qed.

(** C3, as the code has it.  The whole call is one transaction.  When the
    input is exhausted without a failure, the rows of all batches are
    committed together, and the content does not depend on the batch
    size.  When the input fails, at whatever batch, the call raises that
    exception and nothing the call wrote is committed; for an
    [Exception] the transaction is rolled back. *)
Theorem bulk_insert_all_or_nothing (employees : iterable models.Employee)
    (batch_size : Z) (db : Database) :
  in_transaction db = false ->
  let (r, db') := bulk_insert employees batch_size db in
  match fault employees with
  | None =>
      (exists n, r = Ok n)
      /\ committed db'
         = insert_all (map models.to_row (yielded employees)) (committed db)
      /\ in_transaction db' = false
  | Some e =>
      r = Raised e /\ committed db' = committed db
      /\ (is_Exception e = true ->
          seen db' = committed db /\ in_transaction db' = false)
  end.
Proof.
  intros Htx. unfold bulk_insert. rewrite (transaction_run _ db Htx).
  unfold begun. rewrite handle_file. unfold bind at 1.
  destruct (for_batches_run (yielded (models.chunked employees batch_size)) 0
              (committed db) (committed db) (changes (handle db)))
    as [total [n' H]].
  rewrite H. clear H.
  destruct (fault employees) as [e|] eqn:Hf.
  - rewrite (chunked_fault _ _ _ Hf). unfold raise.
    split; [reflexivity|]. split.
    + destruct (is_Exception e); reflexivity.
    + intros ->. split; reflexivity.
  - destruct (chunked_concat employees batch_size Hf) as [Hc Hn].
    rewrite Hn, Hc. unfold ret. cbn. eauto.
Qed.

Lemma bulk_insert_all_or_nothing_witness :
  let (r, db') :=
    bulk_insert
      (mk_iter [examples.smith_male; examples.fisher; examples.fallon]
               (Some examples.boom))
      2 examples.empty_db in
  r = Raised examples.boom /\ committed db' = examples.empty_store
  /\ (is_Exception examples.boom = true ->
      seen db' = examples.empty_store /\ in_transaction db' = false).
Proof.
  exact (bulk_insert_all_or_nothing
           (mk_iter [examples.smith_male; examples.fisher; examples.fallon]
                    (Some examples.boom))
           2 examples.empty_db eq_refl).
Defined.

(** C3 as stated fails.  With batches of two, the first batch (two rows)
    is written, and the input fails while the second batch is being
    filled: the call raises and the table is empty afterwards, so the rows
    of the first batch did not stay committed. *)
Lemma bulk_insert_rolls_back_earlier_batches :
  let input :=
    mk_iter [examples.smith_male; examples.fisher; examples.fallon]
            (Some examples.boom) in
  let (r, db') := bulk_insert input 2 examples.empty_db in
  yielded (models.chunked input 2)
  = [[examples.smith_male; examples.fisher]]
  /\ r = Raised examples.boom
  /\ employees (committed db') = []
  /\ employees (seen db') = [].
Proof. vm_compute. repeat split. Qed.

(** *** Ordering and decoding of query results *)

Lemma read_bind_run {A B : Type} (q : store -> A) (k : A -> M B)
    (db : Database) :
  (connect ;; rows <- on_handle (exec_select q) ;; k rows) db
  = k (q (seen db)) (Opened (handle db)).
Proof. destruct db; reflexivity. Qed.

Section order_by_facts.

Context {R : Type} (name : R -> string).

Lemma insert_sorted_perm (r : R) (l : list R) :
  Permutation (insert_sorted name r l) (r :: l).
Proof.
  induction l as [|x l IH]; cbn [insert_sorted]; [reflexivity|].
  destruct (String.leb (name r) (name x)); [reflexivity|].
  rewrite IH. apply perm_swap.
Qed.

Lemma order_by_perm (l : list R) : Permutation (order_by name l) l.
Proof.
  induction l as [|x l IH]; cbn; [reflexivity|].
  fold (order_by name l). rewrite insert_sorted_perm. now constructor.
Qed.

Lemma insert_sorted_hd (a r : R) (l : list R) :
  name_le name a r -> HdRel (name_le name) a l ->
  HdRel (name_le name) a (insert_sorted name r l).
Proof.
  intros Har Hal. destruct l as [|x l]; cbn [insert_sorted].
  - now constructor.
  - destruct (String.leb (name r) (name x)); constructor; auto.
    now inversion Hal.
Qed.

Lemma insert_sorted_sorted (r : R) (l : list R) :
  Sorted (name_le name) l -> Sorted (name_le name) (insert_sorted name r l).
Proof.
  induction 1 as [|x l Hl IH Hx]; cbn [insert_sorted].
  - repeat constructor.
  - destruct (String.leb (name r) (name x)) eqn:E.
    + constructor; [now constructor|]. constructor. exact E.
    + constructor; [exact IH|]. apply insert_sorted_hd; [|exact Hx].
      unfold name_le, string_le.
      destruct (String.leb_total (name r) (name x)); congruence.
Qed.

Lemma order_by_sorted (l : list R) : Sorted (name_le name) (order_by name l).
Proof.
  induction l as [|x l IH]; cbn; [constructor|].
  now apply insert_sorted_sorted.
Qed.

Lemma order_by_names_sorted (l : list R) :
  Sorted string_le (map name (order_by name l)).
Proof.
  pose proof (order_by_sorted l) as H.
  induction H as [|x l' Hl IH Hx]; cbn [map]; constructor; auto.
  destruct Hx; cbn [map]; constructor; assumption.
Qed.

End order_by_facts.

Lemma like_any (s : string) : like "%" s = true.
Proof.
  induction s as [|c s IH]; [reflexivity|].
  change (like "%" (String c s)) with (like "" (String c s) || like "%" s).
  rewrite IH. apply orb_true_r.
Qed.

Lemma eq_nocase_F (c : ascii) :
  eq_nocase "F" c = Ascii.eqb c "F" || Ascii.eqb c "f".
Proof. destruct c as [[] [] [] [] [] [] [] []]; reflexivity. Qed.

(** What [full_name LIKE 'F%'] selects: a first character [F] or [f]. *)
Lemma like_F_prefix (s : string) : like "F%" s = starts_with_F s.
Proof.
  destruct s as [|c s]; [reflexivity|].
  change (like "F%" (String c s)) with (eq_nocase "F" c && like "%" s).
  rewrite like_any, andb_true_r. apply eq_nocase_F.
Qed.

Lemma male_surname_f_spec (g n : string) :
  male_surname_f g n = String.eqb g "Male" && starts_with_F n.
Proof. unfold male_surname_f. now rewrite like_F_prefix. Qed.

Lemma decode_canonical (rows : list employees_row) :
  Forall canonical rows ->
  exists out,
    decode_rows (map columns rows) = Ok out
    /\ map models.to_row out = map columns rows.
Proof.
  induction 1 as [|r rows [e [He Hrow]] _ [out [Hout Hmap]]].
  - exists []. split; reflexivity.
  - exists (e :: out). unfold decode_rows in *. cbn [map list_comprehension].
    unfold columns at 1. rewrite He, Hout. cbn [map]. now rewrite Hrow, Hmap.
Qed.

Lemma Forall_perm {A : Type} (P : A -> Prop) (l l' : list A) :
  Permutation l l' -> Forall P l -> Forall P l'.
Proof.
  intros Hp H. apply Forall_forall. intros x Hx.
  rewrite Forall_forall in H. apply H.
  now apply (Permutation_in _ (Permutation_sym Hp)).
Qed.

Lemma Forall_filter {A : Type} (P : A -> Prop) (f : A -> bool) (l : list A) :
  Forall P l -> Forall P (filter f l).
Proof.
  rewrite !Forall_forall. intros H x Hx. apply filter_In in Hx. now apply H.
Qed.

Lemma to_row_name (out : list models.Employee) (rows : list employees_row) :
  map models.to_row out = map columns rows ->
  map models.full_name out = map full_name rows.
Proof.
  intros H. apply (f_equal (map (fun t => fst (fst t)))) in H.
  rewrite !map_map in H. exact H.
Qed.

Lemma to_row_key (out : list models.Employee) (rows : list employees_row) :
  map models.to_row out = map columns rows ->
  map employee_key out = map key rows.
Proof.
  intros H.
  apply (f_equal (map (fun t : string * string * string =>
                         (fst (fst t), snd (fst t))))) in H.
  rewrite !map_map in H. exact H.
Qed.

(** C4, as the code has it.  When the rows of the subset are row
    encodings of records (the rest of the table may hold anything),
    [fetch_male_surname_f] returns the rows whose gender is ['Male'] and
    whose name begins with [F] or [f] (LIKE folds ASCII case), each once,
    in ascending order of the name. *)
Theorem fetch_male_surname_f_selects (db : Database) :
  Forall canonical
         (filter (fun r => String.eqb (gender r) "Male"
                           && starts_with_F (full_name r))
                 (employees (seen db))) ->
  exists out,
    fst (fetch_male_surname_f db) = Ok out
    /\ Permutation
         (map models.to_row out)
         (map columns
            (filter (fun r => String.eqb (gender r) "Male"
                              && starts_with_F (full_name r))
                    (employees (seen db))))
    /\ Sorted string_le (map models.full_name out).
Proof.
  intros Hc. unfold fetch_male_surname_f. rewrite read_bind_run.
  unfold select_male_surname_f.
  set (picked := filter _ (employees (seen db))).
  assert (Hp : picked
               = filter (fun r => String.eqb (gender r) "Male"
                                  && starts_with_F (full_name r))
                        (employees (seen db))).
  { apply filter_ext. intros r. apply male_surname_f_spec. }
  assert (Hcp : Forall canonical (order_by full_name picked)).
  { apply (Forall_perm _ picked).
    - symmetry. apply order_by_perm.
    - rewrite Hp. exact Hc. }
  destruct (decode_canonical _ Hcp) as [out [Hout Hmap]].
  exists out. unfold of_result. cbn [fst]. split; [exact Hout|]. split.
  - rewrite Hmap, <- Hp. apply Permutation_map, order_by_perm.
  - rewrite (to_row_name _ _ Hmap). apply order_by_names_sorted.
Qed.

Lemma fetch_male_surname_f_selects_witness :
  exists out,
    fst (fetch_male_surname_f examples.partly_foreign_db) = Ok out
    /\ Permutation
         (map models.to_row out)
         (map columns
            (filter (fun r => String.eqb (gender r) "Male"
                              && starts_with_F (full_name r))
                    (employees (seen examples.partly_foreign_db))))
    /\ Sorted string_le (map models.full_name out).
Proof.
  apply (fetch_male_surname_f_selects examples.partly_foreign_db).
  repeat constructor; eexists; split; reflexivity.
Defined.

(** C4 as stated fails: the row of ["foster Fig Evans"], whose name
    begins with a lower-case [f], is returned. *)
Lemma fetch_male_surname_f_returns_lower_case :
  fst (fetch_male_surname_f examples.directory_db)
  = Ok [examples.fisher; examples.foster_lower]
  /\ models.full_name examples.foster_lower = "foster Fig Evans".
Proof. vm_compute. split; reflexivity. Qed.

(** *** One row per key *)

Lemma has_key_iff (k : string * string) (r : employees_row) :
  has_key k r = true <-> key r = k.
Proof.
  unfold has_key. destruct (key_eq_dec (key r) k); split; congruence.
Qed.

Lemma sql_min_spec (x : Z) (l : list Z) :
  exists m, sql_min (x :: l) = Some m /\ In m (x :: l)
            /\ Forall (Z.le m) (x :: l).
Proof.
  exists (fold_right Z.min x l). split; [reflexivity|].
  induction l as [|y l [Hin Hle]]; cbn [fold_right].
  - split; [now left|]. constructor; [lia | constructor].
  - pose proof (Forall_inv Hle) as Hx. pose proof (Forall_inv_tail Hle) as Hl.
    split.
    + destruct (Z.min_spec y (fold_right Z.min x l)) as [[_ ->]|[_ ->]].
      * right. now left.
      * destruct Hin as [<-|Hin]; [now left | right; now right].
    + constructor; [lia|]. constructor; [lia|].
      eapply Forall_impl; [|exact Hl]. cbv beta. intros z Hz. lia.
Qed.

Lemma flat_map_map {A B C : Type} (f : A -> B) (g : B -> list C)
    (l : list A) :
  flat_map g (map f l) = flat_map (fun x => g (f x)) l.
Proof. induction l as [|x l IH]; cbn; [reflexivity | now rewrite IH]. Qed.

Lemma flat_map_ext_in {A B : Type} (f g : A -> list B) (l : list A) :
  (forall x, In x l -> f x = g x) -> flat_map f l = flat_map g l.
Proof.
  induction l as [|x l IH]; intros H; cbn; [reflexivity|].
  rewrite (H x (or_introl eq_refl)), IH; [reflexivity|].
  intros y Hy. apply H. now right.
Qed.

Lemma flat_map_nil {A B : Type} (g : A -> list B) (l : list A) :
  (forall x, In x l -> g x = []) -> flat_map g l = [].
Proof.
  induction l as [|x l IH]; intros H; cbn; [reflexivity|].
  rewrite (H x (or_introl eq_refl)), IH; [reflexivity|].
  intros y Hy. apply H. now right.
Qed.

Lemma flat_map_single {A B : Type} (g : A -> list B) (k0 : A) (l : list A) :
  NoDup l -> In k0 l ->
  (forall k, In k l -> k <> k0 -> g k = []) ->
  flat_map g l = g k0.
Proof.
  induction 1 as [|k l Hk Hl IH]; intros Hin Hg; [contradiction|].
  cbn [flat_map]. destruct Hin as [->|Hin].
  - rewrite flat_map_nil; [apply app_nil_r|].
    intros y Hy. apply Hg; [now right|]. intros ->. contradiction.
  - rewrite (Hg k (or_introl eq_refl)) by (intros ->; contradiction).
    apply IH; [exact Hin|]. intros y Hy. apply Hg. now right.
Qed.

Lemma filter_flat_map {A : Type} (f : A -> bool) (l : list A) :
  filter f l = flat_map (fun x => if f x then [x] else []) l.
Proof.
  induction l as [|x l IH]; cbn; [reflexivity|].
  rewrite IH. now destruct (f x).
Qed.

Lemma id_injective (rows : list employees_row) (a b : employees_row) :
  NoDup (map id rows) -> In a rows -> In b rows -> id a = id b -> a = b.
Proof.
  induction rows as [|r rows IH]; cbn [map]; intros Hnd Ha Hb Hid;
    [contradiction|].
  inversion Hnd as [|? ? Hr Hrows]; subst.
  destruct Ha as [->|Ha], Hb as [->|Hb]; auto.
  - exfalso. apply Hr. rewrite Hid. now apply in_map.
  - exfalso. apply Hr. rewrite <- Hid. now apply in_map.
Qed.

(** The group of a key that occurs has a row of smallest id, and that id
    is what [MIN(id)] returns for the group. *)
Lemma group_min (rows : list employees_row) (k : string * string) :
  In k (map key rows) ->
  exists r0,
    In r0 rows /\ key r0 = k
    /\ sql_min (map id (filter (has_key k) rows)) = Some (id r0)
    /\ forall r, In r rows -> key r = k -> id r0 <= id r.
Proof.
  intros Hk. apply in_map_iff in Hk as [r [Hr Hin]].
  assert (Hg : In r (filter (has_key k) rows)).
  { apply filter_In. split; [exact Hin | now apply has_key_iff]. }
  destruct (filter (has_key k) rows) as [|g0 group] eqn:E; [contradiction|].
  destruct (sql_min_spec (id g0) (map id group)) as [m [Hm [Hmin Hle]]].
  change (id g0 :: map id group) with (map id (g0 :: group)) in Hmin, Hle.
  apply in_map_iff in Hmin as [r0 [Hid Hr0]].
  rewrite <- E in Hr0. apply filter_In in Hr0 as [Hr0 Hk0].
  exists r0. split; [exact Hr0|]. split; [now apply has_key_iff|].
  split; [cbn [map]; now rewrite Hid|].
  intros r' Hr' Hk'. rewrite Hid.
  rewrite Forall_forall in Hle. apply Hle. apply in_map.
  rewrite <- E. apply filter_In. split; [exact Hr' | now apply has_key_iff].
Qed.

Lemma smallest_of_key_iff (rows : list employees_row) (e : employees_row) :
  smallest_of_key rows e = true
  <-> forall r, In r rows -> key r = key e -> id e <= id r.
Proof.
  unfold smallest_of_key. rewrite forallb_forall. split.
  - intros H r Hr Hk. specialize (H r Hr).
    apply (proj2 (has_key_iff _ _)) in Hk. rewrite Hk in H. cbn in H. lia.
  - intros H r Hr. destruct (has_key (key e) r) eqn:Hk; [|reflexivity].
    cbn. apply Z.leb_le, H; [exact Hr | now apply has_key_iff].
Qed.

(** With ids that are unique, the join keeps exactly the rows of smallest
    id of their key, each once and in table order. *)
Lemma join_uniq_filter (rows : list employees_row) :
  NoDup (map id rows) ->
  join_uniq rows = filter (smallest_of_key rows) rows.
Proof.
  intros Hnd. unfold join_uniq. rewrite filter_flat_map.
  apply flat_map_ext_in. intros e He.
  unfold uniq. rewrite flat_map_map.
  assert (Hke : In (key e) (map key rows)) by now apply in_map.
  rewrite (flat_map_single _ (key e)).
  - destruct (group_min rows (key e) Hke) as [r0 [Hr0 [Hk0 [Hmin Hle]]]].
    rewrite Hmin. destruct (id e =? id r0) eqn:Hid.
    + apply Z.eqb_eq in Hid.
      assert (e = r0) by now apply (id_injective rows). subst r0.
      now rewrite (proj2 (smallest_of_key_iff rows e) Hle).
    + destruct (smallest_of_key rows e) eqn:Hs; [|reflexivity].
      rewrite smallest_of_key_iff in Hs. apply Z.eqb_neq in Hid.
      specialize (Hs r0 Hr0 Hk0). specialize (Hle e He eq_refl). lia.
  - apply NoDup_nodup.
  - now apply nodup_In.
  - intros k Hk Hne. apply nodup_In in Hk.
    destruct (group_min rows k Hk) as [r0 [Hr0 [Hk0 [Hmin _]]]].
    rewrite Hmin. destruct (id e =? id r0) eqn:Hid; [|reflexivity].
    apply Z.eqb_eq in Hid.
    assert (e = r0) by now apply (id_injective rows). subst r0.
    congruence.
Qed.

Lemma smallest_exists (rows : list employees_row) (r : employees_row) :
  In r rows ->
  exists r0, In r0 (filter (smallest_of_key rows) rows) /\ key r0 = key r.
Proof.
  intros Hr.
  destruct (group_min rows (key r) (in_map key _ _ Hr))
    as [r0 [Hr0 [Hk0 [_ Hle]]]].
  exists r0. split; [|exact Hk0]. apply filter_In. split; [exact Hr0|].
  apply smallest_of_key_iff. intros r' Hr' Hk'. apply Hle; congruence.
Qed.

Lemma smallest_keys_NoDup (rows : list employees_row) :
  NoDup (map id rows) ->
  NoDup (map key (filter (smallest_of_key rows) rows)).
Proof.
  intros Hnd. apply NoDup_map_NoDup_ForallPairs.
  - intros a b Ha Hb Hk.
    apply filter_In in Ha as [Ha Hsa], Hb as [Hb Hsb].
    rewrite smallest_of_key_iff in Hsa, Hsb.
    apply (id_injective rows); auto.
    specialize (Hsa b Hb (eq_sym Hk)). specialize (Hsb a Ha Hk). lia.
  - apply NoDup_filter. now apply (NoDup_map_inv id).
Qed.

Lemma map_eq_In {A B C : Type} (f : A -> C) (g : B -> C) (l1 : list A)
    (l2 : list B) (x : A) :
  map f l1 = map g l2 -> In x l1 -> exists y, In y l2 /\ f x = g y.
Proof.
  revert l2. induction l1 as [|a l1 IH]; intros [|b l2] H Hx;
    try contradiction; try discriminate.
  cbn [map] in H. injection H as Hab Hl. destruct Hx as [->|Hx].
  - exists b. split; [now left | exact Hab].
  - destruct (IH l2 Hl Hx) as [y [Hy Hxy]]. exists y. split; [now right|auto].
Qed.

(** C8, as the code has it.  On a table with unique ids that holds row
    encodings of records, also one with several rows per key,
    [fetch_unique_sorted] returns a list in which every key of the table
    is represented, every entry is the row of smallest id of its key, no
    two entries have the same key, and the names ascend. *)
Theorem fetch_unique_sorted_representatives (db : Database) :
  NoDup (map id (employees (seen db))) ->
  Forall canonical (employees (seen db)) ->
  exists out,
    fst (fetch_unique_sorted db) = Ok out
    /\ (forall r, In r (employees (seen db)) ->
          exists e, In e out /\ employee_key e = key r)
    /\ (forall e, In e out ->
          exists r, In r (employees (seen db))
                    /\ models.to_row e = columns r
                    /\ forall r', In r' (employees (seen db)) ->
                                  key r' = key r -> id r <= id r')
    /\ NoDup (map employee_key out)
    /\ Sorted string_le (map models.full_name out).
Proof.
  intros Hnd Hc. unfold fetch_unique_sorted. rewrite read_bind_run.
  unfold select_unique_sorted. rewrite (join_uniq_filter _ Hnd).
  set (rows := employees (seen db)) in *.
  set (reps := filter (smallest_of_key rows) rows).
  pose proof (order_by_perm full_name reps) as Hperm.
  assert (Hcs : Forall canonical (order_by full_name reps)).
  { apply (Forall_perm _ reps); [now symmetry | now apply Forall_filter]. }
  destruct (decode_canonical _ Hcs) as [out [Hout Hmap]].
  exists out. unfold of_result. cbn [fst]. split; [exact Hout|].
  pose proof (to_row_key _ _ Hmap) as Hkeys.
  split; [|split; [|split]].
  - intros r Hr. destruct (smallest_exists rows r Hr) as [r0 [Hr0 Hk0]].
    apply (Permutation_in _ (Permutation_sym Hperm)) in Hr0.
    destruct (map_eq_In key employee_key _ _ r0 (eq_sym Hkeys) Hr0)
      as [e [He Hke]].
    exists e. split; [exact He | congruence].
  - intros e He.
    destruct (map_eq_In models.to_row columns _ _ e Hmap He) as [r [Hr Her]].
    apply (Permutation_in _ Hperm) in Hr. apply filter_In in Hr as [Hr Hs].
    exists r. split; [exact Hr|]. split; [exact Her|].
    now apply smallest_of_key_iff.
  - rewrite Hkeys.
    apply (Permutation_NoDup (Permutation_map key (Permutation_sym Hperm))).
    now apply smallest_keys_NoDup.
  - rewrite (to_row_name _ _ Hmap). apply order_by_names_sorted.
Qed.

Lemma fetch_unique_sorted_representatives_witness :
  exists out,
    fst (fetch_unique_sorted examples.legacy_db) = Ok out
    /\ (forall r, In r (employees (seen examples.legacy_db)) ->
          exists e, In e out /\ employee_key e = key r)
    /\ (forall e, In e out ->
          exists r, In r (employees (seen examples.legacy_db))
                    /\ models.to_row e = columns r
                    /\ forall r', In r' (employees (seen examples.legacy_db)) ->
                                  key r' = key r -> id r <= id r')
    /\ NoDup (map employee_key out)
    /\ Sorted string_le (map models.full_name out).
Proof.
  apply (fetch_unique_sorted_representatives examples.legacy_db).
  - repeat constructor; cbn; intuition discriminate.
  - repeat constructor; eexists; split; reflexivity.
Defined.

(** C8 as stated fails on a table written past the application.  The
    three rows of [examples.untrimmed] have three distinct stored names,
    the first with a leading space, so the query returns all three,
    ordered by the stored name; decoding strips the names, and the list
    returned has the key of ["Zed Al Bo"] twice, with ["Abe Al Bo"]
    between the two. *)
Lemma fetch_unique_sorted_repeats_stripped_key :
  exists out,
    fst (fetch_unique_sorted examples.untrimmed_db) = Ok out
    /\ map employee_key out
       = [ ("Zed Al Bo", "1990-05-15"); ("Abe Al Bo", "1990-05-15");
           ("Zed Al Bo", "1990-05-15") ]
    /\ String.leb "Zed Al Bo" "Abe Al Bo" = false.
Proof.
  eexists. split; [vm_compute; reflexivity|]. split; reflexivity.
Qed.

(** *** The compressed table *)

Lemma bind_Ok_inv {S A B : Type} (m : state S A) (k : A -> state S B)
    (s s' : S) (b : B) :
  bind m k s = (Ok b, s') ->
  exists a s1, m s = (Ok a, s1) /\ k a s1 = (Ok b, s').
Proof.
  unfold bind. destruct (m s) as [[a|e] s1]; [eauto | discriminate].
Qed.

Lemma transaction_Ok_inv {A : Type} (body : op A) (db db' : Database)
    (v : A) :
  transaction body db = (Ok v, db') ->
  exists c2,
    body (begun (handle db)) = (Ok v, c2) /\ db' = Opened (commit c2)
    /\ in_transaction db = false.
Proof.
  rewrite transaction_eq. unfold exec_begin.
  destruct (tx (handle db)) eqn:Htx.
  - unfold except_Exception. destruct (is_Exception _); discriminate.
  - fold (begun (handle db)).
    destruct (body (begun (handle db))) as [[a|e] c2].
    + intros H. injection H as -> <-. exists c2. repeat split.
      destruct db as [f|c]; cbn in *; [reflexivity | now rewrite Htx].
    + unfold except_Exception. destruct (is_Exception e); discriminate.
Qed.

Lemma seen_committed (db : Database) :
  in_transaction db = false -> seen db = committed db.
Proof.
  destruct db as [f|c]; cbn; [reflexivity|].
  unfold visible. destruct (tx c); [discriminate | reflexivity].
Qed.

(** A schema statement that succeeds leaves the tables as they are and
    no transaction open. *)
Lemma ddl_transaction_Ok (body : op unit) (db db' : Database) :
  (forall c, body c = (Ok tt, c)) ->
  transaction body db = (Ok tt, db') ->
  seen db' = seen db /\ committed db' = committed db
  /\ in_transaction db' = false.
Proof.
  intros Hbody H. apply transaction_Ok_inv in H as [c2 [H [-> Htx]]].
  rewrite Hbody in H. injection H as <-.
  rewrite (seen_committed db Htx).
  unfold begun, commit. cbn. rewrite handle_file. auto.
Qed.

Lemma fetch_state {A B : Type} (q : store -> A) (f : A -> result B)
    (db : Database) :
  snd ((connect ;; rows <- on_handle (exec_select q) ;; of_result (f rows)) db)
  = Opened (handle db).
Proof. rewrite read_bind_run. reflexivity. Qed.

Lemma handle_seen (db : Database) : seen (Opened (handle db)) = seen db.
Proof. destruct db; reflexivity. Qed.

Lemma handle_committed (db : Database) :
  committed (Opened (handle db)) = committed db.
Proof. destruct db; reflexivity. Qed.

Lemma executemany_compressed_Ok (rows : list (string * string * string * bytes))
    (f s : store) (n : Z) (c' : connection) :
  executemany insert_compressed rows (mk_conn f (Some s) n) = (Ok tt, c') ->
  file c' = f
  /\ exists s', tx c' = Some s'
       /\ employees s' = employees s
       /\ compressed_employees s'
          = compressed_employees s ++ map to_crow rows.
Proof.
  revert s n. induction rows as [|p rows IH]; intros s n.
  - cbn. intros H. injection H as <-. cbn. split; [reflexivity|].
    exists s. now rewrite app_nil_r.
  - cbn [executemany]. unfold exec_dml. cbn [visible tx file].
    destruct p as [[[pn pb] pg] pp]. unfold insert_compressed at 1.
    destruct (pk_taken pn pb (compressed_employees s)); [discriminate|].
    intros H. apply IH in H as [Hf [s' [Htx [He Hc]]]].
    split; [exact Hf|]. exists s'. split; [exact Htx|].
    cbn in He, Hc. split; [exact He|].
    rewrite Hc, <- app_assoc. reflexivity.
Qed.

(** A refresh that succeeds leaves exactly the given rows in the
    compressed table, committed, and the primary table as it was. *)
Lemma replace_compressed_rows_Ok
    (rows : list (string * string * string * bytes)) (db db' : Database)
    (n : Z) :
  replace_compressed_rows rows db = (Ok n, db') ->
  compressed_employees (committed db') = map to_crow rows
  /\ seen db' = committed db'
  /\ employees (committed db') = employees (committed db).
Proof.
  unfold replace_compressed_rows. intros H.
  apply transaction_Ok_inv in H as [c2 [H [-> _]]].
  apply bind_Ok_inv in H as [[] [c1 [Hdel H]]].
  apply bind_Ok_inv in H as [[] [c3 [Hins H]]].
  apply bind_Ok_inv in H as [k [c4 [Hch H]]].
  unfold ret in H. injection H as _ <-.
  unfold select_changes in Hch. injection Hch as _ <-.
  unfold exec_dml, delete_compressed, begun in Hdel.
  cbn [visible tx file] in Hdel. injection Hdel as <-.
  rewrite handle_file in Hins.
  apply executemany_compressed_Ok in Hins as [Hf [s' [Htx [He Hc]]]].
  cbn in He, Hc. unfold commit. rewrite Htx. cbn. auto.
Qed.

Lemma list_comprehension_Ok {A B : Type} (f : A -> result B) (l : list A)
    (out : list B) :
  list_comprehension f l = Ok out -> Forall2 (fun x y => f x = Ok y) l out.
Proof.
  revert out. induction l as [|x l IH]; cbn; intros out H.
  - injection H as <-. constructor.
  - destruct (f x) as [y|e] eqn:Hx; [|discriminate].
    destruct (list_comprehension f l) as [ys|e]; [|discriminate].
    injection H as <-. constructor; auto.
Qed.

Lemma Forall2_map_left {A B C : Type} (f : A -> B) (P : B -> C -> Prop)
    (l : list A) (l' : list C) :
  Forall2 P (map f l) l' -> Forall2 (fun x y => P (f x) y) l l'.
Proof.
  revert l'. induction l as [|x l IH]; cbn; intros l' H;
    inversion H; subst; constructor; auto.
Qed.

(** [age] is the difference of the years, less one when the birthday of
    the reference year is still to come. *)
Lemma age_spec (e : models.Employee) (today : date) :
  models.age e None today
  = year today - year (models.birth_date e)
    - (if models.pair_ltb (month today, day today)
                          (month (models.birth_date e),
                           day (models.birth_date e))
       then 1 else 0).
Proof.
  unfold models.age. destruct (models.pair_ltb _ _); lia.
Qed.

(** The record of the data model's example is 40 on 1 June 2025, and
    still 39 on the day before the birthday. *)
Example age_of_fallon :
  models.age examples.fallon None (mk_date 2025 6 1) = 40
  /\ models.age examples.fallon (Some (mk_date 2025 2 9)) (mk_date 2025 6 1)
     = 39.
Proof. split; reflexivity. Qed.

Lemma fetch_male_surname_f_eq (db : Database) :
  fetch_male_surname_f db
  = (decode_rows (select_male_surname_f (seen db)), Opened (handle db)).
Proof. unfold fetch_male_surname_f. now rewrite read_bind_run. Qed.

Lemma crow_tuple_to_crow (p : string * string * string * bytes) :
  crow_tuple (to_crow p) = p.
Proof. now destruct p as [[[n b] g] payload]. Qed.

(** The stand-in codecs keep the contract. *)
Lemma take_unary_unary (n : nat) (r : string) :
  examples.take_unary (examples.unary n ++ r)%string = Some (n, r).
Proof.
  induction n as [|n IH]; cbn; [reflexivity|]. now rewrite IH.
Qed.

Lemma take_length (s r : string) :
  examples.take (String.length s) (s ++ r)%string = Some (s, r).
Proof.
  induction s as [|c s IH]; cbn; [reflexivity|]. now rewrite IH.
Qed.

Lemma string_app_assoc (a b c : string) :
  ((a ++ b) ++ c)%string = (a ++ (b ++ c))%string.
Proof. induction a as [|x a IH]; cbn; [reflexivity | now rewrite IH]. Qed.

Lemma get_put_string (s r : string) :
  examples.get_string (examples.put_string s ++ r)%string = Some (s, r).
Proof.
  unfold examples.get_string, examples.put_string.
  rewrite string_app_assoc, take_unary_unary. apply take_length.
Qed.

Lemma get_put_int (n : Z) :
  examples.get_int (examples.put_int n) = Some (n, EmptyString).
Proof.
  unfold examples.get_int, examples.put_int.
  pose proof (take_unary_unary (Z.abs_nat n) EmptyString) as H.
  assert (Hnil : forall s, (s ++ "")%string = s).
  { induction s as [|c s IH]; cbn; [reflexivity | now rewrite IH]. }
  rewrite Hnil in H. rewrite H.
  destruct (n <? 0) eqn:E; cbn; do 2 f_equal.
  - apply Z.ltb_lt in E. lia.
  - apply Z.ltb_ge in E. lia.
Qed.

Lemma fields_round_trip (e : models.Employee) (today : date) :
  examples.fields_loads (examples.fields_dumps (main.payload e today))
  = Ok (main.payload e today).
Proof.
  unfold main.payload, examples.fields_dumps, examples.fields_loads.
  generalize (isoformat (models.birth_date e)),
             (models.age e None today).
  intros b a.
  rewrite !get_put_string, get_put_int. reflexivity.
Qed.

Lemma magic_round_trip (b : bytes) :
  examples.magic_decompress (examples.magic_compress b) = Ok b.
Proof. reflexivity. Qed.

(** *** Row encodings and the table invariant *)

Lemma digit_val_digit_char (n : Z) :
  digit_val (digit_char n) = Some (n mod 10).
Proof.
  unfold digit_char. pose proof (Z.mod_pos_bound n 10 eq_refl) as H.
  replace (n mod 10) with (Z.of_nat (Z.to_nat (n mod 10))) at 2 by lia.
  assert (Hk : (Z.to_nat (n mod 10) < 10)%nat) by lia.
  generalize dependent (Z.to_nat (n mod 10)). intros k Hk.
  do 10 (destruct k as [|k]; [reflexivity|]). lia.
Qed.

Lemma four_digits (y : Z) :
  0 <= y <= 9999 ->
  1000 * ((y / 1000) mod 10) + 100 * ((y / 100) mod 10)
  + 10 * ((y / 10) mod 10) + y mod 10 = y.
Proof.
  intros Hy.
  assert (H : forallb
                (fun k => let y := Z.of_nat k in
                   1000 * ((y / 1000) mod 10) + 100 * ((y / 100) mod 10)
                   + 10 * ((y / 10) mod 10) + y mod 10 =? y)
                (seq 0 (Z.to_nat 10000)) = true) by (vm_compute; reflexivity).
  rewrite forallb_forall in H. specialize (H (Z.to_nat y)).
  cbv zeta in H. rewrite Z2Nat.id in H by lia.
  apply Z.eqb_eq, H, in_seq. lia.
Qed.

Lemma parse_Y_pad4 (y : Z) (rest : string) :
  0 <= y <= 9999 -> parse_Y (pad4 y ++ rest)%string = Some (y, rest).
Proof.
  intros Hy. unfold pad4. cbn [String.append]. unfold parse_Y.
  rewrite !digit_val_digit_char. now rewrite (four_digits y Hy).
Qed.

Lemma parse_m_pad2 (m : Z) (rest : string) :
  1 <= m <= 12 ->
  parse_m (pad2 m ++ String "-" rest)%string = Some (m, String "-" rest).
Proof.
  intros Hm. replace m with (Z.of_nat (Z.to_nat m)) by lia.
  assert (Hk : (1 <= Z.to_nat m <= 12)%nat) by lia.
  generalize dependent (Z.to_nat m). intros k Hk.
  do 13 (destruct k as [|k]; [try lia; reflexivity|]). lia.
Qed.

Lemma parse_d_pad2 (d : Z) :
  1 <= d <= 31 -> parse_d (pad2 d) = Some (d, EmptyString).
Proof.
  intros Hd. replace d with (Z.of_nat (Z.to_nat d)) by lia.
  assert (Hk : (1 <= Z.to_nat d <= 31)%nat) by lia.
  generalize dependent (Z.to_nat d). intros k Hk.
  do 32 (destruct k as [|k]; [try lia; reflexivity|]). lia.
Qed.

Lemma days_in_month_le (y m : Z) : days_in_month y m <= 31.
Proof.
  unfold days_in_month.
  destruct (m =? 2); [destruct (is_leap y); lia|].
  destruct ((m =? 4) || (m =? 6) || (m =? 9) || (m =? 11)); lia.
Qed.

Lemma expect_dash_dash (s : string) : expect_dash (String "-" s) = Some s.
Proof. reflexivity. Qed.

(** A date read back from its ISO form is the date. *)
Lemma strptime_isoformat (d : date) :
  valid_date d = true -> strptime_ymd (isoformat d) = Ok d.
Proof.
  intros Hv. pose proof Hv as Hv'. unfold valid_date in Hv'.
  repeat (apply andb_true_iff in Hv' as [Hv' ?]).
  pose proof (days_in_month_le (year d) (month d)).
  change (isoformat d)
    with (pad4 (year d)
          ++ String "-" (pad2 (month d) ++ String "-" (pad2 (day d))))%string.
  unfold strptime_ymd.
  rewrite parse_Y_pad4 by lia. rewrite expect_dash_dash.
  rewrite parse_m_pad2 by lia. rewrite expect_dash_dash.
  rewrite parse_d_pad2 by lia.
  destruct d as [y m dd]. cbn [year month day] in *. now rewrite Hv.
Qed.

(** The row encoding of a well-formed record decodes to the record. *)
Lemma from_strings_to_row (e : models.Employee) :
  well_formed e ->
  models.from_strings (models.full_name e) (isoformat (models.birth_date e))
    (models.gender e) = Ok e.
Proof.
  intros [Hn [Hd Hg]]. unfold models.from_strings.
  rewrite (strptime_isoformat _ Hd), (is_gender_normal _ Hg), Hg.
  cbn [negb]. unfold models.new_Employee, models.__post_init__.
  cbn [models.full_name models.gender models.birth_date].
  rewrite Hn, (is_gender_normal _ Hg). now destruct e.
Qed.

Lemma next_id_above (s : store) (r : employees_row) :
  In r (employees s) -> id r < next_id s.
Proof.
  unfold next_id. generalize (employees_seq s).
  induction (employees s) as [|x l IH]; intros z Hr; [contradiction|].
  cbn [map fold_right]. destruct Hr as [->|Hr]; [lia|].
  specialize (IH z Hr). lia.
Qed.

Lemma key_taken_false_iff (n b : string) (rows : list employees_row) :
  key_taken n b rows = false <-> ~ In (n, b) (map key rows).
Proof.
  split.
  - intros H Hin. apply in_map_iff in Hin as [r [Hk Hr]].
    assert (key_taken n b rows = true); [|congruence].
    apply existsb_exists. exists r. split; [exact Hr|].
    unfold key in Hk. injection Hk as -> ->. now rewrite !String.eqb_refl.
  - intros H. destruct (key_taken n b rows) eqn:E; [|reflexivity].
    exfalso. apply H. apply existsb_exists in E as [r [Hr Hk]].
    apply andb_true_iff in Hk as [Hn Hb].
    apply String.eqb_eq in Hn, Hb. subst. now apply (in_map key).
Qed.

(** One INSERT OR IGNORE of the row encoding of a record keeps the table
    invariant: a new row gets a new id and a new key. *)
Lemma insert_or_ignore_table_ok (e : models.Employee) (s : store) :
  strip (models.full_name e) = models.full_name e ->
  valid_date (models.birth_date e) = true ->
  table_ok s -> table_ok (fst (insert_or_ignore (models.to_row e) s)).
Proof.
  intros Hn Hd [Hid [Hkey Hcan]]. unfold models.to_row.
  destruct (check_gender (models.gender e)) eqn:Hg;
    [|rewrite insert_or_ignore_bad_gender by exact Hg; now repeat split].
  destruct (key_taken (models.full_name e) (isoformat (models.birth_date e))
              (employees s)) eqn:Hk;
    [rewrite insert_or_ignore_taken by exact Hk; now repeat split|].
  rewrite (insert_or_ignore_fresh _ _ _ _ Hg Hk).
  unfold table_ok. cbn [fst employees]. rewrite !map_app. cbn [map].
  split; [|split].
  - apply NoDup_app; [exact Hid | repeat constructor; intros [] |].
    intros i Hi [<-|[]]. apply in_map_iff in Hi as [r [Hr Hin]].
    pose proof (next_id_above s r Hin). cbn [id] in *. lia.
  - apply NoDup_app; [exact Hkey | repeat constructor; intros [] |].
    intros k Hin [<-|[]]. apply key_taken_false_iff in Hk. now apply Hk.
  - apply Forall_app. split; [exact Hcan|]. constructor; [|constructor].
    exists e. cbn [full_name birth_date gender]. split; [|reflexivity].
    apply from_strings_to_row. repeat split; assumption.
Qed.

Lemma insert_all_table_ok (l : list models.Employee) (s : store) :
  Forall (fun e => strip (models.full_name e) = models.full_name e
                   /\ valid_date (models.birth_date e) = true) l ->
  table_ok s -> table_ok (insert_all (map models.to_row l) s).
Proof.
  intros Hl. revert s. induction Hl as [|e l [Hn Hd] _ IH]; intros s Hs.
  - exact Hs.
  - cbn [map]. unfold insert_all. cbn [fold_left]. apply IH.
    now apply insert_or_ignore_table_ok.
Qed.

(** The keys in the table after a run of inserts: those that were there
    and those of the rows given with one of the two genders. *)
Lemma insert_all_keys (rows : list (string * string * string)) (s : store)
    (k : string * string) :
  In k (map key (employees (insert_all rows s)))
  <-> In k (map key (employees s))
      \/ exists g, In (fst k, snd k, g) rows /\ check_gender g = true.
Proof.
  revert s. induction rows as [|[[n b] g] rows IH]; intros s.
  - cbn. split; [auto|]. intros [H|[g [[] _]]]. exact H.
  - unfold insert_all. cbn [fold_left]. fold (insert_all rows).
    rewrite IH. clear IH.
    destruct (check_gender g) eqn:Hg.
    + destruct (key_taken n b (employees s)) eqn:Hk.
      * rewrite insert_or_ignore_taken by exact Hk. cbn [fst].
        split; intros [H|[g' [Hin Hg']]]; auto.
        -- right. exists g'. split; [now right | exact Hg'].
        -- destruct Hin as [E|Hin]; [|right; eauto].
           left. injection E as -> -> _.
           destruct (in_dec key_eq_dec (fst k, snd k) (map key (employees s)))
             as [Hin|Hout]; [now destruct k|].
           apply key_taken_false_iff in Hout. congruence.
      * rewrite (insert_or_ignore_fresh _ _ _ _ Hg Hk). cbn [fst employees].
        rewrite map_app, in_app_iff. cbn [map In key full_name birth_date].
        split.
        -- intros [[H|[<-|[]]]|[g' [Hin Hg']]]; auto.
           ++ right. exists g. split; [now left | exact Hg].
           ++ right. exists g'. split; [now right | exact Hg'].
        -- intros [H|[g' [[E|Hin] Hg']]]; auto.
           ++ left. right. left. injection E as -> -> _. now destruct k.
           ++ right. eauto.
    + rewrite insert_or_ignore_bad_gender by exact Hg. cbn [fst].
      split; intros [H|[g' [Hin Hg']]]; auto.
      * right. exists g'. split; [now right | exact Hg'].
      * destruct Hin as [E|Hin]; [|right; eauto].
        injection E as _ _ ->. congruence.
Qed.

Lemma bulk_insert_committed (employees : iterable models.Employee)
    (batch_size : Z) (db : Database) :
  in_transaction db = false ->
  committed (snd (bulk_insert employees batch_size db)) = committed db
  \/ (fault employees = None
      /\ committed (snd (bulk_insert employees batch_size db))
         = insert_all (map models.to_row (yielded employees)) (committed db)).
Proof.
  intros Htx. unfold bulk_insert. rewrite (transaction_run _ db Htx).
  unfold begun. rewrite handle_file. unfold bind.
  destruct (for_batches_run (yielded (models.chunked employees batch_size)) 0
              (committed db) (committed db) (changes (handle db)))
    as [total [n' H]].
  rewrite H. clear H.
  destruct (fault employees) as [e|] eqn:Hf.
  - left. rewrite (chunked_fault _ _ _ Hf). unfold raise.
    destruct (is_Exception e); reflexivity.
  - right. split; [reflexivity|].
    destruct (chunked_concat employees batch_size Hf) as [Hc Hn].
    rewrite Hn, Hc. reflexivity.
Qed.

(** The table invariant is kept by [bulk_insert], whatever the outcome of
    the call: ids and keys stay unique and every row stays the row
    encoding of a record, for records with a trimmed name and a calendar
    date (what both constructors build). *)
Theorem bulk_insert_keeps_table_ok (employees : iterable models.Employee)
    (batch_size : Z) (db : Database) :
  in_transaction db = false ->
  Forall (fun e => strip (models.full_name e) = models.full_name e
                   /\ valid_date (models.birth_date e) = true)
         (yielded employees) ->
  table_ok (committed db) ->
  table_ok (committed (snd (bulk_insert employees batch_size db))).
Proof.
  intros Htx Hl Hok.
  destruct (bulk_insert_committed employees batch_size db Htx)
    as [->|[_ ->]]; [exact Hok|].
  now apply insert_all_table_ok.
Qed.

(** After a [bulk_insert] whose input does not fail, on a table with
    unique keys: the keys stay unique, and the table holds a key exactly
    when it held it before or the input has a record with that key and one
    of the two genders.  So N records with D repeated keys leave N - D
    new rows, whatever the batch size. *)
Theorem bulk_insert_one_row_per_key (employees : list models.Employee)
    (batch_size : Z) (db : Database) :
  in_transaction db = false ->
  Forall (fun e => strip (models.full_name e) = models.full_name e
                   /\ valid_date (models.birth_date e) = true)
         employees ->
  table_ok (committed db) ->
  let db' := snd (bulk_insert (iter_of_list employees) batch_size db) in
  NoDup (map key (sqlite.employees (committed db')))
  /\ forall k,
       In k (map key (sqlite.employees (committed db')))
       <-> In k (map key (sqlite.employees (committed db)))
           \/ exists e, In e employees /\ employee_key e = k
                        /\ check_gender (models.gender e) = true.
Proof.
  intros Htx Hl Hok db'.
  assert (Hc : committed db'
               = insert_all (map models.to_row employees) (committed db)).
  { destruct (bulk_insert_committed (iter_of_list employees) batch_size db Htx)
      as [H|[_ H]]; [|exact H].
    subst db'. cbv zeta.
    unfold bulk_insert. rewrite (transaction_run _ db Htx).
    unfold begun. rewrite handle_file. unfold bind at 1.
    destruct (for_batches_run
                (yielded (models.chunked (iter_of_list employees) batch_size))
                0 (committed db) (committed db) (changes (handle db)))
      as [total [n' Hrun]].
    rewrite Hrun.
    destruct (chunked_concat (iter_of_list employees) batch_size eq_refl)
      as [Hcc Hn].
    rewrite Hn, Hcc. reflexivity. }
  rewrite Hc. split.
  - now apply insert_all_table_ok.
  - intros k. rewrite insert_all_keys. split; intros [H|H]; auto; right.
    + destruct H as [g [Hin Hg]]. apply in_map_iff in Hin as [e [He Hin]].
      exists e. split; [exact Hin|]. unfold models.to_row in He.
      injection He as Hn Hb ->. split; [|exact Hg].
      unfold employee_key. rewrite Hn, Hb. now destruct k.
    + destruct H as [e [Hin [<- Hg]]]. exists (models.gender e).
      split; [|exact Hg]. apply in_map_iff. exists e. split; [|exact Hin].
      reflexivity.
Qed.

Lemma bulk_insert_keeps_table_ok_witness :
  table_ok
    (committed
       (snd (bulk_insert
               (iter_of_list [examples.smith_male; examples.smith_female;
                              examples.fisher])
               2 examples.empty_db))).
Proof.
  apply (bulk_insert_keeps_table_ok
           (iter_of_list [examples.smith_male; examples.smith_female;
                          examples.fisher])
           2 examples.empty_db).
  - reflexivity.
  - repeat constructor.
  - repeat constructor.
Defined.

Lemma bulk_insert_one_row_per_key_witness :
  let db' :=
    snd (bulk_insert
           (iter_of_list [examples.smith_male; examples.smith_female;
                          examples.fisher])
           2 examples.empty_db) in
  NoDup (map key (employees (committed db')))
  /\ forall k,
       In k (map key (employees (committed db')))
       <-> In k (map key (employees (committed examples.empty_db)))
           \/ exists e,
                In e [examples.smith_male; examples.smith_female;
                      examples.fisher]
                /\ employee_key e = k
                /\ check_gender (models.gender e) = true.
Proof.
  apply (bulk_insert_one_row_per_key
           [examples.smith_male; examples.smith_female; examples.fisher]
           2 examples.empty_db).
  - reflexivity.
  - repeat constructor.
  - repeat constructor.
Defined.

(** *** What the counts and the refresh do in general *)

Lemma executemany_compressed_cases
    (rows : list (string * string * string * bytes)) (f s : store) (n : Z) :
  match executemany insert_compressed rows (mk_conn f (Some s) n) with
  | (Ok _, c') => file c' = f
  | (Raised e, c') => file c' = f /\ is_Exception e = true
  end.
Proof.
  revert s n. induction rows as [|p rows IH]; intros s n; [reflexivity|].
  cbn [executemany]. unfold exec_dml. cbn [visible tx file].
  destruct p as [[[pn pb] pg] pp]. unfold insert_compressed at 1.
  destruct (pk_taken pn pb (compressed_employees s)).
  - split; reflexivity.
  - apply IH.
Qed.

(** The refresh is atomic: either the compressed table holds exactly the
    rows given, or the call raises and the table, cleared inside the
    transaction, is what it was before the call. *)
Theorem replace_compressed_rows_atomic
    (rows : list (string * string * string * bytes)) (db : Database) :
  in_transaction db = false ->
  match replace_compressed_rows rows db with
  | (Ok _, db') =>
      compressed_employees (committed db') = map to_crow rows
      /\ in_transaction db' = false
  | (Raised _, db') =>
      committed db' = committed db /\ seen db' = committed db
      /\ in_transaction db' = false
  end.
Proof.
  intros Htx.
  destruct (replace_compressed_rows rows db) as [[n|e] db'] eqn:H.
  - pose proof (replace_compressed_rows_Ok rows db db' n H) as [Ht [Hs _]].
    split; [exact Ht|].
    unfold replace_compressed_rows in H.
    apply transaction_Ok_inv in H as [c2 [_ [-> _]]].
    unfold commit. destruct (tx c2) eqn:E; cbn; now rewrite ?E.
  - unfold replace_compressed_rows in H.
    rewrite (transaction_run _ db Htx) in H.
    unfold bind at 1, exec_dml, delete_compressed, begun in H.
    cbn [visible tx file] in H. rewrite handle_file in H.
    unfold bind at 1 in H.
    pose proof (executemany_compressed_cases rows (committed db)
                  (mk_store (employees (committed db))
                            (employees_seq (committed db)) [])
                  (Z.of_nat (List.length
                               (compressed_employees (committed db)))))
      as Hex.
    destruct (executemany insert_compressed rows _) as [[[]|e'] c'].
    + unfold bind, select_changes, ret in H. discriminate.
    + destruct Hex as [Hf He']. rewrite He' in H. injection H as _ <-.
      cbn. auto.
Qed.

Lemma replace_compressed_rows_atomic_witness :
  match
    replace_compressed_rows
      [("Fisher Henry Quincy", "1971-12-31", "Male", []);
       ("Fisher Henry Quincy", "1971-12-31", "Male", [])]
      examples.refreshed_db
  with
  | (Ok _, db') =>
      compressed_employees (committed db')
      = map to_crow
          [("Fisher Henry Quincy", "1971-12-31", "Male", []);
           ("Fisher Henry Quincy", "1971-12-31", "Male", [])]
      /\ in_transaction db' = false
  | (Raised _, db') =>
      committed db' = committed examples.refreshed_db
      /\ seen db' = committed examples.refreshed_db
      /\ in_transaction db' = false
  end.
Proof.
  exact (replace_compressed_rows_atomic
           [("Fisher Henry Quincy", "1971-12-31", "Male", []);
            ("Fisher Henry Quincy", "1971-12-31", "Male", [])]
           examples.refreshed_db eq_refl).
Defined.

Lemma insert_or_ignore_count (p : string * string * string) (s : store) :
  0 <= snd (insert_or_ignore p s) <= 1.
Proof.
  destruct p as [[n b] g]. unfold insert_or_ignore.
  destruct (negb (check_gender g) || key_taken n b (employees s)); cbn; lia.
Qed.

Lemma executemany_insert_count (rows : list (string * string * string))
    (c : connection) :
  exists c',
    executemany insert_or_ignore_employee rows c = (Ok tt, c')
    /\ (rows <> [] -> 0 <= changes c' <= 1).
Proof.
  revert c. induction rows as [|p rows IH]; intros c.
  - exists c. split; [reflexivity | congruence].
  - cbn [executemany]. unfold exec_dml.
    unfold insert_or_ignore_employee at 1.
    pose proof (insert_or_ignore_count p (visible c)) as Hp.
    destruct (insert_or_ignore p (visible c)) as [s' k]. cbv beta iota.
    cbn [snd] in Hp.
    destruct (IH (mk_conn (file c) (Some s') k)) as [c' [Hrun Hk]].
    exists c'. split; [exact Hrun|]. intros _.
    destruct rows as [|q rows]; [|apply Hk; discriminate].
    cbn in Hrun. injection Hrun as <-. exact Hp.
Qed.

Lemma for_batches_count (batches : list (list models.Employee)) (acc : Z)
    (c : connection) :
  Forall (fun batch => batch <> []) batches ->
  exists total,
    fst (for_batches batches acc c) = Ok total
    /\ acc <= total <= acc + Z.of_nat (List.length batches).
Proof.
  intros Hne. revert acc c.
  induction Hne as [|batch rest Hb _ IH]; intros acc c.
  - exists acc. cbn. split; [reflexivity | lia].
  - cbn [for_batches]. unfold bind at 1.
    destruct (executemany_insert_count (map models.to_row batch) c)
      as [c1 [Hrun Hk]].
    rewrite Hrun. unfold bind at 1, select_changes.
    destruct (IH (acc + changes c1) c1) as [total [Ht Hle]].
    exists total. split; [exact Ht|].
    assert (map models.to_row batch <> []) by (destruct batch; [congruence | discriminate]).
    specialize (Hk H). cbn [List.length]. lia.
Qed.

Lemma chunked_loop_nonempty (items : list models.Employee) (size : Z)
    (batch : list models.Employee) :
  Forall (fun b => b <> []) (fst (models.chunked_loop items size batch))
  /\ (batch <> [] \/ items <> [] ->
      snd (models.chunked_loop items size batch) <> []
      \/ fst (models.chunked_loop items size batch) <> []).
Proof.
  revert batch. induction items as [|item rest IH]; intros batch.
  - cbn. split; [constructor|]. intros [H|H]; [now left | congruence].
  - cbn [models.chunked_loop].
    destruct (Z.of_nat (List.length (batch ++ [item])) >=? size).
    + destruct (IH []) as [IH1 _].
      destruct (models.chunked_loop rest size []) as [more last].
      cbn [fst snd] in *. split.
      * constructor; [|exact IH1]. now destruct batch.
      * intros _. right. discriminate.
    + destruct (IH (batch ++ [item])) as [IH1 IH2]. split; [exact IH1|].
      intros _. apply IH2. left. now destruct batch.
Qed.

Lemma chunked_nonempty (it : iterable models.Employee) (size : Z) :
  Forall (fun b => b <> []) (yielded (models.chunked it size)).
Proof.
  unfold models.chunked.
  destruct (chunked_loop_nonempty (yielded it) size []) as [H _].
  destruct (models.chunked_loop (yielded it) size []) as [full last].
  cbn [fst] in H.
  destruct (fault it); [exact H|].
  destruct last as [|x last]; [exact H|].
  cbn [yielded]. apply Forall_app. split; [exact H|].
  constructor; [discriminate | constructor].
Qed.

(** What [bulk_insert] returns is bounded by the number of batches, not by
    the number of rows written: each batch adds the count of its last
    INSERT, 0 or 1. *)
Theorem bulk_insert_count_bound (employees : iterable models.Employee)
    (batch_size : Z) (db : Database) (n : Z) :
  fst (bulk_insert employees batch_size db) = Ok n ->
  0 <= n
    <= Z.of_nat (List.length (yielded (models.chunked employees batch_size))).
Proof.
  intros H. destruct (bulk_insert employees batch_size db) as [r db'] eqn:E.
  cbn [fst] in H. subst r. unfold bulk_insert in E.
  apply transaction_Ok_inv in E as [c2 [E _]].
  apply bind_Ok_inv in E as [total [c1 [Hfor _E]]].
  destruct (for_batches_count
              (yielded (models.chunked employees batch_size)) 0
              (begun (handle db))
              (chunked_nonempty employees batch_size))
    as [t [Ht Hle]].
  rewrite Hfor in Ht. cbn [fst] in Ht. injection Ht as <-.
  destruct (fault (models.chunked employees batch_size));
    [discriminate|].
  unfold ret in _E. injection _E as <- _. lia.
Qed.

Lemma bulk_insert_count_bound_witness :
  0 <= 1
    <= Z.of_nat
         (List.length
            (yielded
               (models.chunked
                  (iter_of_list [examples.smith_male; examples.smith_female;
                                 examples.fisher])
                  default_batch_size))).
Proof.
  exact (bulk_insert_count_bound
           (iter_of_list [examples.smith_male; examples.smith_female;
                          examples.fisher])
           default_batch_size examples.empty_db 1 eq_refl).
Defined.

(* ================================================================== *)
(** ** Further properties of the storage layer                         *)
(* ================================================================== *)

(** *** [insert_employee] and [persist] *)

(** [insert_employee] (and so [persist]) does not raise on a handle with
    no transaction open, and what it returns tells whether a row was
    written: true exactly when the gender passes the CHECK and the key
    was not in the table, in which case the table gains that one row at
    its end, and false with the table unchanged otherwise. *)
Theorem insert_employee_reports_write (e : models.Employee) (db : Database) :
  in_transaction db = false ->
  let written :=
    check_gender (models.gender e)
    && negb (key_taken (models.full_name e) (isoformat (models.birth_date e))
                       (employees (committed db))) in
  let (r, db') := persist e db in
  r = Ok written
  /\ employees (committed db')
     = employees (committed db)
       ++ (if written
           then [mk_row (next_id (committed db)) (models.full_name e)
                        (isoformat (models.birth_date e)) (models.gender e)]
           else [])
  /\ in_transaction db' = false.
Proof.
  intros Htx. unfold persist. rewrite (insert_employee_run e db Htx).
  unfold models.to_row.
  generalize (isoformat (models.birth_date e)). intros b.
  destruct (check_gender (models.gender e)) eqn:Hg.
  - destruct (key_taken (models.full_name e) b (employees (committed db)))
      eqn:Hk.
    + rewrite (insert_or_ignore_taken _ _ _ _ Hk). cbn.
      now rewrite app_nil_r.
    + rewrite (insert_or_ignore_fresh _ _ _ _ Hg Hk). cbn. auto.
  - rewrite (insert_or_ignore_bad_gender _ _ _ _ Hg). cbn.
    now rewrite app_nil_r.
Qed.

Lemma insert_employee_reports_write_witness :
  let written :=
    check_gender (models.gender examples.fallon)
    && negb (key_taken (models.full_name examples.fallon)
                       (isoformat (models.birth_date examples.fallon))
                       (employees (committed examples.directory_db))) in
  let (r, db') := persist examples.fallon examples.directory_db in
  r = Ok written
  /\ employees (committed db')
     = employees (committed examples.directory_db)
       ++ (if written
           then [mk_row (next_id (committed examples.directory_db))
                        (models.full_name examples.fallon)
                        (isoformat (models.birth_date examples.fallon))
                        (models.gender examples.fallon)]
           else [])
  /\ in_transaction db' = false.
Proof.
  exact (insert_employee_reports_write examples.fallon examples.directory_db
           eq_refl).
Defined.

(** *** [transaction] on a handle that has a transaction open *)

(** Entered while a transaction is open on the handle, [transaction]
    raises the engine's OperationalError without running the body, and its
    [except] clause rolls back the transaction that was open: what that
    transaction had written is gone. *)
Theorem transaction_inside_transaction {A : Type} (body : op A)
    (db : Database) :
  in_transaction db = true ->
  let (r, db') := transaction body db in
  r = Raised (mk_exn OperationalError
                "cannot start a transaction within a transaction")
  /\ committed db' = committed db
  /\ seen db' = committed db
  /\ in_transaction db' = false.
Proof.
  intros Htx. rewrite transaction_eq. unfold exec_begin.
  destruct db as [f|c]; [discriminate|]. cbn [handle in_transaction] in *.
  destruct (tx c); [|discriminate]. cbn. auto.
Qed.

Lemma transaction_inside_transaction_witness :
  let (r, db') :=
    transaction examples.failing_body examples.interrupted_db in
  r = Raised (mk_exn OperationalError
                "cannot start a transaction within a transaction")
  /\ committed db' = committed examples.interrupted_db
  /\ seen db' = committed examples.interrupted_db
  /\ in_transaction db' = false.
Proof.
  exact (transaction_inside_transaction examples.failing_body
           examples.interrupted_db eq_refl).
Defined.

(** *** [age] *)

Lemma date_leb_cases (a b : date) :
  date_leb a b = true ->
  year a < year b
  \/ (year a = year b
      /\ (month a < month b \/ (month a = month b /\ day a <= day b))).
Proof.
  unfold date_leb. intros H.
  apply orb_true_iff in H as [H|H]; [left; now apply Z.ltb_lt|].
  apply andb_true_iff in H as [Hy H]. apply Z.eqb_eq in Hy. right.
  split; [exact Hy|].
  apply orb_true_iff in H as [H|H]; [left; now apply Z.ltb_lt|].
  apply andb_true_iff in H as [Hm Hd]. apply Z.eqb_eq in Hm.
  apply Z.leb_le in Hd. now right.
Qed.

Lemma pair_ltb_spec (a b : Z * Z) :
  models.pair_ltb a b = true
  <-> fst a < fst b \/ (fst a = fst b /\ snd a < snd b).
Proof.
  unfold models.pair_ltb.
  rewrite orb_true_iff, andb_true_iff, !Z.ltb_lt, Z.eqb_eq. tauto.
Qed.

(** The age is never negative at a reference date that is not before the
    birth date, it is 0 on the birth date, and it does not decrease when
    the reference date moves forward. *)
Theorem age_nonnegative_monotone (e : models.Employee) (r1 r2 today : date) :
  date_leb (models.birth_date e) r1 = true ->
  date_leb r1 r2 = true ->
  models.age e (Some (models.birth_date e)) today = 0
  /\ 0 <= models.age e (Some r1) today <= models.age e (Some r2) today.
Proof.
  intros H1 H2. apply date_leb_cases in H1, H2. unfold models.age.
  pose proof (pair_ltb_spec (month (models.birth_date e),
                             day (models.birth_date e))
                            (month (models.birth_date e),
                             day (models.birth_date e))) as E0.
  pose proof (pair_ltb_spec (month r1, day r1)
                            (month (models.birth_date e),
                             day (models.birth_date e))) as E1.
  pose proof (pair_ltb_spec (month r2, day r2)
                            (month (models.birth_date e),
                             day (models.birth_date e))) as E2.
  cbn [fst snd] in E0, E1, E2.
  destruct (models.pair_ltb (month (models.birth_date e),
                             day (models.birth_date e)) _);
    destruct (models.pair_ltb (month r1, day r1) _);
    destruct (models.pair_ltb (month r2, day r2) _);
    try (assert (F0 := proj1 E0 eq_refl)); try (assert (F1 := proj1 E1 eq_refl));
    try (assert (F2 := proj1 E2 eq_refl));
    try (assert (G0 : ~ (month (models.birth_date e) < month (models.birth_date e)
                         \/ month (models.birth_date e) = month (models.birth_date e)
                            /\ day (models.birth_date e) < day (models.birth_date e)))
           by (intros G; apply E0 in G; discriminate));
    try (assert (G1 : ~ (month r1 < month (models.birth_date e)
                         \/ month r1 = month (models.birth_date e)
                            /\ day r1 < day (models.birth_date e)))
           by (intros G; apply E1 in G; discriminate));
    try (assert (G2 : ~ (month r2 < month (models.birth_date e)
                         \/ month r2 = month (models.birth_date e)
                            /\ day r2 < day (models.birth_date e)))
           by (intros G; apply E2 in G; discriminate));
    clear E0 E1 E2; lia.
Qed.

Lemma age_nonnegative_monotone_witness :
  models.age examples.fallon
    (Some (models.birth_date examples.fallon)) (mk_date 2025 6 1) = 0
  /\ 0 <= models.age examples.fallon (Some (mk_date 2025 2 9))
            (mk_date 2025 6 1)
       <= models.age examples.fallon (Some (mk_date 2025 2 10))
            (mk_date 2025 6 1).
Proof.
  exact (age_nonnegative_monotone examples.fallon (mk_date 2025 2 9)
           (mk_date 2025 2 10) (mk_date 2025 6 1) eq_refl eq_refl).
Defined.

(** *** Row encoding *)

Lemma from_strings_well_formed (n b g : string) (e : models.Employee) :
  models.from_strings n b g = Ok e -> well_formed e.
Proof.
  unfold models.from_strings. pose proof (strptime_ymd_valid b) as Hd.
  destruct (strptime_ymd b) as [d|x]; [|discriminate].
  destruct (models.is_gender (capitalize (strip g))) eqn:Hg;
    cbn [negb]; [|discriminate].
  intros H. injection H as <-.
  unfold well_formed, models.new_Employee, models.__post_init__.
  cbn [models.full_name models.gender models.birth_date].
  rewrite (is_gender_normal _ Hg). repeat split; auto.
  apply strip_idempotent.
Qed.

(** Encoding and decoding are inverse on what [from_strings] accepts: the
    row a decoded record encodes to decodes to the same record.  So a row
    read from the table and written back is read as the same record. *)
Theorem from_strings_to_row_round_trip (n b g : string)
    (e : models.Employee) :
  models.from_strings n b g = Ok e ->
  models.from_strings (fst (fst (models.to_row e)))
                      (snd (fst (models.to_row e)))
                      (snd (models.to_row e)) = Ok e.
Proof.
  intros H. apply from_strings_to_row. exact (from_strings_well_formed _ _ _ _ H).
Qed.

Lemma from_strings_to_row_round_trip_witness :
  models.from_strings
    (fst (fst (models.to_row examples.fallon)))
    (snd (fst (models.to_row examples.fallon)))
    (snd (models.to_row examples.fallon)) = Ok examples.fallon.
Proof.
  exact (from_strings_to_row_round_trip
           "  Fallon Mary Ivanovich " "1985-2-10" " FEMALE"
           examples.fallon eq_refl).
Defined.

(** *** [chunked] *)

Lemma chunked_loop_shape (items : list models.Employee) (size : Z)
    (batch : list models.Employee) :
  1 <= size ->
  Z.of_nat (List.length batch) < size ->
  Forall (fun b => Z.of_nat (List.length b) = size)
         (fst (models.chunked_loop items size batch))
  /\ Z.of_nat (List.length (snd (models.chunked_loop items size batch))) < size.
Proof.
  intros Hs. revert batch. induction items as [|item rest IH]; intros batch Hb.
  - cbn. split; [constructor | exact Hb].
  - cbn [models.chunked_loop].
    destruct (Z.of_nat (List.length (batch ++ [item])) >=? size) eqn:E;
      rewrite Z.geb_leb in E.
    + apply Z.leb_le in E.
      destruct (IH []) as [IH1 IH2]; [cbn; lia|].
      destruct (models.chunked_loop rest size []) as [more last].
      cbn [fst snd] in *. split; [|exact IH2].
      constructor; [|exact IH1].
      rewrite length_app in *. cbn [List.length] in *. lia.
    + apply Z.leb_gt in E. apply IH. lia.
Qed.

Lemma concat_full_length {A : Type} (size : Z) (l : list (list A)) :
  Forall (fun b => Z.of_nat (List.length b) = size) l ->
  Z.of_nat (List.length (List.concat l)) = size * Z.of_nat (List.length l).
Proof.
  induction 1 as [|b l Hb _ IH]; cbn [List.concat List.length]; [lia|].
  rewrite length_app. lia.
Qed.

(** With a batch size of at least one and an input that does not fail,
    [chunked] cuts the input into consecutive batches: every batch but
    the last has exactly [size] items, the last has between 1 and [size],
    nothing is lost or reordered, and the number of batches is the
    length of the input divided by [size], rounded up. *)
Theorem chunked_batches (it : iterable models.Employee) (size : Z) :
  1 <= size ->
  fault it = None ->
  let batches := yielded (models.chunked it size) in
  List.concat batches = yielded it
  /\ Forall (fun b => Z.of_nat (List.length b) = size) (removelast batches)
  /\ Forall (fun b => 1 <= Z.of_nat (List.length b) <= size) batches
  /\ Z.of_nat (List.length batches)
     = (Z.of_nat (List.length (yielded it)) + size - 1) / size.
Proof.
  intros Hs Hf batches.
  destruct (chunked_concat it size Hf) as [Hc _]. fold batches in Hc.
  split; [exact Hc|].
  pose proof (chunked_loop_shape (yielded it) size [] Hs) as Hsh.
  assert (Hlen : Z.of_nat (List.length (List.concat batches))
                 = Z.of_nat (List.length (yielded it))) by now rewrite Hc.
  clear Hc. subst batches. unfold models.chunked in *.
  destruct (models.chunked_loop (yielded it) size []) as [full last].
  rewrite Hf in *. cbn [fst snd] in Hsh.
  destruct Hsh as [Hfull Hlast]; [cbn; lia|].
  pose proof (concat_full_length size full Hfull) as Hcf.
  destruct last as [|x last]; cbn [yielded] in *.
  - split; [|split].
    + clear - Hfull. induction Hfull as [|b l Hb Hl IH]; [constructor|].
      destruct l; [constructor|]. cbn [removelast] in *.
      constructor; [exact Hb | exact IH].
    + eapply Forall_impl; [|exact Hfull]. cbv beta. intros b Hb. lia.
    + rewrite Hcf in Hlen. rewrite <- Hlen.
      apply Z.div_unique with (r := size - 1); lia.
  - split; [|split].
    + rewrite removelast_last. exact Hfull.
    + apply Forall_app. split.
      * eapply Forall_impl; [|exact Hfull]. cbv beta. intros b Hb. lia.
      * constructor; [|constructor]. cbn [List.length] in *. lia.
    + rewrite concat_app, length_app in Hlen. cbn [List.concat] in Hlen.
      rewrite app_nil_r in Hlen. rewrite length_app. cbn [List.length] in *.
      apply Z.div_unique
        with (r := Z.of_nat (S (List.length last)) - 1); lia.
Qed.

Lemma chunked_batches_witness :
  let it :=
    iter_of_list [examples.smith_male; examples.smith_female;
                  examples.fisher] in
  let batches := yielded (models.chunked it 2) in
  List.concat batches = yielded it
  /\ Forall (fun b => Z.of_nat (List.length b) = 2) (removelast batches)
  /\ Forall (fun b => 1 <= Z.of_nat (List.length b) <= 2) batches
  /\ Z.of_nat (List.length batches)
     = (Z.of_nat (List.length (yielded it)) + 2 - 1) / 2.
Proof.
  apply (chunked_batches
           (iter_of_list [examples.smith_male; examples.smith_female;
                          examples.fisher]) 2).
  - lia.
  - reflexivity.
Defined.

Lemma chunked_loop_singletons (items : list models.Employee) (size : Z) :
  size <= 1 ->
  models.chunked_loop items size [] = (map (fun x => [x]) items, []).
Proof.
  intros Hs. induction items as [|item rest IH]; [reflexivity|].
  cbn [models.chunked_loop app List.length].
  destruct (Z.of_nat 1 >=? size) eqn:E.
  - rewrite IH. reflexivity.
  - rewrite Z.geb_leb in E. apply Z.leb_gt in E. lia.
Qed.

(** A batch size of zero or less does not stop [chunked]: every item is
    yielded as a batch of its own, as with a size of one, and a failure of
    the input is passed on after the items before it. *)
Theorem chunked_small_size (it : iterable models.Employee) (size : Z) :
  size <= 1 ->
  models.chunked it size
  = mk_iter (map (fun x => [x]) (yielded it)) (fault it).
Proof.
  intros Hs. unfold models.chunked.
  rewrite (chunked_loop_singletons _ _ Hs). now destruct (fault it).
Qed.

Lemma chunked_small_size_witness :
  models.chunked
    (mk_iter [examples.smith_male; examples.fisher] (Some examples.boom)) 0
  = mk_iter [[examples.smith_male]; [examples.fisher]] (Some examples.boom).
Proof.
  apply (chunked_small_size
           (mk_iter [examples.smith_male; examples.fisher]
                    (Some examples.boom)) 0).
  lia.
Defined.

(** When the input fails, the batches yielded before the failure are a
    prefix of the items read, all full, and fewer than [size] items, those
    of the batch being filled, are dropped with the failure. *)
Theorem chunked_failure_drops_open_batch (it : iterable models.Employee)
    (size : Z) (e : exn) :
  1 <= size ->
  fault it = Some e ->
  fault (models.chunked it size) = Some e
  /\ Forall (fun b => Z.of_nat (List.length b) = size)
            (yielded (models.chunked it size))
  /\ exists dropped,
       yielded it = List.concat (yielded (models.chunked it size)) ++ dropped
       /\ Z.of_nat (List.length dropped) < size.
Proof.
  intros Hs Hf. split; [now apply chunked_fault|].
  pose proof (chunked_loop_shape (yielded it) size [] Hs) as Hsh.
  pose proof (chunked_loop_concat (yielded it) size []) as Hc.
  unfold models.chunked.
  destruct (models.chunked_loop (yielded it) size []) as [full last].
  rewrite Hf. cbn [fst snd yielded app] in *.
  destruct Hsh as [Hfull Hlast]; [cbn; lia|].
  split; [exact Hfull|]. exists last. split; [now symmetry | exact Hlast].
Qed.

Lemma chunked_failure_drops_open_batch_witness :
  let it :=
    mk_iter [examples.smith_male; examples.fisher; examples.fallon]
            (Some examples.boom) in
  fault (models.chunked it 2) = Some examples.boom
  /\ Forall (fun b => Z.of_nat (List.length b) = 2)
            (yielded (models.chunked it 2))
  /\ exists dropped,
       yielded it = List.concat (yielded (models.chunked it 2)) ++ dropped
       /\ Z.of_nat (List.length dropped) < 2.
Proof.
  apply (chunked_failure_drops_open_batch
           (mk_iter [examples.smith_male; examples.fisher; examples.fallon]
                    (Some examples.boom)) 2 examples.boom).
  - lia.
  - reflexivity.
Defined.

(** *** [replace_compressed_rows] and [fetch_compressed_subset] *)

Lemma pk_taken_false_iff (n b : string) (rows : list compressed_row) :
  pk_taken n b rows = false
  <-> ~ In (n, b) (map (fun r => pk (crow_tuple r)) rows).
Proof.
  split.
  - intros H Hin. apply in_map_iff in Hin as [r [Hk Hr]].
    assert (pk_taken n b rows = true); [|congruence].
    apply existsb_exists. exists r. split; [exact Hr|].
    injection Hk as -> ->. now rewrite !String.eqb_refl.
  - intros H. destruct (pk_taken n b rows) eqn:E; [|reflexivity].
    exfalso. apply H. apply existsb_exists in E as [r [Hr Hk]].
    apply andb_true_iff in Hk as [Hn Hb].
    apply String.eqb_eq in Hn, Hb. subst. apply in_map_iff.
    exists r. split; [reflexivity | exact Hr].
Qed.

Lemma pk_crow_tuple_to_crow (p : string * string * string * bytes) :
  pk (crow_tuple (to_crow p)) = pk p.
Proof. now rewrite crow_tuple_to_crow. Qed.

(** Plain INSERTs of rows with keys that are new and distinct all
    succeed, and the counter ends at 1 unless there was no row. *)
Lemma executemany_compressed_run
    (rows : list (string * string * string * bytes)) (f s : store) (n : Z) :
  NoDup (map pk rows) ->
  (forall p, In p rows ->
     ~ In (pk p) (map (fun r => pk (crow_tuple r)) (compressed_employees s))) ->
  executemany insert_compressed rows (mk_conn f (Some s) n)
  = (Ok tt,
     mk_conn f
       (Some (mk_store (employees s) (employees_seq s)
                       (compressed_employees s ++ map to_crow rows)))
       (match rows with [] => n | _ :: _ => 1 end)).
Proof.
  revert s n. induction rows as [|p rows IH]; intros s n Hnd Hfree.
  - cbn. rewrite app_nil_r. now destruct s.
  - cbn [executemany]. unfold exec_dml. cbn [visible tx file].
    pose proof (Hfree p (or_introl eq_refl)) as Hp.
    destruct p as [[[pn pb] pg] pp]. unfold insert_compressed at 1.
    apply (proj2 (pk_taken_false_iff pn pb _)) in Hp. rewrite Hp.
    cbn [map] in Hnd. inversion Hnd as [|? ? Hnotin Hnd']; subst.
    rewrite IH; [|exact Hnd'|].
    + cbn [employees employees_seq compressed_employees map to_crow].
      rewrite <- app_assoc. cbn [app]. now destruct rows.
    + intros q Hq. cbn [compressed_employees]. rewrite map_app, in_app_iff.
      intros [Hin|[Heq|[]]].
      * exact (Hfree q (or_intror Hq) Hin).
      * apply Hnotin.
        change (pk (pn, pb, pg, pp))
          with (pk (crow_tuple (mk_crow pn pb pg pp))).
        rewrite Heq. now apply in_map.
Qed.

(** A run of plain INSERTs that completes met no key twice; one that
    raises raises the engine's IntegrityError. *)
Lemma executemany_compressed_inv
    (rows : list (string * string * string * bytes)) (f s : store) (n : Z) :
  match executemany insert_compressed rows (mk_conn f (Some s) n) with
  | (Ok _, _) =>
      NoDup (map pk rows)
      /\ forall p, In p rows ->
           ~ In (pk p)
                (map (fun r => pk (crow_tuple r)) (compressed_employees s))
  | (Raised e, _) =>
      exn_cls e = IntegrityError
      /\ ~ (NoDup (map pk rows)
            /\ forall p, In p rows ->
                 ~ In (pk p)
                      (map (fun r => pk (crow_tuple r))
                           (compressed_employees s)))
  end.
Proof.
  revert s n. induction rows as [|p rows IH]; intros s n.
  - cbn. split; [constructor | intros p []].
  - cbn [executemany]. unfold exec_dml. cbn [visible tx file].
    destruct p as [[[pn pb] pg] pp]. unfold insert_compressed at 1.
    destruct (pk_taken pn pb (compressed_employees s)) eqn:Hp.
    + split; [reflexivity|]. intros [_ Hfree].
      specialize (Hfree _ (or_introl eq_refl)).
      apply (proj2 (pk_taken_false_iff pn pb _)) in Hfree. congruence.
    + apply pk_taken_false_iff in Hp.
      specialize (IH (mk_store (employees s) (employees_seq s)
                        (compressed_employees s ++ [mk_crow pn pb pg pp])) 1).
      destruct (executemany insert_compressed rows _) as [[[]|e] c'].
      * destruct IH as [Hnd Hfree]. cbn [compressed_employees] in Hfree.
        split.
        -- cbn [map]. constructor; [|exact Hnd].
           intros Hin. apply in_map_iff in Hin as [q [Hq Hin]].
           apply (Hfree q Hin). rewrite map_app, in_app_iff. right.
           left. cbn. now rewrite Hq.
        -- intros q [<-|Hq]; [exact Hp|].
           intros Hin. apply (Hfree q Hq). rewrite map_app, in_app_iff.
           now left.
      * destruct IH as [Hcls Hnot]. split; [exact Hcls|].
        intros [Hnd Hfree]. apply Hnot. cbn [map] in Hnd.
        inversion Hnd as [|? ? Hnotin Hnd']; subst. split; [exact Hnd'|].
        intros q Hq. cbn [compressed_employees].
        rewrite map_app, in_app_iff. intros [Hin|[Heq|[]]].
        -- exact (Hfree q (or_intror Hq) Hin).
        -- apply Hnotin.
           change (pk (pn, pb, pg, pp))
             with (pk (crow_tuple (mk_crow pn pb pg pp))).
           rewrite Heq. now apply in_map.
Qed.

Lemma replace_compressed_rows_body
    (rows : list (string * string * string * bytes)) (db : Database) :
  in_transaction db = false ->
  replace_compressed_rows rows db
  = match
      executemany insert_compressed rows
        (mk_conn (committed db)
           (Some (mk_store (employees (committed db))
                           (employees_seq (committed db)) []))
           (Z.of_nat (List.length (compressed_employees (committed db)))))
    with
    | (Ok _, c2) => (Ok (changes c2), Opened (commit c2))
    | (Raised e, c2) =>
        (Raised e, Opened (if is_Exception e then rollback c2 else c2))
    end.
Proof.
  intros Htx. unfold replace_compressed_rows.
  rewrite (transaction_run _ db Htx).
  unfold bind at 1, exec_dml, delete_compressed, begun.
  cbn [visible tx file]. rewrite handle_file. unfold bind at 1.
  destruct (executemany insert_compressed rows _) as [[[]|e] c2];
    reflexivity.
Qed.

Lemma replace_compressed_rows_run
    (rows : list (string * string * string * bytes)) (db : Database) :
  in_transaction db = false ->
  NoDup (map pk rows) ->
  replace_compressed_rows rows db
  = (Ok (match rows with
         | [] => Z.of_nat (List.length (compressed_employees (committed db)))
         | _ :: _ => 1
         end),
     Opened
       (mk_conn
          (mk_store (employees (committed db)) (employees_seq (committed db))
                    (map to_crow rows))
          None
          (match rows with
           | [] => Z.of_nat (List.length (compressed_employees (committed db)))
           | _ :: _ => 1
           end))).
Proof.
  intros Htx Hnd. rewrite (replace_compressed_rows_body rows db Htx).
  rewrite executemany_compressed_run; [reflexivity | exact Hnd|].
  intros p _ [].
Qed.

(** [replace_compressed_rows] succeeds exactly when no two of the rows
    have the same (full_name, birth_date); otherwise it raises the
    engine's IntegrityError.  What it returns on success is 1 whenever
    there is a row, whatever their number, and with no row it is the
    number of rows the table held before. *)
Theorem replace_compressed_rows_result
    (rows : list (string * string * string * bytes)) (db : Database) :
  in_transaction db = false ->
  match fst (replace_compressed_rows rows db) with
  | Ok n =>
      NoDup (map pk rows)
      /\ n = match rows with
             | [] => Z.of_nat (List.length
                                 (compressed_employees (committed db)))
             | _ :: _ => 1
             end
  | Raised e => ~ NoDup (map pk rows) /\ exn_cls e = IntegrityError
  end.
Proof.
  intros Htx.
  destruct (ListDec.NoDup_dec key_eq_dec (map pk rows)) as [Hnd|Hnd].
  - rewrite (replace_compressed_rows_run rows db Htx Hnd). cbn [fst]. auto.
  - rewrite (replace_compressed_rows_body rows db Htx).
    pose proof (executemany_compressed_inv rows (committed db)
                  (mk_store (employees (committed db))
                            (employees_seq (committed db)) [])
                  (Z.of_nat (List.length
                               (compressed_employees (committed db)))))
      as H.
    destruct (executemany insert_compressed rows _) as [[[]|e] c2].
    + destruct H as [H _]. contradiction.
    + cbn [fst]. destruct H as [Hcls _]. auto.
Qed.

Lemma replace_compressed_rows_result_witness :
  match
    fst (replace_compressed_rows
           [("Fisher Henry Quincy", "1971-12-31", "Male", []);
            ("Foster Fig Evans", "1990-05-15", "Male", []);
            ("Fisher Henry Quincy", "1971-12-31", "Male", [])]
           examples.refreshed_db)
  with
  | Ok n =>
      NoDup (map pk [("Fisher Henry Quincy", "1971-12-31", "Male", []);
                     ("Foster Fig Evans", "1990-05-15", "Male", []);
                     ("Fisher Henry Quincy", "1971-12-31", "Male", [])])
      /\ n = 1
  | Raised e =>
      ~ NoDup (map pk [("Fisher Henry Quincy", "1971-12-31", "Male", []);
                       ("Foster Fig Evans", "1990-05-15", "Male", []);
                       ("Fisher Henry Quincy", "1971-12-31", "Male", [])])
      /\ exn_cls e = IntegrityError
  end.
Proof.
  exact (replace_compressed_rows_result
           [("Fisher Henry Quincy", "1971-12-31", "Male", []);
            ("Foster Fig Evans", "1990-05-15", "Male", []);
            ("Fisher Henry Quincy", "1971-12-31", "Male", [])]
           examples.refreshed_db eq_refl).
Defined.

(** A refresh that succeeded succeeds again with the same rows and leaves
    both tables as the first one left them. *)
Theorem replace_compressed_rows_idempotent
    (rows : list (string * string * string * bytes)) (db db1 : Database)
    (n : Z) :
  replace_compressed_rows rows db = (Ok n, db1) ->
  let (r2, db2) := replace_compressed_rows rows db1 in
  (exists n2, r2 = Ok n2) /\ committed db2 = committed db1
  /\ seen db2 = committed db1.
Proof.
  intros H.
  assert (Htx : in_transaction db = false).
  { unfold replace_compressed_rows in H.
    now apply transaction_Ok_inv in H as [c2 [_ [_ Htx]]]. }
  assert (Hnd : NoDup (map pk rows)).
  { rewrite (replace_compressed_rows_body rows db Htx) in H.
    pose proof (executemany_compressed_inv rows (committed db)
                  (mk_store (employees (committed db))
                            (employees_seq (committed db)) [])
                  (Z.of_nat (List.length
                               (compressed_employees (committed db)))))
      as Hinv.
    destruct (executemany insert_compressed rows _) as [[[]|e] c2];
      [tauto | discriminate]. }
  rewrite (replace_compressed_rows_run rows db Htx Hnd) in H.
  injection H as _ <-.
  rewrite replace_compressed_rows_run by (try reflexivity; exact Hnd).
  cbn. eauto.
Qed.

Lemma replace_compressed_rows_idempotent_witness :
  let (r2, db2) :=
    replace_compressed_rows
      [("Fisher Henry Quincy", "1971-12-31", "Male", []);
       ("Foster Fig Evans", "1990-05-15", "Male", [])]
      (snd (replace_compressed_rows
              [("Fisher Henry Quincy", "1971-12-31", "Male", []);
               ("Foster Fig Evans", "1990-05-15", "Male", [])]
              examples.refreshed_db)) in
  (exists n2, r2 = Ok n2)
  /\ committed db2
     = committed
         (snd (replace_compressed_rows
                 [("Fisher Henry Quincy", "1971-12-31", "Male", []);
                  ("Foster Fig Evans", "1990-05-15", "Male", [])]
                 examples.refreshed_db))
  /\ seen db2
     = committed
         (snd (replace_compressed_rows
                 [("Fisher Henry Quincy", "1971-12-31", "Male", []);
                  ("Foster Fig Evans", "1990-05-15", "Male", [])]
                 examples.refreshed_db)).
Proof.
  exact (replace_compressed_rows_idempotent
           [("Fisher Henry Quincy", "1971-12-31", "Male", []);
            ("Foster Fig Evans", "1990-05-15", "Male", [])]
           examples.refreshed_db _ 1 eq_refl).
Defined.

(** [fetch_compressed_subset] never raises on an open or closed handle:
    it returns the rows of the compressed table whose gender is ['Male']
    and whose name begins with [F] or [f], each once, payload included,
    in ascending order of the name. *)
Theorem fetch_compressed_subset_selects (db : Database) :
  exists out,
    fst (fetch_compressed_subset db) = Ok out
    /\ Permutation out
         (map crow_tuple
            (filter (fun r => String.eqb (c_gender r) "Male"
                              && starts_with_F (c_full_name r))
                    (compressed_employees (seen db))))
    /\ Sorted string_le (map (fun p => fst (pk p)) out).
Proof.
  unfold fetch_compressed_subset. rewrite read_run. cbn [fst].
  eexists. split; [reflexivity|]. unfold select_compressed_subset.
  assert (Hp : filter (fun r => male_surname_f (c_gender r) (c_full_name r))
                      (compressed_employees (seen db))
               = filter (fun r => String.eqb (c_gender r) "Male"
                                  && starts_with_F (c_full_name r))
                        (compressed_employees (seen db))).
  { apply filter_ext. intros r. apply male_surname_f_spec. }
  rewrite Hp. split.
  - change (fun r : compressed_row =>
              (c_full_name r, c_birth_date r, c_gender r, compressed_payload r))
      with crow_tuple.
    apply Permutation_map, order_by_perm.
  - rewrite map_map. cbn [pk fst snd].
    apply (order_by_names_sorted c_full_name).
Qed.

(** *** The compressed-table mode as a whole *)

Lemma order_by_sorted_id {R : Type} (name : R -> string) (l : list R) :
  Sorted (name_le name) l -> order_by name l = l.
Proof.
  induction 1 as [|x l Hl IH Hx]; [reflexivity|].
  cbn [order_by fold_right]. fold (order_by name l). rewrite IH.
  destruct Hx as [|y l' Hxy]; [reflexivity|].
  cbn [insert_sorted]. unfold name_le, string_le in Hxy. now rewrite Hxy.
Qed.

Lemma Sorted_names {R : Type} (name : R -> string) (l : list R) :
  Sorted string_le (map name l) -> Sorted (name_le name) l.
Proof.
  induction l as [|x l IH]; cbn [map]; intros H; [constructor|].
  inversion H as [|? ? Hs Hh]; subst. constructor; [now apply IH|].
  destruct l; cbn [map] in *; constructor. now inversion Hh.
Qed.

Lemma filter_all {A : Type} (f : A -> bool) (l : list A) :
  Forall (fun x => f x = true) l -> filter f l = l.
Proof.
  induction 1 as [|x l Hx _ IH]; cbn; [reflexivity|]. now rewrite Hx, IH.
Qed.

Lemma ddl_transaction_run (db : Database) :
  in_transaction db = false ->
  transaction ddl db
  = (Ok tt, Opened (mk_conn (committed db) None (changes (handle db)))).
Proof.
  intros Htx. rewrite (transaction_run _ db Htx).
  unfold ddl, ret, begun, commit. cbn. now rewrite handle_file.
Qed.

Lemma ddl2_transaction_run (db : Database) :
  in_transaction db = false ->
  transaction (ddl ;; ddl) db
  = (Ok tt, Opened (mk_conn (committed db) None (changes (handle db)))).
Proof.
  intros Htx. rewrite (transaction_run _ db Htx).
  unfold ddl, bind, ret, begun, commit. cbn. now rewrite handle_file.
Qed.

(** The steps of a function of [main.py]. *)
Lemma on_repository_bind {A B : Type} (m : M A) (k : A -> main.W B)
    (w : main.world) :
  bind (main.on_repository m) k w
  = match m (main.db w) with
    | (Ok a, d) => k a (main.mk_world d (main.stdout w))
    | (Raised e, d) => (Raised e, main.mk_world d (main.stdout w))
    end.
Proof.
  unfold bind, main.on_repository. now destruct (m (main.db w)) as [[a|e] d].
Qed.

Lemma print_bind {B : Type} (line : string) (k : unit -> main.W B)
    (w : main.world) :
  bind (main.print line) k w
  = k tt (main.mk_world (main.db w) (main.stdout w ++ [line])).
Proof. reflexivity. Qed.

Lemma on_repository_Ok_inv {A : Type} (m : M A) (w w1 : main.world) (a : A) :
  main.on_repository m w = (Ok a, w1) ->
  exists d, m (main.db w) = (Ok a, d)
            /\ w1 = main.mk_world d (main.stdout w).
Proof.
  unfold main.on_repository. destruct (m (main.db w)) as [r d].
  intros H. injection H as -> <-. now exists d.
Qed.

Lemma of_result_Ok_inv {S A : Type} (r : result A) (s s' : S) (a : A) :
  of_result r s = (Ok a, s') -> r = Ok a /\ s' = s.
Proof.
  unfold of_result. destruct r; cbv; intros H; [|discriminate].
  now injection H as -> ->.
Qed.

Lemma ifnull_sql_sum (l : list Z) :
  ifnull (sql_sum l) 0 = fold_right Z.add 0 l.
Proof. now destruct l. Qed.

Lemma decode_rows_Forall2 (rows : list employees_row)
    (out : list models.Employee) :
  decode_rows (map columns rows) = Ok out ->
  Forall2 (fun r e => models.from_strings (full_name r) (birth_date r)
                                          (gender r) = Ok e)
          rows out.
Proof.
  intros H. apply list_comprehension_Ok in H.
  apply Forall2_map_left in H. exact H.
Qed.

Section compressed_mode.

Variable json_dumps : main.json -> string.
Variable json_loads : string -> result main.json.
Variable gzip_compress : bytes -> bytes.
Variable gzip_decompress : bytes -> result bytes.
Variable main_duration : string.
Variable compressed_duration : string.
Variable format_ratio : Z -> Z -> string.
Variable str_dict : main.json -> string.

(** The contract of the two library codecs: what was compressed is
    decompressed, and the dictionaries written are read back. *)
Hypothesis gzip_round_trip :
  forall b, gzip_decompress (gzip_compress b) = Ok b.
Hypothesis json_round_trip :
  forall e today,
    json_loads (json_dumps (main.payload e today))
    = Ok (main.payload e today).

Lemma compress_rows_rows (clock : nat -> date) (i : nat)
    (employees : list models.Employee) :
  map fst (fst (main.compress_rows json_dumps gzip_compress clock i employees))
  = map models.to_row employees.
Proof.
  revert i. induction employees as [|e rest IH]; intros i; cbn;
    [reflexivity|].
  specialize (IH (S i)).
  destruct (main.compress_rows json_dumps gzip_compress clock (S i) rest)
    as [rows plain].
  cbn [fst map] in *. now rewrite IH.
Qed.

Lemma compress_rows_restored (clock : nat -> date) (i : nat)
    (employees : list models.Employee) :
  list_comprehension
    (fun row => main.restore json_loads gzip_decompress (snd row))
    (fst (main.compress_rows json_dumps gzip_compress clock i employees))
  = Ok (payloads clock i employees).
Proof.
  revert i. induction employees as [|e rest IH]; intros i; cbn;
    [reflexivity|].
  specialize (IH (S i)).
  destruct (main.compress_rows json_dumps gzip_compress clock (S i) rest)
    as [rows plain].
  cbn [fst list_comprehension snd] in *.
  unfold main.restore at 1. rewrite gzip_round_trip.
  unfold main.decode_utf8, main.encode_utf8.
  rewrite string_of_list_byte_of_string, json_round_trip. now rewrite IH.
Qed.

(** The row the loop builds for the record at position [j]: its three
    columns, and the dictionary of the record with its age at the date of
    iteration [j], written and compressed. *)
Lemma compress_rows_nth (clock : nat -> date) (i j : nat)
    (employees : list models.Employee) (e : models.Employee) :
  nth_error employees j = Some e ->
  nth_error
    (fst (main.compress_rows json_dumps gzip_compress clock i employees)) j
  = Some (models.to_row e,
          gzip_compress
            (main.encode_utf8 (json_dumps (main.payload e (clock (i + j)%nat))))).
Proof.
  revert i j. induction employees as [|e0 rest IH]; intros i j H.
  - destruct j; discriminate.
  - cbn [main.compress_rows].
    specialize (IH (S i)).
    destruct (main.compress_rows json_dumps gzip_compress clock (S i) rest)
      as [rows plain].
    cbn [fst] in *. destruct j as [|j]; cbn [nth_error] in *.
    + injection H as <-. now rewrite Nat.add_0_r.
    + rewrite (IH j H). now rewrite Nat.add_succ_r.
Qed.

Lemma compress_rows_plain (clock : nat -> date) (i : nat)
    (employees : list models.Employee) :
  snd (main.compress_rows json_dumps gzip_compress clock i employees)
  = fold_right Z.add 0
      (map (fun v => Z.of_nat (List.length (main.encode_utf8 (json_dumps v))))
           (payloads clock i employees)).
Proof.
  revert i. induction employees as [|e rest IH]; intros i; cbn;
    [reflexivity|].
  specialize (IH (S i)).
  destruct (main.compress_rows json_dumps gzip_compress clock (S i) rest)
    as [rows plain].
  cbn [snd] in *. now rewrite IH.
Qed.

Lemma restore_compressed (e : models.Employee) (today : date) :
  main.restore json_loads gzip_decompress
    (gzip_compress (main.encode_utf8 (json_dumps (main.payload e today))))
  = Ok (main.JObject
          [("full_name", main.JString (models.full_name e));
           ("birth_date", main.JString (isoformat (models.birth_date e)));
           ("gender", main.JString (models.gender e));
           ("age",
            main.JInt
              (year today - year (models.birth_date e)
               - (if models.pair_ltb (month today, day today)
                                     (month (models.birth_date e),
                                      day (models.birth_date e))
                  then 1 else 0)))]).
Proof.
  unfold main.restore. rewrite gzip_round_trip.
  unfold main.decode_utf8, main.encode_utf8.
  rewrite string_of_list_byte_of_string, json_round_trip.
  unfold main.payload. now rewrite age_spec.
Qed.

(** C9.  Whenever the compressed-table mode has found records to compress
    and has returned, the compressed table holds exactly one row for each
    record it fetched, and no other row.  The row of the record fetched
    at position [i] carries the three columns of that record, and its
    payload decompresses and parses to the dictionary of that record:
    its name, its birth date, its gender, and its age at the date of
    iteration [i], that is the difference of the years less one when the
    (month, day) of that date comes before the (month, day) of birth.
    The records fetched are the decoded rows of the subset, in ascending
    order of the stored name. *)
Theorem compressed_table_round_trip (clock : nat -> date)
    (w w' : main.world) :
  main.mode_compressed_table json_dumps json_loads gzip_compress
    gzip_decompress main_duration compressed_duration format_ratio str_dict
    clock w = (Ok tt, w') ->
  select_male_surname_f (seen (main.db w)) <> [] ->
  exists rows fetched,
    Permutation rows
      (filter (fun r => String.eqb (gender r) "Male"
                        && starts_with_F (full_name r))
              (employees (seen (main.db w))))
    /\ Sorted string_le (map full_name rows)
    /\ Forall2 (fun r e => models.from_strings (full_name r) (birth_date r)
                                               (gender r) = Ok e)
               rows fetched
    /\ List.length (compressed_employees (committed (main.db w')))
       = List.length fetched
    /\ (forall i e,
          nth_error fetched i = Some e ->
          exists row,
            In row (compressed_employees (committed (main.db w')))
            /\ (c_full_name row, c_birth_date row, c_gender row)
               = models.to_row e
            /\ main.restore json_loads gzip_decompress (compressed_payload row)
               = Ok (main.JObject
                       [("full_name", main.JString (models.full_name e));
                        ("birth_date",
                         main.JString (isoformat (models.birth_date e)));
                        ("gender", main.JString (models.gender e));
                        ("age",
                         main.JInt
                           (year (clock i) - year (models.birth_date e)
                            - (if models.pair_ltb
                                    (month (clock i), day (clock i))
                                    (month (models.birth_date e),
                                     day (models.birth_date e))
                               then 1 else 0)))]))
    /\ (forall row,
          In row (compressed_employees (committed (main.db w'))) ->
          exists i e,
            nth_error fetched i = Some e
            /\ (c_full_name row, c_birth_date row, c_gender row)
               = models.to_row e
            /\ main.restore json_loads gzip_decompress (compressed_payload row)
               = Ok (main.JObject
                       [("full_name", main.JString (models.full_name e));
                        ("birth_date",
                         main.JString (isoformat (models.birth_date e)));
                        ("gender", main.JString (models.gender e));
                        ("age",
                         main.JInt
                           (year (clock i) - year (models.birth_date e)
                            - (if models.pair_ltb
                                    (month (clock i), day (clock i))
                                    (month (models.birth_date e),
                                     day (models.birth_date e))
                               then 1 else 0)))])).
Proof.
  intros H Hne. unfold main.mode_compressed_table in H.
  apply bind_Ok_inv in H as [[] [w1 [H1 H]]].
  apply on_repository_Ok_inv in H1 as [d1 [H1 ->]].
  apply (ddl_transaction_Ok ddl) in H1 as [Hseen1 _]; [|reflexivity].
  apply bind_Ok_inv in H as [employees [w2 [H2 H]]].
  apply on_repository_Ok_inv in H2 as [d2 [H2 ->]].
  cbn [main.db main.stdout] in *.
  rewrite fetch_male_surname_f_eq in H2. injection H2 as Hdec <-.
  rewrite Hseen1 in Hdec.
  unfold select_male_surname_f in Hdec, Hne.
  set (picked := order_by full_name
                   (filter (fun r => male_surname_f (gender r) (full_name r))
                           (sqlite.employees (seen (main.db w))))) in *.
  pose proof (decode_rows_Forall2 _ _ Hdec) as Hf2.
  destruct employees as [|e es].
  { inversion Hf2 as [Hp|]. rewrite <- Hp in Hne. now contradiction Hne. }
  apply bind_Ok_inv in H as [[] [w3 [H3 H]]].
  apply on_repository_Ok_inv in H3 as [d3 [H3 ->]].
  pose proof (compress_rows_rows clock 0 (e :: es)) as Hfst.
  pose proof (fun j x => compress_rows_nth clock 0 j (e :: es) x) as Hnth.
  destruct (main.compress_rows json_dumps gzip_compress clock 0 (e :: es))
    as [rows plain].
  cbn [fst] in Hfst, Hnth.
  apply bind_Ok_inv in H as [inserted [w4 [H4 H]]].
  apply on_repository_Ok_inv in H4 as [d4 [H4 ->]].
  cbn [main.db main.stdout] in *.
  apply replace_compressed_rows_Ok in H4 as [Htable _].
  rewrite print_bind in H.
  apply bind_Ok_inv in H as [again [w5 [H5 H]]].
  apply on_repository_Ok_inv in H5 as [d5 [H5 ->]].
  cbn [main.db main.stdout] in *.
  rewrite fetch_male_surname_f_eq in H5. injection H5 as _ <-.
  apply bind_Ok_inv in H as [subset [w6 [H6 H]]].
  apply on_repository_Ok_inv in H6 as [d6 [H6 ->]].
  cbn [main.db main.stdout] in *.
  unfold fetch_compressed_subset in H6. rewrite read_run in H6.
  injection H6 as _ <-.
  apply bind_Ok_inv in H as [restored [w7 [H7 H]]].
  apply of_result_Ok_inv in H7 as [_ ->].
  apply bind_Ok_inv in H as [stats [w8 [H8 H]]].
  apply on_repository_Ok_inv in H8 as [d8 [H8 ->]].
  cbn [main.db main.stdout] in *.
  unfold compressed_table_stats in H8. rewrite read_run in H8.
  injection H8 as _ <-.
  rewrite !print_bind in H. unfold main.print in H.
  injection H as <-. cbn [main.db].
  rewrite !handle_committed, Htable.
  (* what is stored *)
  exists picked, (e :: es).
  split.
  { unfold picked.
    rewrite (filter_ext _ (fun r => String.eqb (gender r) "Male"
                                    && starts_with_F (full_name r))
               (fun r => male_surname_f_spec (gender r) (full_name r))).
    apply order_by_perm. }
  split; [apply order_by_names_sorted|].
  split; [exact Hf2|].
  split.
  { rewrite length_map, <- (length_map fst), Hfst, length_map. reflexivity. }
  split.
  - intros i x Hx. specialize (Hnth i x Hx). cbn [Nat.add] in Hnth.
    eexists (to_crow _). split.
    + apply in_map. apply (nth_error_In _ _ Hnth).
    + cbn [to_crow c_full_name c_birth_date c_gender compressed_payload].
      split; [now destruct (models.to_row x) as [[n b] g]|].
      destruct (models.to_row x) as [[n b] g]. cbn.
      apply restore_compressed.
  - intros row Hrow. apply in_map_iff in Hrow as [p [<- Hp]].
    apply In_nth_error in Hp as [i Hi].
    assert (Hi' : exists x, nth_error (e :: es) i = Some x).
    { destruct (nth_error (e :: es) i) as [x|] eqn:Ex; [now exists x|].
      apply nth_error_None in Ex.
      assert (Hl : (i < List.length rows)%nat)
        by (apply nth_error_Some; congruence).
      rewrite <- (length_map fst), Hfst, length_map in Hl. lia. }
    destruct Hi' as [x Hx]. specialize (Hnth i x Hx). cbn [Nat.add] in Hnth.
    rewrite Hnth in Hi. injection Hi as <-.
    exists i, x. split; [exact Hx|].
    destruct (models.to_row x) as [[n b] g] eqn:Er. cbn.
    split; [reflexivity|]. apply restore_compressed.
Qed.

(** With no row of the subset in the primary table, the mode prints its
    one line about that and returns; the rows of both tables stay as
    they were: rows left in the compressed table by an earlier run are
    neither cleared nor replaced. *)
Theorem mode_compressed_table_nothing_to_do (clock : nat -> date)
    (w : main.world) :
  in_transaction (main.db w) = false ->
  select_male_surname_f (seen (main.db w)) = [] ->
  let (r, w') :=
    main.mode_compressed_table json_dumps json_loads gzip_compress
      gzip_decompress main_duration compressed_duration format_ratio str_dict
      clock w in
  r = Ok tt
  /\ main.stdout w'
     = main.stdout w
       ++ ["No employees found matching criteria. Populate data (e.g., mode 4) first."]
  /\ committed (main.db w') = committed (main.db w).
Proof.
  intros Htx Hsel. unfold main.mode_compressed_table.
  rewrite on_repository_bind. unfold create_gender_surname_index.
  rewrite (ddl_transaction_run _ Htx).
  rewrite on_repository_bind, fetch_male_surname_f_eq.
  cbn [main.db main.stdout seen visible tx file].
  rewrite <- (seen_committed _ Htx), Hsel.
  cbn. rewrite (seen_committed _ Htx). auto.
Qed.

Lemma NoDup_map_filter {A B : Type} (g : A -> B) (f : A -> bool)
    (l : list A) :
  NoDup (map g l) -> NoDup (map g (filter f l)).
Proof.
  induction l as [|x l IH]; cbn [map filter]; intros H; [constructor|].
  inversion H as [|? ? Hx Hl]; subst.
  destruct (f x); [|now apply IH]. cbn [map]. constructor; [|now apply IH].
  intros Hin. apply Hx. apply in_map_iff in Hin as [y [Hy Hin]].
  apply filter_In in Hin as [Hin _]. rewrite <- Hy. now apply in_map.
Qed.

Lemma map_eq_Forall {A B : Type} (f : A -> bool) (g : B -> bool)
    (l1 : list A) (l2 : list B) :
  map f l1 = map g l2 ->
  Forall (fun y => g y = true) l2 -> Forall (fun x => f x = true) l1.
Proof.
  revert l2. induction l1 as [|x l1 IH]; intros [|y l2] H Hg;
    try discriminate; constructor; cbn [map] in H; injection H as Hxy Hl;
    inversion Hg; subst; [congruence | eauto].
Qed.

Lemma string_leb_refl (a : string) : String.leb a a = true.
Proof. destruct (String.leb_total a a); assumption. Qed.

Lemma string_leb_trans (a b c : string) :
  String.leb a b = true -> String.leb b c = true -> String.leb a c = true.
Proof.
  unfold String.leb. revert b c.
  induction a as [|x a IH]; intros [|y b] [|z c]; cbn [String.compare];
    try congruence.
  unfold Ascii.compare.
  destruct (N.compare_spec (N_of_ascii x) (N_of_ascii y)) as [E1|L1|G1];
    destruct (N.compare_spec (N_of_ascii y) (N_of_ascii z)) as [E2|L2|G2];
    destruct (N.compare_spec (N_of_ascii x) (N_of_ascii z)) as [E3|L3|G3];
    try congruence; try lia.
  apply IH.
Qed.

Lemma Sorted_head_least (l : list string) (x : string) :
  Sorted string_le (x :: l) -> Forall (string_le x) (x :: l).
Proof.
  intros H. apply Sorted_StronglySorted in H.
  - inversion H as [|? ? _ Hall]; subst. constructor; [|exact Hall].
    apply string_leb_refl.
  - intros a b c Hab Hbc. exact (string_leb_trans a b c Hab Hbc).
Qed.

(** On a table the repository has kept (unique keys, rows that are row
    encodings) with at least one row of the subset, the mode succeeds and
    leaves the primary table as it was.  It prints seven lines: the
    count, which is 1 whatever the number of rows written; the two
    durations; the ratio of the two sizes, [plain_bytes] being the total
    length of the dictionaries as written and [compressed_size] the
    total length of the payloads now stored; that size; as sample the
    dictionary of a fetched record of smallest name, with its age at the
    date of its iteration; and the closing remark. *)
Theorem mode_compressed_table_reports (clock : nat -> date)
    (w : main.world) :
  in_transaction (main.db w) = false ->
  table_ok (committed (main.db w)) ->
  select_male_surname_f (committed (main.db w)) <> [] ->
  exists fetched i sample,
    Permutation (map models.to_row fetched)
                (select_male_surname_f (committed (main.db w)))
    /\ Sorted string_le (map models.full_name fetched)
    /\ nth_error fetched i = Some sample
    /\ Forall (fun e => string_le (models.full_name sample)
                                  (models.full_name e)) fetched
    /\ let (r, w') :=
         main.mode_compressed_table json_dumps json_loads gzip_compress
           gzip_decompress main_duration compressed_duration format_ratio
           str_dict clock w in
       let compressed_size :=
         fold_right Z.add 0
           (map (fun row => Z.of_nat (List.length (compressed_payload row)))
                (compressed_employees (committed (main.db w')))) in
       let plain_bytes :=
         fold_right Z.add 0
           (map (fun v => Z.of_nat
                            (List.length (main.encode_utf8 (json_dumps v))))
                (payloads clock 0 fetched)) in
       r = Ok tt
       /\ employees (committed (main.db w'))
          = employees (committed (main.db w))
       /\ main.stdout w'
          = main.stdout w
            ++ [ "Compressed table refreshed with 1 rows.";
                 ("Main table query time: " ++ main_duration
                  ++ " seconds")%string;
                 ("Compressed table query time: " ++ compressed_duration
                  ++ " seconds")%string;
                 ("Compression saved approximately "
                  ++ format_ratio compressed_size plain_bytes
                  ++ "% space.")%string;
                 ("Compressed storage footprint: " ++ main.str compressed_size
                  ++ " bytes")%string;
                 ("Restored sample record: "
                  ++ str_dict (main.payload sample (clock i)))%string;
                 "Speed-up comes from scanning a smaller prefiltered table with indexed prefix lookups; compression reduces I/O footprint when reading the data." ].
Proof.
  intros Htx [_ [Hkeys Hcan]] Hne.
  set (picked := order_by full_name
                   (filter (fun r => male_surname_f (gender r) (full_name r))
                           (employees (committed (main.db w))))).
  assert (Hsel : forall s, employees s = employees (committed (main.db w)) ->
                           select_male_surname_f s = map columns picked).
  { intros s Hs. unfold select_male_surname_f. now rewrite Hs. }
  assert (Hperm : Permutation picked
                    (filter (fun r => male_surname_f (gender r) (full_name r))
                            (employees (committed (main.db w)))))
    by apply order_by_perm.
  assert (Hcp : Forall canonical picked).
  { apply (Forall_perm _ _ _ (Permutation_sym Hperm)).
    now apply Forall_filter. }
  destruct (decode_canonical _ Hcp) as [fetched [Hdec Hrows]].
  rewrite (Hsel (committed (main.db w)) eq_refl) in Hne |- *.
  destruct fetched as [|e es].
  { destruct picked; [now contradiction Hne | discriminate]. }
  assert (Hnames : Sorted string_le (map models.full_name (e :: es))).
  { rewrite (to_row_name _ _ Hrows). apply order_by_names_sorted. }
  exists (e :: es), 0%nat, e.
  split; [now rewrite Hrows|]. split; [exact Hnames|].
  split; [reflexivity|].
  split.
  { apply Sorted_head_least in Hnames.
    change (Forall (string_le (models.full_name e))
                   (map models.full_name (e :: es))) in Hnames.
    exact (proj1 (Forall_map _ _ _) Hnames). }
  pose proof (compress_rows_rows clock 0 (e :: es)) as Hfst.
  pose proof (compress_rows_restored clock 0 (e :: es)) as Hres.
  pose proof (compress_rows_plain clock 0 (e :: es)) as Hplain.
  (* the rows to store: distinct keys, all of the subset, in name order *)
  assert (Hpk : forall rows : list (string * string * string * bytes),
            map fst rows = map models.to_row (e :: es) ->
            NoDup (map pk rows)
            /\ Forall (fun r => male_surname_f (c_gender r) (c_full_name r)
                                = true) (map to_crow rows)
            /\ Sorted (name_le c_full_name) (map to_crow rows)).
  { intros rows Hr. rewrite Hrows in Hr. split; [|split].
    - replace (map pk rows)
        with (map (fun t : string * string * string =>
                     (fst (fst t), snd (fst t))) (map fst rows))
        by (rewrite map_map; reflexivity).
      rewrite Hr, map_map.
      change (map (fun x => (fst (fst (columns x)), snd (fst (columns x))))
                  picked) with (map key picked).
      apply (Permutation_NoDup
               (Permutation_map key (Permutation_sym Hperm))).
      now apply NoDup_map_filter.
    - apply (map_eq_Forall _
               (fun r => male_surname_f (gender r) (full_name r)) _ picked).
      + rewrite map_map.
        replace (map (fun x => male_surname_f (c_gender (to_crow x))
                                              (c_full_name (to_crow x))) rows)
          with (map (fun t : string * string * string =>
                       male_surname_f (snd t) (fst (fst t))) (map fst rows)).
        * rewrite Hr, map_map. reflexivity.
        * rewrite map_map. apply map_ext. now intros [[[n b] g] pl].
      + apply Forall_forall. intros r Hr'.
        apply (Permutation_in _ Hperm) in Hr'.
        now apply filter_In in Hr'.
    - apply Sorted_names. rewrite map_map.
      replace (map (fun x => c_full_name (to_crow x)) rows)
        with (map (fun t : string * string * string => fst (fst t))
                  (map fst rows))
        by (rewrite map_map; apply map_ext; now intros [[[n b] g] pl]).
      rewrite Hr, map_map.
      change (map (fun x => fst (fst (columns x))) picked)
        with (map full_name picked).
      apply order_by_names_sorted. }
  (* the run *)
  unfold main.mode_compressed_table.
  rewrite on_repository_bind. unfold create_gender_surname_index.
  rewrite (ddl_transaction_run _ Htx).
  rewrite on_repository_bind, fetch_male_surname_f_eq.
  cbn [main.db main.stdout seen visible tx file handle].
  rewrite (Hsel (committed (main.db w)) eq_refl), Hdec.
  rewrite on_repository_bind. unfold create_compressed_table.
  rewrite ddl2_transaction_run by reflexivity.
  cbn [main.db main.stdout committed file handle changes].
  destruct (main.compress_rows json_dumps gzip_compress clock 0 (e :: es))
    as [rows plain] eqn:Hcr.
  cbn [fst snd] in Hfst, Hres, Hplain.
  destruct (Hpk rows Hfst) as [Hnd [Hall Hsorted]].
  assert (Hrne : exists r0 rs, rows = r0 :: rs).
  { destruct rows; [discriminate|eauto]. }
  destruct Hrne as [r0 [rs Hrne]].
  rewrite on_repository_bind.
  rewrite replace_compressed_rows_run by (try reflexivity; exact Hnd).
  cbn [main.db main.stdout committed file].
  rewrite print_bind. cbn [main.db main.stdout].
  rewrite on_repository_bind, fetch_male_surname_f_eq.
  cbn [main.db main.stdout seen visible tx file handle].
  rewrite (Hsel (mk_store (employees (committed (main.db w)))
                          (employees_seq (committed (main.db w)))
                          (map to_crow rows)) eq_refl), Hdec.
  rewrite on_repository_bind. unfold fetch_compressed_subset.
  rewrite read_run.
  cbn [main.db main.stdout seen visible tx file handle].
  unfold select_compressed_subset. cbn [compressed_employees].
  rewrite (filter_all _ _ Hall), (order_by_sorted_id _ _ Hsorted).
  change (fun r : compressed_row =>
            (c_full_name r, c_birth_date r, c_gender r,
             compressed_payload r))
    with crow_tuple.
  rewrite map_map.
  rewrite (map_ext _ (fun p => p) crow_tuple_to_crow), map_id.
  unfold bind at 1, of_result. rewrite Hres.
  rewrite on_repository_bind. unfold compressed_table_stats.
  rewrite read_run.
  cbn [main.db main.stdout seen visible tx file handle snd select_stats
       compressed_employees].
  rewrite ifnull_sql_sum.
  rewrite !print_bind. unfold main.print.
  cbn [main.db main.stdout committed file handle employees
       compressed_employees payloads].
  split; [reflexivity|]. split; [reflexivity|].
  rewrite <- !app_assoc. cbn [app]. rewrite Hplain, Hrne.
  reflexivity.
Qed.
End compressed_mode.

Lemma compressed_table_round_trip_witness :
  exists rows fetched,
    Permutation rows
      (filter (fun r => String.eqb (gender r) "Male"
                        && starts_with_F (full_name r))
              (employees (seen examples.directory_db)))
    /\ Sorted string_le (map full_name rows)
    /\ Forall2 (fun r e => models.from_strings (full_name r) (birth_date r)
                                               (gender r) = Ok e)
               rows fetched
    /\ List.length (compressed_employees (committed (main.db (snd (examples.refresh (main.mk_world examples.directory_db []))))))
       = List.length fetched
    /\ (forall i e,
          nth_error fetched i = Some e ->
          exists row,
            In row (compressed_employees (committed (main.db (snd (examples.refresh (main.mk_world examples.directory_db []))))))
            /\ (c_full_name row, c_birth_date row, c_gender row)
               = models.to_row e
            /\ main.restore examples.fields_loads examples.magic_decompress (compressed_payload row)
               = Ok (main.JObject
                       [("full_name", main.JString (models.full_name e));
                        ("birth_date",
                         main.JString (isoformat (models.birth_date e)));
                        ("gender", main.JString (models.gender e));
                        ("age",
                         main.JInt
                           (year (examples.june_2025 i) - year (models.birth_date e)
                            - (if models.pair_ltb
                                    (month (examples.june_2025 i), day (examples.june_2025 i))
                                    (month (models.birth_date e),
                                     day (models.birth_date e))
                               then 1 else 0)))]))
    /\ (forall row,
          In row (compressed_employees (committed (main.db (snd (examples.refresh (main.mk_world examples.directory_db [])))))) ->
          exists i e,
            nth_error fetched i = Some e
            /\ (c_full_name row, c_birth_date row, c_gender row)
               = models.to_row e
            /\ main.restore examples.fields_loads examples.magic_decompress (compressed_payload row)
               = Ok (main.JObject
                       [("full_name", main.JString (models.full_name e));
                        ("birth_date",
                         main.JString (isoformat (models.birth_date e)));
                        ("gender", main.JString (models.gender e));
                        ("age",
                         main.JInt
                           (year (examples.june_2025 i) - year (models.birth_date e)
                            - (if models.pair_ltb
                                    (month (examples.june_2025 i), day (examples.june_2025 i))
                                    (month (models.birth_date e),
                                     day (models.birth_date e))
                               then 1 else 0)))])).
Proof.
  apply (compressed_table_round_trip examples.fields_dumps examples.fields_loads examples.magic_compress
           examples.magic_decompress "0.000120" "0.000045" examples.percent
           examples.fields_dumps
           magic_round_trip fields_round_trip examples.june_2025
           (main.mk_world examples.directory_db [])
           (snd (examples.refresh (main.mk_world examples.directory_db [])))).
  - vm_compute. reflexivity.
  - vm_compute. discriminate.
Defined.

Lemma mode_compressed_table_nothing_to_do_witness :
  let (r, w') :=
    examples.refresh (main.mk_world examples.stale_db ["earlier output"]) in
  r = Ok tt
  /\ main.stdout w'
     = ["earlier output"]
       ++ ["No employees found matching criteria. Populate data (e.g., mode 4) first."]
  /\ committed (main.db w') = committed examples.stale_db.
Proof.
  apply (mode_compressed_table_nothing_to_do examples.fields_dumps examples.fields_loads examples.magic_compress
           examples.magic_decompress "0.000120" "0.000045" examples.percent
           examples.fields_dumps
           examples.june_2025
           (main.mk_world examples.stale_db ["earlier output"])).
  - reflexivity.
  - reflexivity.
Defined.

Lemma mode_compressed_table_reports_witness :
  exists fetched i sample,
    Permutation (map models.to_row fetched)
                (select_male_surname_f (committed examples.directory_db))
    /\ Sorted string_le (map models.full_name fetched)
    /\ nth_error fetched i = Some sample
    /\ Forall (fun e => string_le (models.full_name sample)
                                  (models.full_name e)) fetched
    /\ let (r, w') :=
         examples.refresh (main.mk_world examples.directory_db []) in
       let compressed_size :=
         fold_right Z.add 0
           (map (fun row => Z.of_nat (List.length (compressed_payload row)))
                (compressed_employees (committed (main.db w')))) in
       let plain_bytes :=
         fold_right Z.add 0
           (map (fun v => Z.of_nat
                            (List.length (main.encode_utf8 (examples.fields_dumps v))))
                (payloads examples.june_2025 0 fetched)) in
       r = Ok tt
       /\ employees (committed (main.db w'))
          = employees (committed examples.directory_db)
       /\ main.stdout w'
          = []
            ++ [ "Compressed table refreshed with 1 rows.";
                 ("Main table query time: " ++ "0.000120"
                  ++ " seconds")%string;
                 ("Compressed table query time: " ++ "0.000045"
                  ++ " seconds")%string;
                 ("Compression saved approximately "
                  ++ examples.percent compressed_size plain_bytes
                  ++ "% space.")%string;
                 ("Compressed storage footprint: " ++ main.str compressed_size
                  ++ " bytes")%string;
                 ("Restored sample record: "
                  ++ examples.fields_dumps (main.payload sample (examples.june_2025 i)))%string;
                 "Speed-up comes from scanning a smaller prefiltered table with indexed prefix lookups; compression reduces I/O footprint when reading the data." ].
Proof.
  apply (mode_compressed_table_reports examples.fields_dumps examples.fields_loads examples.magic_compress
           examples.magic_decompress "0.000120" "0.000045" examples.percent
           examples.fields_dumps
           magic_round_trip fields_round_trip examples.june_2025
           (main.mk_world examples.directory_db [])).
  - reflexivity.
  - repeat split.
    + repeat constructor; cbn; intuition discriminate.
    + repeat constructor; cbn; intuition discriminate.
    + repeat constructor; eexists; split; reflexivity.
  - vm_compute. discriminate.
Defined.

(** *** The data generator *)

Lemma all_from_spec (p : Z -> bool) (n : nat) (start k : Z) :
  all_from p start n = true -> start <= k < start + Z.of_nat n -> p k = true.
Proof.
  revert start. induction n as [|n IH]; intros start H Hk; [lia|].
  cbn [all_from] in H. apply andb_prop in H as [H1 H2].
  destruct (Z.eq_dec k start) as [->|Hne]; [assumption|].
  apply (IH (start + 1)); [assumption | lia].
Qed.

Lemma birth_date_table :
  all_from (fun k =>
              let d := datetime.add_days (mk_date 1960 1 1) k in
              valid_date d
              && date_leb (mk_date 1960 1 1) d
              && date_leb d (mk_date 2010 12 31)
              && (datetime._ymd2ord d
                  =? datetime._ymd2ord (mk_date 1960 1 1) + k))
           0 (Z.to_nat 18628) = true.
Proof. vm_compute. reflexivity. Qed.

Lemma add_days_in_range (k : Z) :
  0 <= k <= 18627 ->
  let d := datetime.add_days (mk_date 1960 1 1) k in
  valid_date d = true
  /\ date_leb (mk_date 1960 1 1) d = true
  /\ date_leb d (mk_date 2010 12 31) = true
  /\ datetime._ymd2ord d = datetime._ymd2ord (mk_date 1960 1 1) + k.
Proof.
  intros Hk.
  pose proof (all_from_spec _ _ 0 k birth_date_table) as H.
  rewrite Z2Nat.id in H by lia.
  specialize (H ltac:(lia)). cbv zeta in H.
  apply andb_prop in H as [H H4]. apply andb_prop in H as [H H3].
  apply andb_prop in H as [H1 H2].
  cbv zeta. repeat split; try assumption. now apply Z.eqb_eq.
Qed.

Lemma item_In (seq : list string) (i : Z) :
  0 <= i < Z.of_nat (List.length seq) -> In (utils.item seq i) seq.
Proof.
  intros H. unfold utils.item. apply nth_In.
  apply Nat2Z.inj_lt. rewrite Z2Nat.id; lia.
Qed.

Lemma ends_with_space_app (a b : string) :
  b <> EmptyString -> ends_with_space (a ++ b)%string = ends_with_space b.
Proof.
  intros Hb. induction a as [|c a IH]; [reflexivity|].
  cbn [String.append].
  change (ends_with_space (String c (a ++ b)))
    with (match (a ++ b)%string with
          | EmptyString => isspace c
          | String _ _ => ends_with_space (a ++ b)%string
          end).
  destruct (a ++ b)%string eqn:E.
  - destruct a; [cbn in E; contradiction | discriminate].
  - exact IH.
Qed.

Lemma append_assoc' (a b c : string) :
  ((a ++ b) ++ c = a ++ (b ++ c))%string.
Proof. induction a as [|x a IH]; [reflexivity|]. cbn. now rewrite IH. Qed.

Lemma middle_names_end :
  forallb (fun m => negb (ends_with_space m)
                    && negb (String.eqb m EmptyString))
          utils.MIDDLE_NAMES = true.
Proof. reflexivity. Qed.

Lemma letters_table :
  forallb (fun k =>
             match utils.item utils._letters (Z.of_nat k) with
             | String c EmptyString =>
                 negb (isspace c) && Ascii.eqb (to_upper c) c
                 && Bool.eqb (Ascii.eqb c "F") (Z.of_nat k =? 5)
                 && Bool.eqb (Ascii.eqb c "f") false
             | _ => false
             end)
          (seq 0 26) = true.
Proof. reflexivity. Qed.

Lemma letter_facts (k : Z) :
  0 <= k < 26 ->
  exists c,
    utils.item utils._letters k = String c EmptyString
    /\ isspace c = false
    /\ to_upper c = c
    /\ Ascii.eqb c "F" = (k =? 5)
    /\ Ascii.eqb c "f" = false.
Proof.
  intros Hk. pose proof letters_table as H.
  rewrite forallb_forall in H. specialize (H (Z.to_nat k)).
  rewrite Z2Nat.id in H by lia.
  assert (Hin : In (Z.to_nat k) (seq 0 26)).
  { apply in_seq. lia. }
  specialize (H Hin).
  destruct (utils.item utils._letters k) as [|c [|c' s]]; try discriminate.
  exists c.
  apply andb_prop in H as [H H4]. apply andb_prop in H as [H H3].
  apply andb_prop in H as [H1 H2].
  repeat split.
  - now apply negb_true_iff.
  - now apply Ascii.eqb_eq.
  - now apply Bool.eqb_prop.
  - now apply Bool.eqb_prop.
Qed.

Section generator_facts.

Variable rng : Type.
Variable _randbelow : Z -> rng -> Z * rng.

(** What [random.Random] promises of [_randbelow(n)]. *)
Hypothesis _randbelow_range :
  forall n g, 0 < n -> 0 <= fst (_randbelow n g) < n.

Lemma choice_In (seq : list string) (g : rng) :
  seq <> [] -> In (fst (utils.choice rng _randbelow seq g)) seq.
Proof.
  intros Hne. unfold utils.choice.
  pose proof (_randbelow_range (Z.of_nat (List.length seq)) g) as H.
  destruct (_randbelow (Z.of_nat (List.length seq)) g) as [i g'].
  cbn [fst] in *. apply item_In. apply H.
  destruct seq; [contradiction | cbn [List.length]; lia].
Qed.

Lemma randint_range (a b : Z) (g : rng) :
  a <= b -> a <= fst (utils.randint rng _randbelow a b g) <= b.
Proof.
  intros Hab. unfold utils.randint.
  pose proof (_randbelow_range (b - a + 1) g) as H.
  destruct (_randbelow (b - a + 1) g) as [k g'].
  cbn [fst] in *. lia.
Qed.

Lemma _random_birth_date_range (g : rng) :
  let d := fst (utils._random_birth_date rng _randbelow g) in
  valid_date d = true
  /\ date_leb (mk_date 1960 1 1) d = true
  /\ date_leb d (mk_date 2010 12 31) = true.
Proof.
  unfold utils._random_birth_date.
  change (datetime.days_between (mk_date 2010 12 31) (mk_date 1960 1 1))
    with 18627.
  pose proof (randint_range 0 18627 g) as H.
  destruct (utils.randint rng _randbelow 0 18627 g) as [k g'].
  cbn [fst] in *.
  destruct (add_days_in_range k) as (H1 & H2 & H3 & _); [lia|].
  cbv zeta. auto.
Qed.

Lemma _random_middle_end (gender : string) (g : rng) (a : string) :
  ends_with_space
    (a ++ fst (utils._random_middle rng _randbelow gender g))%string = false.
Proof.
  unfold utils._random_middle.
  pose proof (choice_In utils.MIDDLE_NAMES g) as H.
  destruct (utils.choice rng _randbelow utils.MIDDLE_NAMES g) as [base g'].
  cbn [fst] in *.
  assert (Hin : In base utils.MIDDLE_NAMES) by (apply H; discriminate).
  pose proof middle_names_end as T. rewrite forallb_forall in T.
  specialize (T base Hin). apply andb_prop in T as [T1 T2].
  apply negb_true_iff in T1. apply negb_true_iff in T2.
  apply String.eqb_neq in T2.
  destruct (String.eqb gender "Male").
  - rewrite ends_with_space_app; assumption.
  - rewrite <- append_assoc'. rewrite ends_with_space_app; [reflexivity|discriminate].
Qed.

(** A generated record, for a gender of the table and a one-letter
    initial that is an upper-case letter. *)
Lemma generate_shape (gender : string) (c : ascii) (index : Z) (g : rng) :
  gender = "Male" \/ gender = "Female" ->
  isspace c = false -> to_upper c = c ->
  let e := fst (utils.generate rng _randbelow gender (String c EmptyString)
                               index g) in
  (exists rest, models.full_name e = String c rest)
  /\ models.gender e = gender
  /\ well_formed e
  /\ date_leb (mk_date 1960 1 1) (models.birth_date e) = true
  /\ date_leb (models.birth_date e) (mk_date 2010 12 31) = true.
Proof.
  intros Hg Hc Hu. unfold utils.generate.
  destruct (utils._first_name rng _randbelow gender g) as [first g1].
  pose proof (_random_middle_end gender g1) as Hend.
  destruct (utils._random_middle rng _randbelow gender g1) as [middle g2].
  pose proof (_random_birth_date_range g2) as Hd.
  destruct (utils._random_birth_date rng _randbelow g2) as [d g3].
  cbn [fst] in *. cbv zeta in Hd. destruct Hd as (Hv & Hlo & Hhi).
  unfold utils._build_surname.
  set (suffix := utils.drop_first _).
  cbn [utils.upper String.append]. rewrite Hu.
  set (rest := (suffix ++ " " ++ first ++ " " ++ middle)%string).
  assert (Hname : strip (String c rest) = String c rest).
  { apply strip_fixed. split; [exact Hc|].
    change (String c rest) with (String c EmptyString ++ rest)%string.
    unfold rest.
    rewrite <- !append_assoc'. apply Hend. }
  assert (Hgen : capitalize (strip gender) = gender).
  { apply is_gender_normal. destruct Hg as [-> | ->]; reflexivity. }
  unfold models.new_Employee, models.__post_init__.
  cbn [models.full_name models.birth_date models.gender].
  change (String c (suffix ++ _)) with (String c rest).
  rewrite Hname, Hgen.
  split; [now exists rest|]. split; [reflexivity|].
  split; [|split; assumption].
  unfold well_formed. cbn [models.full_name models.birth_date models.gender].
  repeat split; try assumption.
  destruct Hg as [-> | ->]; reflexivity.
Qed.

Lemma for_range_spec (P : Z -> models.Employee -> Prop)
    (body : Z -> rng -> models.Employee * rng) (n : nat) (start : Z) (g : rng) :
  (forall idx g', start <= idx -> P idx (fst (body idx g'))) ->
  List.length (fst (utils.for_range rng body start n g)) = n
  /\ forall i e,
       nth_error (fst (utils.for_range rng body start n g)) i = Some e ->
       P (start + Z.of_nat i) e.
Proof.
  revert start g. induction n as [|n IH]; intros start g HP.
  - split; [reflexivity|]. intros [|i] e H; discriminate.
  - cbn [utils.for_range].
    pose proof (HP start g (Z.le_refl _)) as H0.
    destruct (body start g) as [e0 g1]. cbn [fst] in H0.
    destruct (IH (start + 1) g1) as [Hlen Hnth].
    { intros idx g' Hidx. apply HP. lia. }
    destruct (utils.for_range rng body (start + 1) n g1) as [rest g2].
    cbn [fst] in *. split; [cbn [List.length]; now rewrite Hlen|].
    intros [|i] e H; cbn [nth_error] in H.
    + injection H as <-. now rewrite Z.add_0_r.
    + replace (start + Z.of_nat (S i)) with (start + 1 + Z.of_nat i) by lia.
      now apply Hnth.
Qed.

(** Every record the generator builds for a gender of the table and an
    upper-case initial is a valid record: it has that gender, a name that
    begins with the initial and is unchanged by validation, and a birth
    date from 1960-01-01 to 2010-12-31; reading its row back gives the
    record. *)
Theorem generate_valid_record (gender initial : string) (index : Z) (g : rng) :
  gender = "Male" \/ gender = "Female" ->
  In initial utils._letters ->
  let e := fst (utils.generate rng _randbelow gender initial index g) in
  models.from_strings (models.full_name e) (isoformat (models.birth_date e))
                      (models.gender e) = Ok e
  /\ models.gender e = gender
  /\ (exists rest, models.full_name e = (initial ++ rest)%string)
  /\ date_leb (mk_date 1960 1 1) (models.birth_date e) = true
  /\ date_leb (models.birth_date e) (mk_date 2010 12 31) = true.
Proof.
  intros Hg Hin.
  assert (Hc : exists c, initial = String c EmptyString
                         /\ isspace c = false /\ to_upper c = c).
  { unfold utils._letters in Hin. cbn [In] in Hin.
    repeat (destruct Hin as [<- | Hin];
            [eexists; repeat split; reflexivity|]).
    contradiction. }
  destruct Hc as (c & -> & Hs & Hu).
  destruct (generate_shape gender c index g Hg Hs Hu)
    as ((rest & Hn) & Hgen & Hwf & Hlo & Hhi).
  cbv zeta. repeat split; try assumption.
  - now apply from_strings_to_row.
  - exists rest. exact Hn.
Qed.

(** The stream of [total] records: record [i] is a valid record whose
    surname begins with letter [i mod 26] of the alphabet; it is male
    when that letter is F and alternates Male, Female otherwise; so the
    filter of the fifth mode selects exactly the records at the
    positions [5 mod 26]. *)
Theorem stream_records (total : Z) (g : rng) :
  let records := fst (utils.stream rng _randbelow total g) in
  List.length records = Z.to_nat total
  /\ forall i e,
       nth_error records i = Some e ->
       well_formed e
       /\ (exists rest,
             models.full_name e
             = (utils.item utils._letters (Z.of_nat i mod 26) ++ rest)%string)
       /\ models.gender e
          = (if Z.of_nat i mod 26 =? 5 then "Male"
             else if Z.of_nat i mod 2 =? 0 then "Male" else "Female")
       /\ repository.male_surname_f (models.gender e) (models.full_name e)
          = (Z.of_nat i mod 26 =? 5).
Proof.
  cbv zeta. unfold utils.stream.
  destruct (for_range_spec
              (fun idx e =>
                 well_formed e
                 /\ (exists rest,
                       models.full_name e
                       = (utils.item utils._letters (idx mod 26) ++ rest)%string)
                 /\ models.gender e
                    = (if idx mod 26 =? 5 then "Male"
                       else if idx mod 2 =? 0 then "Male" else "Female")
                 /\ repository.male_surname_f (models.gender e)
                                              (models.full_name e)
                    = (idx mod 26 =? 5))
              (utils.stream_item rng _randbelow) (Z.to_nat total) 0 g)
    as [Hlen Hnth].
  - intros idx g' Hidx. unfold utils.stream_item.
    change (Z.of_nat (List.length utils._letters)) with 26.
    change (Z.of_nat (List.length ["Male"; "Female"])) with 2.
    assert (Hk : 0 <= idx mod 26 < 26) by (apply Z.mod_pos_bound; lia).
    destruct (letter_facts (idx mod 26) Hk) as (c & Hitem & Hs & Hu & HF & Hf).
    rewrite Hitem.
    set (gender := if String.eqb (String c EmptyString) "F" then "Male"
                   else utils.item ["Male"; "Female"] (idx mod 2)).
    assert (Hgender : gender = (if idx mod 26 =? 5 then "Male"
                                else if idx mod 2 =? 0 then "Male"
                                     else "Female")).
    { unfold gender.
      change (String.eqb (String c EmptyString) "F")
        with (Ascii.eqb c "F" && true).
      rewrite andb_true_r, HF.
      destruct (idx mod 26 =? 5); [reflexivity|].
      assert (H2 : 0 <= idx mod 2 < 2) by (apply Z.mod_pos_bound; lia).
      assert (H2' : idx mod 2 = 0 \/ idx mod 2 = 1) by lia.
      destruct H2' as [-> | ->]; reflexivity. }
    assert (Hg : gender = "Male" \/ gender = "Female").
    { rewrite Hgender. destruct (idx mod 26 =? 5); [now left|].
      destruct (idx mod 2 =? 0); [now left | now right]. }
    destruct (generate_shape gender c idx g' Hg Hs Hu)
      as ((rest & Hn) & Hgen & Hwf & _ & _).
    split; [assumption|]. split; [exists rest; exact Hn|].
    split; [now rewrite Hgen|].
    rewrite male_surname_f_spec, Hn, Hgen, Hgender.
    cbn [starts_with_F]. rewrite HF, Hf, orb_false_r.
    destruct (idx mod 26 =? 5); [reflexivity | apply andb_false_r].
  - split; [assumption|]. intros i e H.
    specialize (Hnth i e H). now rewrite Z.add_0_l in Hnth.
Qed.

(** The special stream: [count] valid male records whose surname
    begins with F, so each of them passes the filter of the fifth mode. *)
Theorem male_surname_f_records (count : Z) (g : rng) :
  let records := fst (utils.male_surname_f rng _randbelow count g) in
  List.length records = Z.to_nat count
  /\ Forall (fun e =>
               well_formed e
               /\ models.gender e = "Male"
               /\ repository.male_surname_f (models.gender e)
                                            (models.full_name e) = true)
            records.
Proof.
  cbv zeta. unfold utils.male_surname_f.
  destruct (for_range_spec
              (fun _ e =>
                 well_formed e
                 /\ models.gender e = "Male"
                 /\ repository.male_surname_f (models.gender e)
                                              (models.full_name e) = true)
              (fun idx => utils.generate rng _randbelow "Male" "F"
                                         (idx + 1000000))
              (Z.to_nat count) 0 g) as [Hlen Hnth].
  - intros idx g' _.
    destruct (generate_shape "Male" "F"%char (idx + 1000000) g')
      as ((rest & Hn) & Hgen & Hwf & _ & _);
      [now left | reflexivity | reflexivity |].
    split; [assumption|]. split; [assumption|].
    rewrite male_surname_f_spec, Hn, Hgen. reflexivity.
  - split; [assumption|]. apply Forall_forall. intros e He.
    apply In_nth_error in He as [i Hi]. exact (Hnth i e Hi).
Qed.

End generator_facts.

Lemma lcg_range (n g : Z) : 0 < n -> 0 <= fst (examples.lcg n g) < n.
Proof. intros Hn. unfold examples.lcg. cbn [fst]. apply Z.mod_pos_bound. exact Hn. Qed.

Lemma generate_valid_record_witness :
  let e := fst (utils.generate Z examples.lcg "Female" "Q" 16 42) in
  models.from_strings (models.full_name e) (isoformat (models.birth_date e))
                      (models.gender e) = Ok e
  /\ models.gender e = "Female"
  /\ (exists rest, models.full_name e = ("Q" ++ rest)%string)
  /\ date_leb (mk_date 1960 1 1) (models.birth_date e) = true
  /\ date_leb (models.birth_date e) (mk_date 2010 12 31) = true.
Proof.
  apply (generate_valid_record Z examples.lcg lcg_range "Female" "Q" 16 42).
  - right. reflexivity.
  - unfold utils._letters. cbn [In]. tauto.
Defined.

Lemma stream_records_witness :
  let records := fst (utils.stream Z examples.lcg 30 42) in
  List.length records = Z.to_nat 30
  /\ forall i e,
       nth_error records i = Some e ->
       well_formed e
       /\ (exists rest,
             models.full_name e
             = (utils.item utils._letters (Z.of_nat i mod 26) ++ rest)%string)
       /\ models.gender e
          = (if Z.of_nat i mod 26 =? 5 then "Male"
             else if Z.of_nat i mod 2 =? 0 then "Male" else "Female")
       /\ repository.male_surname_f (models.gender e) (models.full_name e)
          = (Z.of_nat i mod 26 =? 5).
Proof. exact (stream_records Z examples.lcg lcg_range 30 42). Defined.

Lemma male_surname_f_records_witness :
  let records := fst (utils.male_surname_f Z examples.lcg 3 7) in
  List.length records = Z.to_nat 3
  /\ Forall (fun e =>
               well_formed e
               /\ models.gender e = "Male"
               /\ repository.male_surname_f (models.gender e)
                                            (models.full_name e) = true)
            records.
Proof. exact (male_surname_f_records Z examples.lcg lcg_range 3 7). Defined.

(** *** The modes of [main.py] *)

Lemma from_strings_raises (n b g : string) (e : exn) :
  models.from_strings n b g = Raised e -> exn_cls e = ValueError.
Proof.
  unfold models.from_strings. pose proof (strptime_ymd_valid b) as Hd.
  destruct (strptime_ymd b) as [d|e'].
  - destruct (negb _); [|discriminate]. intros H. injection H as <-. reflexivity.
  - intros H. injection H as <-. exact Hd.
Qed.

(** With fewer than three parameters, or with three that do not make a
    record, [mode_create_employee] raises a [ValueError] before the
    database is opened: nothing is stored and nothing is printed. *)
Theorem mode_create_employee_rejects (params : list string) (w : main.world) :
  (forall n b g rest e,
     params = n :: b :: g :: rest -> models.from_strings n b g <> Ok e) ->
  exists err,
    main.mode_create_employee params w = (Raised err, w)
    /\ exn_cls err = ValueError.
Proof.
  intros H. unfold main.mode_create_employee.
  destruct params as [|n [|b [|g rest]]];
    try (eexists; split; reflexivity).
  unfold bind at 1, of_result.
  destruct (models.from_strings n b g) as [e|err] eqn:E.
  - exfalso. exact (H n b g rest e eq_refl E).
  - exists err. split; [reflexivity|]. exact (from_strings_raises _ _ _ _ E).
Qed.

Lemma mode_create_employee_rejects_witness :
  exists err,
    main.mode_create_employee ["Ann Lee"; "2000-02-30"; "Female"]
                              (main.mk_world examples.directory_db [])
    = (Raised err, main.mk_world examples.directory_db [])
    /\ exn_cls err = ValueError.
Proof.
  apply (mode_create_employee_rejects ["Ann Lee"; "2000-02-30"; "Female"]).
  intros n b g rest e H. injection H as <- <- <- _. vm_compute. discriminate.
Defined.

(** With three parameters that make a record, [mode_create_employee]
    prints exactly one line: the success line when the key was free, and
    then the table has gained the record as its last row, or the
    already-exists line, and then the table is unchanged.  Further
    parameters are ignored. *)
Theorem mode_create_employee_saves (n b g : string) (rest : list string)
    (e : models.Employee) (w : main.world) :
  in_transaction (main.db w) = false ->
  models.from_strings n b g = Ok e ->
  let taken :=
    key_taken (models.full_name e) (isoformat (models.birth_date e))
              (employees (committed (main.db w))) in
  let (r, w') := main.mode_create_employee (n :: b :: g :: rest) w in
  r = Ok tt
  /\ main.stdout w'
     = main.stdout w
       ++ [if taken
           then ("Employee '" ++ models.full_name e ++ "' with birth date "
                 ++ isoformat (models.birth_date e) ++ " already exists.")%string
           else ("Employee '" ++ models.full_name e
                 ++ "' saved successfully.")%string]
  /\ employees (committed (main.db w'))
     = employees (committed (main.db w))
       ++ (if taken then []
           else [mk_row (next_id (committed (main.db w))) (models.full_name e)
                        (isoformat (models.birth_date e)) (models.gender e)]).
Proof.
  intros Htx He. unfold main.mode_create_employee.
  unfold bind at 1, of_result. rewrite He.
  unfold bind at 1, main.on_repository, persist.
  rewrite (insert_employee_run e (main.db w) Htx).
  pose proof (from_strings_well_formed _ _ _ _ He) as (_ & _ & Hg).
  unfold models.to_row.
  generalize (isoformat (models.birth_date e)). intros d.
  destruct (key_taken (models.full_name e) d
              (employees (committed (main.db w)))) eqn:Hk.
  - rewrite (insert_or_ignore_taken _ _ _ _ Hk). cbn.
    now rewrite app_nil_r.
  - rewrite (insert_or_ignore_fresh _ _ _ _ Hg Hk). cbn. auto.
Qed.

Lemma mode_create_employee_saves_witness :
  let w := main.mk_world examples.directory_db [] in
  let e := examples.fallon in
  let taken :=
    key_taken (models.full_name e) (isoformat (models.birth_date e))
              (employees (committed (main.db w))) in
  let (r, w') :=
    main.mode_create_employee
      [" Fallon Mary Ivanovich"; "1985-2-10"; "female"; "ignored"] w in
  r = Ok tt
  /\ main.stdout w'
     = main.stdout w
       ++ [if taken
           then ("Employee '" ++ models.full_name e ++ "' with birth date "
                 ++ isoformat (models.birth_date e) ++ " already exists.")%string
           else ("Employee '" ++ models.full_name e
                 ++ "' saved successfully.")%string]
  /\ employees (committed (main.db w'))
     = employees (committed (main.db w))
       ++ (if taken then []
           else [mk_row (next_id (committed (main.db w))) (models.full_name e)
                        (isoformat (models.birth_date e)) (models.gender e)]).
Proof.
  apply (mode_create_employee_saves " Fallon Mary Ivanovich" "1985-2-10"
           "female" ["ignored"] examples.fallon
           (main.mk_world examples.directory_db [])).
  - reflexivity.
  - vm_compute. reflexivity.
Defined.

Lemma NoDup_map_In_eq {A B : Type} (f : A -> B) (l : list A) (x y : A) :
  NoDup (map f l) -> In x l -> In y l -> f x = f y -> x = y.
Proof.
  induction l as [|a l IH]; intros Hnd Hx Hy Hf; [contradiction|].
  cbn [map] in Hnd. inversion Hnd as [|? ? Hna Hnd']; subst.
  destruct Hx as [->|Hx], Hy as [->|Hy].
  - reflexivity.
  - exfalso. apply Hna. rewrite Hf. now apply in_map.
  - exfalso. apply Hna. rewrite <- Hf. now apply in_map.
  - now apply IH.
Qed.

Lemma join_uniq_table_ok (rows : list employees_row) :
  NoDup (map id rows) -> NoDup (map key rows) -> join_uniq rows = rows.
Proof.
  intros Hid Hkey. rewrite (join_uniq_filter _ Hid). apply filter_all.
  apply Forall_forall. intros r Hr. apply smallest_of_key_iff.
  intros r' Hr' Hk.
  rewrite (NoDup_map_In_eq key rows r' r Hkey Hr' Hr Hk). lia.
Qed.

(** The line [mode_list_employees] prints for a record. *)
Lemma print_employees_run (clock : nat -> date)
    (employees : list models.Employee) (i : nat) (w : main.world) :
  exists lines,
    main.print_employees clock i employees w
    = (Ok tt, main.mk_world (main.db w) (main.stdout w ++ lines))
    /\ Forall2
         (fun line e =>
            exists today,
              line = (models.full_name e ++ " | "
                      ++ isoformat (models.birth_date e) ++ " | "
                      ++ models.gender e ++ " | "
                      ++ main.str (models.age e None today))%string)
         lines employees.
Proof.
  revert i w. induction employees as [|e l IH]; intros i w.
  - exists []. split; [|constructor]. cbn [main.print_employees].
    unfold ret. rewrite app_nil_r. now destruct w.
  - cbn [main.print_employees]. unfold bind at 1, main.print at 1.
    destruct (IH (S i)
                (main.mk_world (main.db w)
                   (main.stdout w
                    ++ [(models.full_name e ++ " | "
                         ++ isoformat (models.birth_date e) ++ " | "
                         ++ models.gender e ++ " | "
                         ++ main.str (models.age e None (clock i)))%string])))
      as [lines [Hrun Hlines]].
    eexists (_ :: lines). split.
    + rewrite Hrun. cbn [main.db main.stdout]. rewrite <- app_assoc.
      reflexivity.
    + constructor; [|exact Hlines]. now exists (clock i).
Qed.

(** On a table as the repository keeps it, [mode_list_employees] prints
    the header, one line per stored row in the order of the names, with
    the row's three columns and the age at the day of printing, and last
    the number of rows; it changes nothing in the file. *)
Theorem mode_list_employees_prints (clock : nat -> date) (w : main.world) :
  table_ok (seen (main.db w)) ->
  let (r, w') := main.mode_list_employees clock w in
  r = Ok tt
  /\ committed (main.db w') = committed (main.db w)
  /\ exists listed lines,
       Permutation (map models.to_row listed)
                   (map columns (employees (seen (main.db w))))
       /\ Sorted string_le (map models.full_name listed)
       /\ Forall2
            (fun line e =>
               exists today,
                 line = (models.full_name e ++ " | "
                         ++ isoformat (models.birth_date e) ++ " | "
                         ++ models.gender e ++ " | "
                         ++ main.str (models.age e None today))%string)
            lines listed
       /\ main.stdout w'
          = main.stdout w
            ++ ["Full Name | Birth Date | Gender | Age"] ++ lines
            ++ [("Total rows: "
                 ++ main.str (Z.of_nat (List.length
                                          (employees (seen (main.db w))))))%string].
Proof.
  intros (Hid & Hkey & Hcan). unfold main.mode_list_employees.
  unfold bind at 1, main.on_repository, fetch_unique_sorted.
  rewrite read_bind_run. unfold select_unique_sorted.
  rewrite (join_uniq_table_ok _ Hid Hkey).
  set (rows := employees (seen (main.db w))) in *.
  pose proof (order_by_perm full_name rows) as Hperm.
  assert (Hcs : Forall canonical (order_by full_name rows)).
  { apply (Forall_perm _ rows); [now symmetry | assumption]. }
  destruct (decode_canonical _ Hcs) as [out [Hout Hmap]].
  unfold of_result. rewrite Hout.
  unfold bind at 1, main.print at 1. cbn [main.db main.stdout].
  unfold bind at 1.
  destruct (print_employees_run clock out 0
              (main.mk_world (Opened (handle (main.db w)))
                 (main.stdout w ++ ["Full Name | Birth Date | Gender | Age"])))
    as [lines [Hrun Hlines]].
  rewrite Hrun. unfold main.print. cbn [main.db main.stdout].
  split; [reflexivity|]. split; [apply handle_committed|].
  exists out, lines. split; [|split; [|split]].
  - rewrite Hmap. apply Permutation_map. exact Hperm.
  - rewrite (to_row_name _ _ Hmap). apply order_by_names_sorted.
  - exact Hlines.
  - rewrite <- !app_assoc. do 3 f_equal.
    assert (Hl : List.length out = List.length rows).
    { rewrite <- (length_map models.to_row out), Hmap, length_map.
      apply Permutation_length. exact Hperm. }
    now rewrite Hl.
Qed.

Lemma mode_list_employees_prints_witness :
  let clock := examples.june_2025 in
  let w := main.mk_world examples.directory_db ["earlier output"] in
  let (r, w') := main.mode_list_employees clock w in
  r = Ok tt
  /\ committed (main.db w') = committed (main.db w)
  /\ exists listed lines,
       Permutation (map models.to_row listed)
                   (map columns (employees (seen (main.db w))))
       /\ Sorted string_le (map models.full_name listed)
       /\ Forall2
            (fun line e =>
               exists today,
                 line = (models.full_name e ++ " | "
                         ++ isoformat (models.birth_date e) ++ " | "
                         ++ models.gender e ++ " | "
                         ++ main.str (models.age e None today))%string)
            lines listed
       /\ main.stdout w'
          = main.stdout w
            ++ ["Full Name | Birth Date | Gender | Age"] ++ lines
            ++ [("Total rows: "
                 ++ main.str (Z.of_nat (List.length
                                          (employees (seen (main.db w))))))%string].
Proof.
  apply (mode_list_employees_prints examples.june_2025
           (main.mk_world examples.directory_db ["earlier output"])).
  repeat split.
  - repeat constructor; cbn; intuition discriminate.
  - repeat constructor; cbn; intuition discriminate.
  - repeat constructor; eexists; split; reflexivity.
Defined.

Lemma chunked_count (l : list models.Employee) (size : Z) :
  1 <= size ->
  Z.of_nat (List.length (yielded (models.chunked (iter_of_list l) size)))
  = (Z.of_nat (List.length l) + size - 1) / size.
Proof.
  intros Hs.
  destruct (chunked_concat (iter_of_list l) size eq_refl) as [Hc _].
  pose proof (chunked_loop_shape l size [] Hs) as Hsh.
  assert (Hlen : Z.of_nat (List.length
                   (List.concat (yielded (models.chunked (iter_of_list l) size))))
                 = Z.of_nat (List.length l)) by (rewrite Hc; reflexivity).
  clear Hc. unfold models.chunked, iter_of_list in *.
  cbn [yielded fault] in *.
  destruct (models.chunked_loop l size []) as [full last].
  cbn [fst snd] in Hsh.
  destruct Hsh as [Hfull Hlast]; [cbn; lia|].
  pose proof (concat_full_length size full Hfull) as Hcf.
  destruct last as [|x last]; cbn [yielded] in *.
  - rewrite Hcf in Hlen. rewrite <- Hlen.
    apply Z.div_unique with (r := size - 1); lia.
  - rewrite concat_app, length_app in Hlen. cbn [List.concat] in Hlen.
    rewrite app_nil_r in Hlen. rewrite length_app. cbn [List.length] in *.
    apply Z.div_unique with (r := Z.of_nat (S (List.length last)) - 1); lia.
Qed.

Lemma bulk_insert_list_run (l : list models.Employee) (size : Z)
    (db : Database) :
  in_transaction db = false ->
  exists n k,
    bulk_insert (iter_of_list l) size db
    = (Ok n,
       Opened (mk_conn (insert_all (map models.to_row l) (committed db))
                       None k))
    /\ 0 <= n
       <= Z.of_nat (List.length
                      (yielded (models.chunked (iter_of_list l) size))).
Proof.
  intros Htx. unfold bulk_insert. rewrite (transaction_run _ db Htx).
  unfold begun. rewrite handle_file. unfold bind.
  destruct (for_batches_run (yielded (models.chunked (iter_of_list l) size)) 0
              (committed db) (committed db) (changes (handle db)))
    as [total [n' H]].
  destruct (for_batches_count
              (yielded (models.chunked (iter_of_list l) size)) 0
              (mk_conn (committed db) (Some (committed db))
                       (changes (handle db)))
              (chunked_nonempty (iter_of_list l) size))
    as [t [Ht Hle]].
  rewrite H in Ht. cbn [fst] in Ht. injection Ht as <-.
  rewrite H. clear H.
  destruct (chunked_concat (iter_of_list l) size eq_refl) as [Hc Hn].
  rewrite Hn, Hc. unfold ret, commit. cbn [tx changes yielded iter_of_list].
  exists total, n'. split; [reflexivity | lia].
Qed.

Lemma insert_all_record_keys (l : list models.Employee) (s : store)
    (k : string * string) :
  Forall well_formed l ->
  In k (map key (employees (insert_all (map models.to_row l) s)))
  <-> In k (map key (employees s)) \/ In k (map employee_key l).
Proof.
  intros Hwf. rewrite insert_all_keys. apply or_iff_compat_l. split.
  - intros [g [Hin _]]. apply in_map_iff in Hin as [e [He Hin]].
    apply in_map_iff. exists e. split; [|exact Hin].
    unfold models.to_row in He. injection He as H1 H2 _.
    unfold employee_key. destruct k. cbn [fst snd] in *. congruence.
  - intros Hin. apply in_map_iff in Hin as [e [He Hin]].
    exists (models.gender e). split.
    + apply in_map_iff. exists e. split; [|exact Hin].
      subst k. reflexivity.
    + rewrite Forall_forall in Hwf. apply (Hwf e Hin).
Qed.

Section bulk_fill_facts.

Variable rng : Type.
Variable _randbelow : Z -> rng -> Z * rng.
Hypothesis _randbelow_range :
  forall n g, 0 < n -> 0 <= fst (_randbelow n g) < n.

Lemma stream_well_formed (total : Z) (g : rng) :
  List.length (fst (utils.stream rng _randbelow total g)) = Z.to_nat total
  /\ Forall well_formed (fst (utils.stream rng _randbelow total g)).
Proof.
  unfold utils.stream.
  destruct (for_range_spec rng (fun _ e => well_formed e)
              (utils.stream_item rng _randbelow) (Z.to_nat total) 0 g)
    as [Hlen Hnth].
  - intros idx g' Hidx. unfold utils.stream_item.
    change (Z.of_nat (List.length utils._letters)) with 26.
    change (Z.of_nat (List.length ["Male"; "Female"])) with 2.
    assert (Hk : 0 <= idx mod 26 < 26) by (apply Z.mod_pos_bound; lia).
    destruct (letter_facts (idx mod 26) Hk) as (c & Hitem & Hs & Hu & HF & Hf).
    rewrite Hitem.
    apply (generate_shape rng _randbelow _randbelow_range); try assumption.
    destruct (String.eqb _ _); [now left|].
    assert (H2 : 0 <= idx mod 2 < 2) by (apply Z.mod_pos_bound; lia).
    assert (H2' : idx mod 2 = 0 \/ idx mod 2 = 1) by lia.
    destruct H2' as [-> | ->]; [now left | now right].
  - split; [assumption|]. apply Forall_forall. intros e He.
    apply In_nth_error in He as [i Hi]. exact (Hnth i e Hi).
Qed.

Lemma male_surname_f_well_formed (count : Z) (g : rng) :
  List.length (fst (utils.male_surname_f rng _randbelow count g))
  = Z.to_nat count
  /\ Forall well_formed (fst (utils.male_surname_f rng _randbelow count g)).
Proof.
  unfold utils.male_surname_f.
  destruct (for_range_spec rng (fun _ e => well_formed e)
              (fun idx => utils.generate rng _randbelow "Male" "F"
                                         (idx + 1000000))
              (Z.to_nat count) 0 g) as [Hlen Hnth].
  - intros idx g' _.
    apply (generate_shape rng _randbelow _randbelow_range "Male" "F"%char);
      [now left | reflexivity | reflexivity].
  - split; [assumption|]. apply Forall_forall. intros e He.
    apply In_nth_error in He as [i Hi]. exact (Hnth i e Hi).
Qed.

(** [mode_bulk_fill] on a handle with no transaction open and a table as
    the repository keeps it: it does not raise; afterwards the table
    still is as the repository keeps it and holds exactly the keys it had
    and the keys of the 1,000,100 generated records; the two counts it
    prints are at most 100 (the number of batches) and at most 1. *)
Theorem mode_bulk_fill_outcome (g : rng) (w : main.world) :
  in_transaction (main.db w) = false ->
  table_ok (committed (main.db w)) ->
  let primary := utils.stream rng _randbelow 1000000 g in
  let special := utils.male_surname_f rng _randbelow 100 (snd primary) in
  let (r, w') := main.mode_bulk_fill rng _randbelow g w in
  exists n1 n2,
    r = Ok tt
    /\ main.stdout w'
       = main.stdout w
         ++ [ "Generating and inserting 1,000,000 rows...";
              ("Inserted " ++ main.str n1 ++ " primary rows.")%string;
              "Adding 100 special rows (Male, surname starts with 'F')...";
              ("Inserted " ++ main.str n2 ++ " special rows.")%string ]
    /\ 0 <= n1 <= 100
    /\ 0 <= n2 <= 1
    /\ table_ok (committed (main.db w'))
    /\ forall k,
         In k (map key (employees (committed (main.db w'))))
         <-> In k (map key (employees (committed (main.db w))))
             \/ In k (map employee_key (fst primary ++ fst special)).
Proof.
  intros Htx Hok. cbv zeta.
  unfold main.mode_bulk_fill. cbv zeta.
  unfold bind at 1, main.print at 1.
  destruct (stream_well_formed 1000000 g) as [Hlen1 Hwf1].
  destruct (utils.stream rng _randbelow 1000000 g) as [primary g1].
  cbn [fst snd] in *.
  destruct (male_surname_f_well_formed 100 g1) as [Hlen2 Hwf2].
  destruct (utils.male_surname_f rng _randbelow 100 g1) as [special g2].
  cbn [fst snd] in *.
  unfold bind at 1, main.on_repository at 1. cbn [main.db main.stdout].
  destruct (bulk_insert_list_run primary default_batch_size (main.db w) Htx)
    as (n1 & k1 & Hrun1 & Hn1).
  rewrite Hrun1.
  unfold bind at 1, main.print at 1. cbn [main.db main.stdout].
  unfold bind at 1, main.print at 1. cbn [main.db main.stdout].
  unfold bind at 1, main.on_repository at 1. cbn [main.db main.stdout].
  set (s1 := insert_all (map models.to_row primary) (committed (main.db w))).
  destruct (bulk_insert_list_run special default_batch_size
              (Opened (mk_conn s1 None k1)) eq_refl)
    as (n2 & k2 & Hrun2 & Hn2).
  rewrite Hrun2. unfold main.print. cbn [main.db main.stdout committed file].
  rewrite (chunked_count primary default_batch_size) in Hn1
    by (unfold default_batch_size; lia).
  rewrite (chunked_count special default_batch_size) in Hn2
    by (unfold default_batch_size; lia).
  rewrite Hlen1, Z2Nat.id in Hn1 by lia.
  rewrite Hlen2, Z2Nat.id in Hn2 by lia.
  unfold default_batch_size in Hn1, Hn2.
  change ((1000000 + 10000 - 1) / 10000) with 100 in Hn1.
  change ((100 + 10000 - 1) / 10000) with 1 in Hn2.
  exists n1, n2. split; [reflexivity|]. split.
  { rewrite <- !app_assoc. reflexivity. }
  split; [exact Hn1|]. split; [exact Hn2|].
  assert (Hwf : forall l, Forall well_formed l ->
            Forall (fun e => strip (models.full_name e) = models.full_name e
                             /\ valid_date (models.birth_date e) = true) l).
  { intros l Hl. eapply Forall_impl; [|exact Hl]. cbv beta.
    intros e (H1 & H2 & _). now split. }
  split.
  - apply insert_all_table_ok; [now apply Hwf|].
    apply insert_all_table_ok; [now apply Hwf | exact Hok].
  - intros k. rewrite (insert_all_record_keys special s1 k Hwf2).
    unfold s1. rewrite (insert_all_record_keys primary _ k Hwf1).
    rewrite map_app, in_app_iff. tauto.
Qed.

End bulk_fill_facts.

Lemma mode_bulk_fill_outcome_witness :
  let g := 42 in
  let w := main.mk_world examples.empty_db [] in
  let primary := utils.stream Z examples.lcg 1000000 g in
  let special := utils.male_surname_f Z examples.lcg 100 (snd primary) in
  let (r, w') := main.mode_bulk_fill Z examples.lcg g w in
  exists n1 n2,
    r = Ok tt
    /\ main.stdout w'
       = main.stdout w
         ++ [ "Generating and inserting 1,000,000 rows...";
              ("Inserted " ++ main.str n1 ++ " primary rows.")%string;
              "Adding 100 special rows (Male, surname starts with 'F')...";
              ("Inserted " ++ main.str n2 ++ " special rows.")%string ]
    /\ 0 <= n1 <= 100
    /\ 0 <= n2 <= 1
    /\ table_ok (committed (main.db w'))
    /\ forall k,
         In k (map key (employees (committed (main.db w'))))
         <-> In k (map key (employees (committed (main.db w))))
             \/ In k (map employee_key (fst primary ++ fst special)).
Proof.
  apply (mode_bulk_fill_outcome Z examples.lcg lcg_range 42
           (main.mk_world examples.empty_db [])).
  - reflexivity.
  - repeat split; constructor.
Defined.

(** *** The dispatch of [main] *)

Section dispatch.

Variable rng : Type.
Variable _randbelow : Z -> rng -> Z * rng.
Variable mode_filter : main.W unit.
Variable mode_optimize : main.W unit.
Variable mode_index_and_compress : list string -> main.W unit.
Variable mode_compressed_table_handler : main.W unit.

(** [main] with a mode from 1 to 8 runs the handler of that mode and then
    closes the database, however the handler ended: the result and the
    output are the handler's, and the database object is left closed
    over the committed content of the file, so that writes of a
    transaction the handler left open are gone.  With any other mode it
    raises a [ValueError] and touches nothing. *)
Theorem main_closes_database (mode : Z) (params : list string)
    (clock : nat -> date) (generator : rng) (w : main.world) :
  let run :=
    main.main rng _randbelow mode_filter mode_optimize
              mode_index_and_compress mode_compressed_table_handler
              mode params clock generator in
  if (1 <=? mode) && (mode <=? 8)
  then exists handler,
         main.mode_handlers rng _randbelow mode_filter mode_optimize
           mode_index_and_compress mode_compressed_table_handler
           params clock generator mode = Some handler
         /\ fst (run w) = fst (handler w)
         /\ main.stdout (snd (run w)) = main.stdout (snd (handler w))
         /\ main.db (snd (run w))
            = Closed (committed (main.db (snd (handler w))))
  else run w
       = (Raised (mk_exn ValueError "Mode must be an integer between 1 and 8."),
          w).
Proof.
  cbv zeta. unfold main.main.
  assert (Hclose : forall (h : main.W unit),
            let out := main.try_finally h (main.on_repository close) w in
            fst out = fst (h w)
            /\ main.stdout (snd out) = main.stdout (snd (h w))
            /\ main.db (snd out) = Closed (committed (main.db (snd (h w))))).
  { intros h. cbv zeta. unfold main.try_finally, main.on_repository, close.
    destruct (h w) as [r [d out]]. cbn [main.db main.stdout].
    destruct d as [f|c]; cbn; auto. }
  destruct ((1 <=? mode) && (mode <=? 8)) eqn:Hm.
  - apply andb_prop in Hm as [H1 H8].
    apply Z.leb_le in H1. apply Z.leb_le in H8.
    assert (Hcases : mode = 1 \/ mode = 2 \/ mode = 3 \/ mode = 4
                     \/ mode = 5 \/ mode = 6 \/ mode = 7 \/ mode = 8) by lia.
    destruct Hcases as [->|[->|[->|[->|[->|[->|[->| ->]]]]]]];
      cbn [main.mode_handlers Z.eqb Pos.eqb];
      (eexists; split; [reflexivity | apply Hclose]).
  - assert (Hnone : main.mode_handlers rng _randbelow mode_filter mode_optimize
                      mode_index_and_compress mode_compressed_table_handler
                      params clock generator mode = None).
    { unfold main.mode_handlers.
      apply andb_false_iff in Hm.
      repeat match goal with
             | |- context [mode =? ?k] =>
                 destruct (mode =? k) eqn:E;
                 [apply Z.eqb_eq in E; subst mode;
                  destruct Hm as [Hm|Hm]; discriminate
                 | clear E]
             end.
      reflexivity. }
    rewrite Hnone. reflexivity.
Qed.

End dispatch.
